(** * Image-ingestion pipeline of flask_sql_aws: a shallow embedding

    The development follows the Python sources:
    - [app/app.py]      : [allowed_file], [calculate_md5], [validate_image],
                          [analyze_image_with_gemini], [upload_image];
    - [app/db.py]       : [DatabaseManager.check_image_exists],
                          [DatabaseManager.save_image_metadata];
    - [app/s3_utils.py] : [S3Manager._ensure_bucket_exists], [upload_file],
                          [get_file_url];
    - [app/auth.py]     : [require_api_key];
    - [simple_app.py]   : [upload_image] and [list_images] of the variant that
                          keeps its records in memory.

    Library code the sources call (hashlib, PIL, psycopg2, boto3, json,
    werkzeug) is represented by its documented behaviour; whatever such a
    library decides on its own (a fault, a generated value) is read from an
    explicit environment record. *)

From Stdlib Require Import ZArith Ascii String Lia.
From Stdlib.Strings Require Import Byte.
From stdpp Require Import base option list gmap strings.
From Equations Require Import Equations.

Local Open Scope Z_scope.

(** ** Byte streams ([io.BytesIO] / werkzeug [FileStorage.stream]) *)

Module Stream.

Record File : Type := mkFile { content : list byte; pos : nat }.

(** [f.seek(0)] *)
Definition seek0 (f : File) : File := mkFile (content f) 0.

(** [f.seek(0, 2)]: move to the end of the stream. *)
Definition seek_end (f : File) : File :=
  mkFile (content f) (length (content f)).

(** [f.tell()] *)
Definition tell (f : File) : nat := pos f.

(** [f.read(n)]: at most [n] bytes from the current position; the
    position advances by the number of bytes returned. *)
Definition read (n : nat) (f : File) : list byte * File :=
  let chunk := take n (drop (pos f) (content f)) in
  (chunk, mkFile (content f) (pos f + length chunk)).

(** [f.read()]: everything from the current position to the end. *)
Definition read_all (f : File) : list byte * File :=
  let chunk := drop (pos f) (content f) in
  (chunk, mkFile (content f) (pos f + length chunk)).

Definition remaining (f : File) : nat := length (content f) - pos f.

End Stream.

(** ** MD5 (RFC 1321) and the [hashlib.md5] object *)

Module MD5.

Definition w32 (z : Z) : Z := z mod 2 ^ 32.

Definition not32 (x : Z) : Z := Z.lxor x 0xFFFFFFFF.

Definition rotl (x c : Z) : Z :=
  w32 (Z.lor (Z.shiftl x c) (Z.shiftr x (32 - c))).

Definition K : list Z :=
  [ 0xd76aa478; 0xe8c7b756; 0x242070db; 0xc1bdceee;
    0xf57c0faf; 0x4787c62a; 0xa8304613; 0xfd469501;
    0x698098d8; 0x8b44f7af; 0xffff5bb1; 0x895cd7be;
    0x6b901122; 0xfd987193; 0xa679438e; 0x49b40821;
    0xf61e2562; 0xc040b340; 0x265e5a51; 0xe9b6c7aa;
    0xd62f105d; 0x02441453; 0xd8a1e681; 0xe7d3fbc8;
    0x21e1cde6; 0xc33707d6; 0xf4d50d87; 0x455a14ed;
    0xa9e3e905; 0xfcefa3f8; 0x676f02d9; 0x8d2a4c8a;
    0xfffa3942; 0x8771f681; 0x6d9d6122; 0xfde5380c;
    0xa4beea44; 0x4bdecfa9; 0xf6bb4b60; 0xbebfbc70;
    0x289b7ec6; 0xeaa127fa; 0xd4ef3085; 0x04881d05;
    0xd9d4d039; 0xe6db99e5; 0x1fa27cf8; 0xc4ac5665;
    0xf4292244; 0x432aff97; 0xab9423a7; 0xfc93a039;
    0x655b59c3; 0x8f0ccc92; 0xffeff47d; 0x85845dd1;
    0x6fa87e4f; 0xfe2ce6e0; 0xa3014314; 0x4e0811a1;
    0xf7537e82; 0xbd3af235; 0x2ad7d2bb; 0xeb86d391 ].

Definition R : list Z :=
  [ 7; 12; 17; 22; 7; 12; 17; 22; 7; 12; 17; 22; 7; 12; 17; 22;
    5; 9; 14; 20; 5; 9; 14; 20; 5; 9; 14; 20; 5; 9; 14; 20;
    4; 11; 16; 23; 4; 11; 16; 23; 4; 11; 16; 23; 4; 11; 16; 23;
    6; 10; 15; 21; 6; 10; 15; 21; 6; 10; 15; 21; 6; 10; 15; 21 ].

(** The four chaining words. *)
Record words : Type := mkWords { wa : Z; wb : Z; wc : Z; wd : Z }.

Definition iv : words :=
  mkWords 0x67452301 0xefcdab89 0x98badcfe 0x10325476.

Definition byteZ (b : byte) : Z := Z.of_N (Byte.to_N b).

(** Little-endian 32-bit words of a block. *)
Fixpoint le_words (bs : list byte) : list Z :=
  match bs with
  | b0 :: b1 :: b2 :: b3 :: rest =>
      (byteZ b0 + 2 ^ 8 * byteZ b1 + 2 ^ 16 * byteZ b2 + 2 ^ 24 * byteZ b3)
        :: le_words rest
  | _ => []
  end.

Definition step (m : list Z) (s : words) (i : nat) : words :=
  let '(mkWords a b c d) := s in
  let q := (i / 16)%nat in
  let f :=
    match q with
    | 0%nat => Z.lor (Z.land b c) (Z.land (not32 b) d)
    | 1%nat => Z.lor (Z.land d b) (Z.land (not32 d) c)
    | 2%nat => Z.lxor (Z.lxor b c) d
    | _ => Z.lxor c (Z.lor b (not32 d))
    end in
  let g :=
    match q with
    | 0%nat => i
    | 1%nat => ((5 * i + 1) mod 16)%nat
    | 2%nat => ((3 * i + 5) mod 16)%nat
    | _ => ((7 * i) mod 16)%nat
    end in
  let f' := w32 (f + a + nth i K 0 + nth g m 0) in
  mkWords d (w32 (b + rotl f' (nth i R 0))) b c.

(** One 64-byte block folded into the chaining value. *)
Definition compress (h : words) (block : list byte) : words :=
  let s := fold_left (step (le_words block)) (seq 0 64) h in
  mkWords (w32 (wa h + wa s)) (w32 (wb h + wb s))
          (w32 (wc h + wc s)) (w32 (wd h + wd s)).

(** The [hashlib.md5()] object: chaining value, the bytes of the block
    being filled, and the number of bytes fed so far. *)
Record hasher : Type := mkHasher { chain : words; pending : list byte; fed : Z }.

Definition new : hasher := mkHasher iv [] 0.

Definition feed (o : hasher) (b : byte) : hasher :=
  let blk := pending o ++ [b] in
  if (length blk =? 64)%nat
  then mkHasher (compress (chain o) blk) [] (fed o + 1)
  else mkHasher (chain o) blk (fed o + 1).

(** [o.update(data)] *)
Definition update (o : hasher) (data : list byte) : hasher :=
  fold_left feed data o.

Definition zero_byte : byte := "000"%byte.

Definition byte_of_Z (z : Z) : byte :=
  default zero_byte (Byte.of_N (Z.to_N (z mod 256))).

Definition le_bytes (n : nat) (z : Z) : list byte :=
  map (fun i => byte_of_Z (Z.shiftr z (8 * Z.of_nat i))) (seq 0 n).

(** Padding: 0x80, zeros up to 56 mod 64, then the bit length on 64 bits. *)
Definition finish (o : hasher) : words :=
  let bits := (8 * fed o) mod 2 ^ 64 in
  let o1 := feed o "128"%byte in
  let z := ((64 + 56 - length (pending o1)) mod 64)%nat in
  let o2 := update o1 (replicate z zero_byte) in
  chain (update o2 (le_bytes 8 bits)).

Definition hex_digit (z : Z) : ascii :=
  nth (Z.to_nat z) (list_ascii_of_string "0123456789abcdef") "0"%char.

Definition hex_byte (b : byte) : list ascii :=
  [hex_digit (byteZ b / 16); hex_digit (byteZ b mod 16)].

(** The 16 bytes of a digest: A, B, C, D, each little-endian. *)
Definition digest_bytes (w : words) : list byte :=
  le_bytes 4 (wa w) ++ le_bytes 4 (wb w) ++ le_bytes 4 (wc w) ++ le_bytes 4 (wd w).

Definition hex (bs : list byte) : string :=
  string_of_list_ascii (concat (map hex_byte bs)).

(** [o.digest()] *)
Definition digest (o : hasher) : list byte := digest_bytes (finish o).

(** [o.hexdigest()] *)
Definition hexdigest (o : hasher) : string := hex (digest o).

(** [hashlib.md5(data).hexdigest()]: the whole buffer in one update. *)
Definition md5_hex (data : list byte) : string := hexdigest (update new data).

(** *** The digest as RFC 1321 defines it, on the whole message *)

(** Steps 1 and 2: a 1 bit, zero bits up to 448 modulo 512, then the length
    in bits on 64 bits, low-order byte first. *)
Definition padding (len : nat) : list byte :=
  "128"%byte :: replicate (Z.to_nat ((55 - Z.of_nat len) mod 64)) zero_byte
             ++ le_bytes 8 ((8 * Z.of_nat len) mod 2 ^ 64).

(** The first [n] 64-byte blocks of a message. *)
Fixpoint blocks (n : nat) (l : list byte) : list (list byte) :=
  match n with
  | O => []
  | S k => take 64 l :: blocks k (drop 64 l)
  end.

(** Steps 3 and 4: the blocks of the padded message folded into the initial
    chaining value. *)
Definition rfc_words (data : list byte) : words :=
  let m := data ++ padding (length data) in
  fold_left compress (blocks (length m / 64) m) iv.

(** Step 5. *)
Definition rfc_md5_hex (data : list byte) : string := hex (digest_bytes (rfc_words data)).

End MD5.

Definition bytes_of_string (s : string) : list byte :=
  map byte_of_ascii (list_ascii_of_string s).

(** ** app.py: [calculate_md5] *)

Definition inspect {A : Type} (a : A) : { b : A | a = b } := exist _ a eq_refl.

Definition CHUNK : nat := 4096.

#[local] Opaque CHUNK.

(** [for chunk in iter(lambda: file_obj.read(4096), b""): hash_md5.update(chunk)] *)
Equations? md5_loop (f : Stream.File) (h : MD5.hasher) : MD5.hasher * Stream.File
  by wf (Stream.remaining f) lt :=
  md5_loop f h with inspect (Stream.read CHUNK f) := {
    | exist _ ([], f') _ := (h, f');
    | exist _ (b :: chunk, f') e := md5_loop f' (MD5.update h (b :: chunk)) }.
Proof.
  unfold Stream.remaining; simpl.
  assert (Hl : (length (take CHUNK (drop (Stream.pos f) (Stream.content f))) <=
                length (Stream.content f) - Stream.pos f)%nat).
  { rewrite length_take, length_drop. lia. }
  match goal with H : take _ _ = _ :: _ |- _ => rewrite H in * end.
  simpl in *. lia.
Qed.

#[local] Transparent CHUNK.

Definition calculate_md5 (file_obj : Stream.File) : string * Stream.File :=
  let hash_md5 := MD5.new in
  let f1 := Stream.seek0 file_obj in
  let '(hash_md5, f2) := md5_loop f1 hash_md5 in
  let f3 := Stream.seek0 f2 in
  (MD5.hexdigest hash_md5, f3).

(** ** Python values and built-ins used by the sources *)

#[local] Set Warnings "-register-all".

Module Py.

Local Open Scope char_scope.

(** What [json.loads] can return. *)
Inductive value : Type :=
| PNone
| PBool (b : bool)
| PInt (z : Z)
| PFloat (repr : string)
| PStr (s : string)
| PList (items : list value)
| PDict (items : list (string * value)).

Inductive exn : Type :=
| ClientError (code : option string)     (* botocore: response['Error']['Code'], when present *)
| NoCredentialsError
| PoolError
| UniqueViolation (constraint : string)  (* psycopg2.errors.UniqueViolation *)
| DatabaseError (msg : string)           (* any other psycopg2.Error *)
| TypeError
| KeyError
| ValueError
| OtherError (msg : string).

Definition is_upper (c : ascii) : bool :=
  let n := nat_of_ascii c in (65 <=? n)%nat && (n <=? 90)%nat.

Definition lower_char (c : ascii) : ascii :=
  if is_upper c then ascii_of_nat (nat_of_ascii c + 32) else c.

(** [s.lower()], on ASCII. *)
Definition lower (s : string) : string :=
  string_of_list_ascii (map lower_char (list_ascii_of_string s)).

(** ['.' in s] *)
Definition has_dot (s : string) : bool :=
  existsb (Ascii.eqb ".") (list_ascii_of_string s).

Fixpoint after_last_dot (l : list ascii) : option (list ascii) :=
  match l with
  | [] => None
  | c :: r =>
      match after_last_dot r with
      | Some t => Some t
      | None => if Ascii.eqb c "." then Some r else None
      end
  end.

(** [s.rsplit('.', 1)[1]]; [None] stands for the IndexError raised when
    [s] has no dot. *)
Definition rsplit_dot_1 (s : string) : option string :=
  string_of_list_ascii <$> after_last_dot (list_ascii_of_string s).

Fixpoint is_prefix (p l : list ascii) : bool :=
  match p, l with
  | [], _ => true
  | a :: p', b :: l' => Ascii.eqb a b && is_prefix p' l'
  | _ :: _, [] => false
  end.

Fixpoint is_infix (p l : list ascii) : bool :=
  is_prefix p l || match l with [] => false | _ :: l' => is_infix p l' end.

(** [key in container], for a [str] key: membership in a dict's keys,
    equality with a list element, substring of a string; TypeError on a
    value that is not a container. *)
Definition contains (key : string) (container : value) : exn + bool :=
  match container with
  | PDict items => inr (existsb (fun kv => String.eqb (fst kv) key) items)
  | PList items =>
      inr (existsb (fun v => match v with PStr s => String.eqb s key | _ => false end) items)
  | PStr s => inr (is_infix (list_ascii_of_string key) (list_ascii_of_string s))
  | PNone | PBool _ | PInt _ | PFloat _ => inl TypeError
  end.

(** The dict built by [json.loads] keeps the last value of a repeated key. *)
Fixpoint dict_get (key : string) (items : list (string * value)) : option value :=
  match items with
  | [] => None
  | (k, v) :: rest =>
      match dict_get key rest with
      | Some v' => Some v'
      | None => if String.eqb k key then Some v else None
      end
  end.

(** [container[key]], for a [str] key. *)
Definition getitem (container : value) (key : string) : exn + value :=
  match container with
  | PDict items =>
      match dict_get key items with Some v => inr v | None => inl KeyError end
  | _ => inl TypeError
  end.

Definition is_space (c : ascii) : bool :=
  let n := nat_of_ascii c in
  ((9 <=? n)%nat && (n <=? 13)%nat) || ((28 <=? n)%nat && (n <=? 32)%nat).

Definition is_digit (c : ascii) : bool :=
  let n := nat_of_ascii c in (48 <=? n)%nat && (n <=? 57)%nat.

Definition digit_val (c : ascii) : Z := Z.of_nat (nat_of_ascii c - 48).

Fixpoint lstrip (l : list ascii) : list ascii :=
  match l with
  | c :: r => if is_space c then lstrip r else l
  | [] => []
  end.

Definition strip (l : list ascii) : list ascii := rev (lstrip (rev (lstrip l))).

(** Decimal digits, single underscores allowed between two digits.
    [prev_digit] tells whether the previous character was a digit. *)
Fixpoint digits (acc : Z) (prev_digit : bool) (l : list ascii) : option Z :=
  match l with
  | [] => if prev_digit then Some acc else None
  | c :: r =>
      if is_digit c then digits (10 * acc + digit_val c) true r
      else if Ascii.eqb c "_" && prev_digit then digits acc false r
      else None
  end.

(** [int(s)] for a [str] in base 10 (ASCII); [None] is ValueError. *)
Definition int (s : string) : option Z :=
  match strip (list_ascii_of_string s) with
  | "+" :: r => digits 0 false r
  | "-" :: r => Z.opp <$> digits 0 false r
  | l => digits 0 false l
  end.

End Py.

(** ** The state the pipeline acts on *)

(** A row of the [images] table. *)
Record Row : Type := mkRow {
  r_id : string;
  r_s3_key : string;
  r_md5_hash : string;
  r_original_filename : string;
  r_mimetype : string;
  r_filesize : nat;
  r_uploaded_at : Z;
  r_title : Py.value;
  r_description : Py.value;
  r_gemini_analysis : option string
}.

(** [INSERT INTO images (...) VALUES (...)]: the bound parameters.  The
    columns [id] and [uploaded_at] are either named in the statement, with
    their parameter, or left out of it for the table's DEFAULT. *)
Record InsertStmt : Type := mkInsert {
  i_id : option string;
  i_s3_key : string;
  i_md5_hash : string;
  i_original_filename : string;
  i_mimetype : string;
  i_filesize : nat;
  i_uploaded_at : option Z;
  i_title : Py.value;
  i_description : Py.value;
  i_gemini_analysis : option string
}.

(** An object of the bucket. *)
Record Blob : Type := mkBlob {
  b_data : list byte;
  b_content_type : string;
  b_metadata : list (string * string)
}.

Inductive Event : Type :=
| EvGetconn (conn : nat)
| EvPutconn (conn : nat)
| EvSelect (conn : nat) (md5_hash : string)
| EvInsert (conn : nat) (stmt : InsertStmt)
| EvCommit (conn : nat)
| EvRollback (conn : nat)
| EvPutObject (key : string)
| EvPresign (key : string) (expires_in : Z)
| EvHeadBucket
| EvCreateBucket
| EvSleep (seconds : Z).

Record World : Type := mkWorld {
  images : list Row;               (* committed rows of the table *)
  txn : gmap nat (list Row);       (* rows inserted and not yet committed, per connection *)
  in_use : gset nat;               (* connections checked out of the pool *)
  bucket : gmap string Blob;       (* objects of the bucket, by key *)
  head_calls : nat;                (* head_bucket requests served so far *)
  create_calls : nat;              (* create_bucket requests served so far *)
  log : list Event                 (* calls made to the collaborators, oldest first *)
}.

Definition set_images (v : list Row) (w : World) : World :=
  mkWorld v (txn w) (in_use w) (bucket w) (head_calls w) (create_calls w) (log w).
Definition set_txn (v : gmap nat (list Row)) (w : World) : World :=
  mkWorld (images w) v (in_use w) (bucket w) (head_calls w) (create_calls w) (log w).
Definition set_in_use (v : gset nat) (w : World) : World :=
  mkWorld (images w) (txn w) v (bucket w) (head_calls w) (create_calls w) (log w).
Definition set_bucket (v : gmap string Blob) (w : World) : World :=
  mkWorld (images w) (txn w) (in_use w) v (head_calls w) (create_calls w) (log w).
Definition set_head_calls (v : nat) (w : World) : World :=
  mkWorld (images w) (txn w) (in_use w) (bucket w) v (create_calls w) (log w).
Definition set_create_calls (v : nat) (w : World) : World :=
  mkWorld (images w) (txn w) (in_use w) (bucket w) (head_calls w) v (log w).
Definition emit (ev : Event) (w : World) : World :=
  mkWorld (images w) (txn w) (in_use w) (bucket w) (head_calls w) (create_calls w)
          (log w ++ [ev]).

Definition world0 : World := mkWorld [] ∅ ∅ ∅ 0 0 [].

(** ** Exceptions and state: the monad the stateful code runs in *)

Module IO.

Inductive outcome (A : Type) : Type :=
| Ret (a : A)
| Raise (e : Py.exn).
Arguments Ret {A} a.
Arguments Raise {A} e.

Definition M (A : Type) : Type := World -> outcome A * World.

Definition ret {A} (a : A) : M A := fun w => (Ret a, w).

Definition raise {A} (e : Py.exn) : M A := fun w => (Raise e, w).

Definition bind {A B} (m : M A) (k : A -> M B) : M B :=
  fun w => match m w with
           | (Ret a, w') => k a w'
           | (Raise e, w') => (Raise e, w')
           end.

(** [try: m / except Exception as e: h e] *)
Definition try_except {A} (m : M A) (h : Py.exn -> M A) : M A :=
  fun w => match m w with
           | (Ret a, w') => (Ret a, w')
           | (Raise e, w') => h e w'
           end.

(** [try: m / finally: fin]: [fin] runs on every exit of [m]; an
    exception raised by [fin] replaces the outcome of [m]. *)
Definition try_finally {A} (m : M A) (fin : M unit) : M A :=
  fun w => match m w with
           | (r, w') =>
               match fin w' with
               | (Ret _, w'') => (r, w'')
               | (Raise e, w'') => (Raise e, w'')
               end
           end.

(** An effect on the state that cannot fail. *)
Definition act (f : World -> World) : M unit := fun w => (Ret tt, f w).

Definition gets {A} (f : World -> A) : M A := fun w => (Ret (f w), w).

(** A value or the exception raised instead of it. *)
Definition lift {A} (r : Py.exn + A) : M A :=
  match r with inl e => raise e | inr a => ret a end.

End IO.
Export IO.

Declare Scope io_scope.
Delimit Scope io_scope with io.
Notation "'let!' x := m 'in' k" := (bind m (fun x => k))
  (at level 10, x name, m at level 100, k at level 200) : io_scope.
Notation "m ;;; k" := (bind m (fun _ => k))
  (at level 100, k at level 200, right associativity) : io_scope.
Local Open Scope io_scope.

(** ** What the collaborators decide *)

Inductive UnitOfWork : Type := Check | Save.

Inductive DbOp : Type :=
| OpGetconn | OpCursor | OpExecute | OpFetchone | OpCommit | OpCursorClose | OpRollback.

(** [Image.open(f)] followed by [img.verify()]: whether both went through,
    and where they left the read position of [f]. *)
Inductive PilOutcome : Type :=
| PilVerified (left_at : nat)
| PilError (left_at : nat).

(** Modelled from the spec: the definition of the [images] table is not
    among the sources.  The spec has the fingerprint unique across records
    and the identifier unique, and lets the relational store generate the
    identifier and the timestamp of a row that does not bring its own. *)
Record Schema : Type := mkSchema {
  id_unique : bool;
  md5_hash_unique : bool;
  default_id : string;       (* what DEFAULT would put in [id] *)
  default_now : Z            (* what DEFAULT would put in [uploaded_at] *)
}.

Record Env : Type := mkEnv {
  pil : list byte -> PilOutcome;
  secure_filename : string -> string;               (* werkzeug.utils *)
  gemini_api_key : string;                          (* Config.GEMINI_API_KEY *)
  gemini_ready : bool;                              (* import, configure, GenerativeModel *)
  gemini_text : list byte -> option string;         (* generate_content(...).text; None: raised *)
  uuid4 : string;                                   (* str(uuid.uuid4()) *)
  utcnow : Z;                                       (* datetime.utcnow() *)
  db_fault : UnitOfWork -> DbOp -> option Py.exn;   (* a psycopg2 call that raises *)
  schema : Schema;
  s3_head : nat -> option Py.exn;                   (* head_bucket, by request number *)
  s3_create : nat -> option Py.exn;                 (* create_bucket, by request number *)
  s3_put : option Py.exn;                           (* upload_fileobj *)
  s3_presign : string -> Z -> Py.exn + string       (* generate_presigned_url *)
}.

(** ** db.py *)

Module DB.

(** [SimpleConnectionPool(1, 20, ...)] *)
Definition MAXCONN : nat := 20.

(** [self.connection_pool.getconn()]: a connection that is not checked
    out and has no transaction open; PoolError when [MAXCONN] of them are
    checked out. *)
Definition get_connection (env : Env) (u : UnitOfWork) : M nat :=
  fun w =>
    match db_fault env u OpGetconn with
    | Some e => (Raise e, w)
    | None =>
        if (MAXCONN <=? size (in_use w))%nat then (Raise Py.PoolError, w)
        else let c := fresh (in_use w) in
             (Ret c, emit (EvGetconn c)
                       (set_in_use ({[c]} ∪ in_use w) (set_txn (delete c (txn w)) w)))
    end.

(** [self.connection_pool.putconn(conn)]: back to the pool; the pool
    rolls back what the connection left uncommitted. *)
Definition put_connection (conn : nat) : M unit :=
  act (fun w => emit (EvPutconn conn)
                  (set_in_use (in_use w ∖ {[conn]}) (set_txn (delete conn (txn w)) w))).

Definition faulty (env : Env) (u : UnitOfWork) (op : DbOp) : M unit :=
  match db_fault env u op with
  | Some e => raise e
  | None => ret tt
  end.

(** [conn.cursor()] *)
Definition cursor (env : Env) (u : UnitOfWork) (conn : nat) : M unit :=
  faulty env u OpCursor.

(** [cursor.close()] *)
Definition cursor_close (env : Env) (u : UnitOfWork) : M unit :=
  faulty env u OpCursorClose.

(** [cursor.fetchone()] *)
Definition fetchone {A} (env : Env) (u : UnitOfWork) (rows : list A) : M (option A) :=
  faulty env u OpFetchone ;;; ret (head rows).

(** [SELECT id, s3_key, title, description FROM images WHERE md5_hash = %s] *)
Definition execute_select (env : Env) (conn : nat) (md5_hash : string)
  : M (list (string * string * Py.value * Py.value)) :=
  faulty env Check OpExecute ;;;
  act (emit (EvSelect conn md5_hash)) ;;;
  let! rows := gets (fun w => filter (fun r => r_md5_hash r = md5_hash) (images w)) in
  ret (map (fun r => (r_id r, r_s3_key r, r_title r, r_description r)) rows).

(** The row the server makes of an INSERT. *)
Definition row_of (sch : Schema) (s : InsertStmt) : Row :=
  mkRow (default (default_id sch) (i_id s)) (i_s3_key s) (i_md5_hash s)
        (i_original_filename s) (i_mimetype s) (i_filesize s)
        (default (default_now sch) (i_uploaded_at s))
        (i_title s) (i_description s) (i_gemini_analysis s).

Definition violation (sch : Schema) (rows : list Row) (r : Row) : option Py.exn :=
  if id_unique sch && existsb (fun x => String.eqb (r_id x) (r_id r)) rows
  then Some (Py.UniqueViolation "images_pkey")
  else if md5_hash_unique sch
          && existsb (fun x => String.eqb (r_md5_hash x) (r_md5_hash r)) rows
  then Some (Py.UniqueViolation "images_md5_hash_key")
  else None.

(** [INSERT INTO images (...) VALUES (...) RETURNING id] *)
Definition execute_insert (env : Env) (conn : nat) (s : InsertStmt) : M (list string) :=
  faulty env Save OpExecute ;;;
  act (emit (EvInsert conn s)) ;;;
  let r := row_of (schema env) s in
  fun w =>
    let mine := default [] (txn w !! conn) in
    match violation (schema env) (images w ++ mine) r with
    | Some e => (Raise e, w)
    | None => (Ret [r_id r], set_txn (<[conn := mine ++ [r]]> (txn w)) w)
    end.

(** [conn.commit()] *)
Definition commit (env : Env) (conn : nat) : M unit :=
  faulty env Save OpCommit ;;;
  act (fun w => emit (EvCommit conn)
                  (set_txn (delete conn (txn w))
                     (set_images (images w ++ default [] (txn w !! conn)) w))).

(** [conn.rollback()] *)
Definition rollback (env : Env) (u : UnitOfWork) (conn : nat) : M unit :=
  faulty env u OpRollback ;;;
  act (fun w => emit (EvRollback conn) (set_txn (delete conn (txn w)) w)).

(** The shape both units of work share:
    [conn = None / try: conn = acquire; body / except Exception as e:
    handler / finally: fin].  Handler and [fin] see [conn] as the
    assignment left it. *)
Definition unit_of_work {A} (acquire : M nat) (body : nat -> M A)
           (handler : option nat -> Py.exn -> M A)
           (fin : option nat -> M unit) : M A :=
  fun w =>
    match acquire w with
    | (Raise e, w1) => try_finally (handler None e) (fin None) w1
    | (Ret conn, w1) =>
        try_finally (try_except (body conn) (handler (Some conn))) (fin (Some conn)) w1
    end.

(** The dict [check_image_exists] returns. *)
Record Existing : Type := mkExisting {
  e_id : string;
  e_s3_key : string;
  e_title : Py.value;
  e_description : Py.value
}.

Definition check_image_exists (env : Env) (md5_hash : string) : M (option Existing) :=
  unit_of_work
    (get_connection env Check)
    (fun conn =>
       cursor env Check conn ;;;
       let! rows := execute_select env conn md5_hash in
       let! result := fetchone env Check rows in
       cursor_close env Check ;;;
       match result with
       | Some (id, s3_key, title, description) =>
           ret (Some (mkExisting id s3_key title description))
       | None => ret None
       end)
    (fun _ e => raise e)
    (fun conn => match conn with
                 | Some c => put_connection c     (* if conn: self.put_connection(conn) *)
                 | None => ret tt
                 end).

(** [uploaded_at.isoformat()] *)
Inductive iso8601 : Type := Isoformat (t : Z).

(** The dict [save_image_metadata] returns, with the [download_url] key
    that [upload_image] adds to it. *)
Record Saved : Type := mkSaved {
  s_id : string;
  s_s3_key : string;
  s_md5_hash : string;
  s_original_filename : string;
  s_mimetype : string;
  s_filesize : nat;
  s_uploaded_at : iso8601;
  s_title : Py.value;
  s_description : Py.value;
  s_gemini_analysis : option string;
  s_download_url : option string
}.

Definition save_image_metadata (env : Env) (s3_key md5_hash original_filename
    mimetype : string) (filesize : nat) (title description : Py.value)
    (gemini_analysis : option string) : M Saved :=
  unit_of_work
    (get_connection env Save)
    (fun conn =>
       cursor env Save conn ;;;
       let image_id := uuid4 env in
       let uploaded_at := utcnow env in
       let! rows := execute_insert env conn
                 (mkInsert (Some image_id) s3_key md5_hash original_filename mimetype
                           filesize (Some uploaded_at) title description gemini_analysis) in
       let! result := fetchone env Save rows in
       commit env conn ;;;
       cursor_close env Save ;;;
       match result with
       | Some id0 =>
           ret (mkSaved id0 s3_key md5_hash original_filename mimetype filesize
                        (Isoformat uploaded_at) title description gemini_analysis None)
       | None => raise Py.TypeError        (* result[0] on None *)
       end)
    (fun conn e =>
       match conn with
       | Some c => rollback env Save c
       | None => ret tt
       end ;;;
       raise e)
    (fun conn => match conn with
                 | Some c => put_connection c
                 | None => ret tt
                 end).

End DB.

(** ** s3_utils.py *)

Module S3.

(** [try: m / except ClientError as e: h e]: any other exception goes on. *)
Definition except_client_error {A} (m : M A) (h : Py.exn -> option string -> M A) : M A :=
  try_except m (fun e => match e with
                         | Py.ClientError code => h e code
                         | _ => raise e
                         end).

(** [self.s3_client.head_bucket(Bucket=...)] *)
Definition head_bucket (env : Env) : M unit :=
  fun w =>
    let n := head_calls w in
    let w1 := emit EvHeadBucket (set_head_calls (S n) w) in
    match s3_head env n with
    | Some e => (Raise e, w1)
    | None => (Ret tt, w1)
    end.

(** [self.s3_client.create_bucket(Bucket=...)] *)
Definition create_bucket (env : Env) : M unit :=
  fun w =>
    let n := create_calls w in
    let w1 := emit EvCreateBucket (set_create_calls (S n) w) in
    match s3_create env n with
    | Some e => (Raise e, w1)
    | None => (Ret tt, w1)
    end.

(** [time.sleep(d)] *)
Definition sleep (d : Z) : M unit := act (emit (EvSleep d)).

Definition max_retries : nat := 5.

Definition already_exists (error_code : string) : bool :=
  existsb (String.eqb error_code) ["BucketAlreadyExists"; "BucketAlreadyOwnedByYou"]%string.

(** How one turn of the [for] loop ends: the function returns, or the
    loop goes on with the new value of [retry_delay]. *)
Inductive signal : Type :=
| Return
| Continue (retry_delay : Z).

Definition attempt_body (env : Env) (attempt : nat) (retry_delay : Z) : M signal :=
  except_client_error
    (head_bucket env ;;; ret Return)
    (fun e code =>
       match code with
       | None => raise Py.KeyError                (* e.response['Error']['Code'] *)
       | Some c =>
           match Py.int c with
           | None => raise Py.ValueError
           | Some error_code =>
               if error_code =? 404 then
                 except_client_error
                   (create_bucket env ;;; ret Return)
                   (fun create_error ccode =>
                      let error_code := default ""%string ccode in
                      if already_exists error_code then ret Return
                      else if (attempt <? max_retries - 1)%nat then
                             sleep retry_delay ;;;
                             ret (Continue (retry_delay * 2))
                      else raise create_error)
               else raise e
           end
       end).

(** [for attempt in range(max_retries): ...]; leaving the loop at its end
    returns None. *)
Fixpoint attempts (env : Env) (range : list nat) (retry_delay : Z) : M unit :=
  match range with
  | [] => ret tt
  | attempt :: rest =>
      let! s := attempt_body env attempt retry_delay in
      match s with
      | Return => ret tt
      | Continue retry_delay' => attempts env rest retry_delay'
      end
  end.

Definition _ensure_bucket_exists (env : Env) : M unit :=
  let retry_delay := 1 in
  attempts env (seq 0 max_retries) retry_delay.

(** [_init_s3_client]: any failure is logged and raised again. *)
Definition _init_s3_client (env : Env) : M unit :=
  try_except (_ensure_bucket_exists env) (fun e => raise e).

(** [upload_fileobj] sends what the stream holds from its read position
    on; the object replaces what the key held. *)
Definition upload_file (env : Env) (file_obj : Stream.File) (s3_key content_type : string)
  : M bool :=
  try_except
    (match s3_put env with
     | Some e => raise e
     | None =>
         act (fun w =>
                emit (EvPutObject s3_key)
                  (set_bucket
                     (<[s3_key := mkBlob (fst (Stream.read_all file_obj)) content_type
                                    [("uploaded_by", "image_api")]%string]> (bucket w)) w)) ;;;
         ret true
     end)
    (fun e => raise e).

(** [get_file_url(s3_key, expiration=3600)]; [expiration = None] is a
    call that leaves the argument out. *)
Definition get_file_url (env : Env) (s3_key : string) (expiration : option Z) : M string :=
  let expiration := default 3600 expiration in
  try_except
    (act (emit (EvPresign s3_key expiration)) ;;;
     lift (s3_presign env s3_key expiration))
    (fun e => raise e).

End S3.

(** ** app.py *)

Module App.

Definition ALLOWED_EXTENSIONS : list string :=
  ["png"; "jpg"; "jpeg"; "gif"; "bmp"; "webp"]%string.

Definition allowed_file (filename : string) : bool :=
  Py.has_dot filename &&
  match Py.rsplit_dot_1 filename with
  | Some ext => existsb (String.eqb (Py.lower ext)) ALLOWED_EXTENSIONS
  | None => false
  end.

(** The [except] branch returns without a [seek]: the stream stays where
    PIL left it. *)
Definition validate_image (env : Env) (file_obj : Stream.File) : bool * Stream.File :=
  let f1 := Stream.seek0 file_obj in
  match pil env (Stream.content f1) with
  | PilVerified p => (true, Stream.seek0 (Stream.mkFile (Stream.content f1) p))
  | PilError p => (false, Stream.mkFile (Stream.content f1) p)
  end.

Definition analyze_image_with_gemini (env : Env) (file_obj : Stream.File)
  : option string * Stream.File :=
  if String.eqb (gemini_api_key env) "" then (None, file_obj)
  else if negb (gemini_ready env) then (None, file_obj)
  else
    let f1 := Stream.seek0 file_obj in
    let '(image_data, f2) := Stream.read_all f1 in
    let f3 := Stream.seek0 f2 in
    match gemini_text env image_data with
    | Some text => (if String.eqb text "" then None else Some text, f3)
    | None => (None, f3)
    end.

Record FileStorage : Type := mkFileStorage {
  filename : string;
  content_type : option string;
  stream : Stream.File
}.

(** [request.form['metadata']], by what [json.loads] makes of it. *)
Inductive FormField : Type :=
| NotJson
| Json (v : Py.value).

Record Request : Type := mkRequest {
  image_file : option FileStorage;      (* request.files.get('image_file') *)
  metadata_field : option FormField     (* request.form.get('metadata') *)
}.

(** The JSON bodies [upload_image] answers with (the [message] texts that
    go with [error] are left out). *)
Inductive Body : Type :=
| Error (error : string)
| Duplicate (error : string) (existing_image : DB.Existing)
| Uploaded (message : string) (data : DB.Saved).

Record Response : Type := mkResponse { status : nat; body : Body }.

(** What [upload_image] holds once the duplicate check has passed. *)
Record Pending : Type := mkPending {
  p_file : Stream.File;
  p_metadata : Py.value;
  p_original_filename : string;
  p_mimetype : string;
  p_filesize : nat;
  p_md5_hash : string
}.

Definition set_download_url (url : string) (s : DB.Saved) : DB.Saved :=
  DB.mkSaved (DB.s_id s) (DB.s_s3_key s) (DB.s_md5_hash s) (DB.s_original_filename s)
             (DB.s_mimetype s) (DB.s_filesize s) (DB.s_uploaded_at s) (DB.s_title s)
             (DB.s_description s) (DB.s_gemini_analysis s) (Some url).

(** [upload_image], from the request checks to the duplicate check. *)
Definition upload_check (env : Env) (req : Request) : M (Response + Pending) :=
  match image_file req with
  | None => ret (inl (mkResponse 400 (Error "No image file provided")))
  | Some file =>
  match metadata_field req with
  | None => ret (inl (mkResponse 400 (Error "No metadata provided")))
  | Some field =>
      if String.eqb (filename file) "" then
        ret (inl (mkResponse 400 (Error "No file selected")))
      else if negb (allowed_file (filename file)) then
        ret (inl (mkResponse 400 (Error "Invalid file type")))
      else
        let '(valid, f1) := validate_image env (stream file) in
        if negb valid then
          ret (inl (mkResponse 400 (Error "Invalid image file")))
        else
          match field with
          | NotJson => ret (inl (mkResponse 400 (Error "Invalid metadata format")))
          | Json metadata =>
              let! has_title := lift (Py.contains "title" metadata) in
              let! missing :=
                (if negb has_title then ret true
                 else let! has_description := lift (Py.contains "description" metadata) in
                      ret (negb has_description)) in
              if (missing : bool) then
                ret (inl (mkResponse 400 (Error "Missing required metadata")))
              else
                let original_filename := secure_filename env (filename file) in
                let mimetype :=
                  match content_type file with
                  | Some t => if String.eqb t "" then "application/octet-stream"%string else t
                  | None => "application/octet-stream"%string
                  end in
                let f2 := Stream.seek_end f1 in
                let filesize := Stream.tell f2 in
                let f3 := Stream.seek0 f2 in
                let '(md5_hash, f4) := calculate_md5 f3 in
                let! existing_image := DB.check_image_exists env md5_hash in
                match existing_image with
                | Some existing =>
                    ret (inl (mkResponse 409 (Duplicate "Image already exists" existing)))
                | None =>
                    ret (inr (mkPending f4 metadata original_filename mimetype
                                        filesize md5_hash))
                end
          end
  end
  end.

(** [upload_image], from the annotation to the answer. *)
Definition upload_store (env : Env) (p : Pending) : M Response :=
  let '(gemini_analysis, f5) := analyze_image_with_gemini env (p_file p) in
  let s3_key := ("images/" ++ p_md5_hash p ++ "_" ++ p_original_filename p)%string in
  S3.upload_file env f5 s3_key (p_mimetype p) ;;;
  let! title := lift (Py.getitem (p_metadata p) "title") in
  let! description := lift (Py.getitem (p_metadata p) "description") in
  let! saved_metadata :=
    DB.save_image_metadata env s3_key (p_md5_hash p) (p_original_filename p)
      (p_mimetype p) (p_filesize p) title description gemini_analysis in
  let! saved_metadata :=
    try_except
      (let! download_url := S3.get_file_url env s3_key None in
       ret (set_download_url download_url saved_metadata))
      (fun _ => ret saved_metadata) in
  ret (mkResponse 201 (Uploaded "Image uploaded successfully" saved_metadata)).

(** The body of the outer [try]. *)
Definition upload_body (env : Env) (req : Request) : M Response :=
  let! r := upload_check env req in
  match r with
  | inl response => ret response
  | inr p => upload_store env p
  end.

(** The outer [try ... except Exception] of [upload_image]. *)
Definition answer (m : M Response) (w : World) : Response * World :=
  match m w with
  | (Ret response, w') => (response, w')
  | (Raise _, w') => (mkResponse 500 (Error "Internal server error"), w')
  end.

Definition upload_image (env : Env) (req : Request) : World -> Response * World :=
  answer (upload_body env req).

End App.

(** * Properties *)

(** ** The hasher *)

Section Hashing.

Import Stream.

Lemma update_app (o : MD5.hasher) (a b : list byte) :
  MD5.update (MD5.update o a) b = MD5.update o (a ++ b).
Proof. unfold MD5.update. now rewrite fold_left_app. Qed.

Lemma take_chunk_nil (l : list byte) : take CHUNK l = [] -> l = [].
Proof. destruct l; [reflexivity | discriminate]. Qed.

(** The loop feeds the hasher everything from the read position on and
    leaves the content alone. *)
Lemma md5_loop_spec (f : File) (h : MD5.hasher) :
  fst (md5_loop f h) = MD5.update h (drop (pos f) (content f)) /\
  content (snd (md5_loop f h)) = content f.
Proof.
  funelim (md5_loop f h).
  - simpl. apply take_chunk_nil in e'. rewrite e'. auto.
  - destruct H as [H1 H2]. cbn [content pos] in H1, H2. rewrite H1, H2. split; [| reflexivity].
    rewrite update_app. f_equal. rewrite <- e'.
    rewrite <- drop_drop.
    set (l := drop (pos f) (content f)).
    destruct (Nat.le_gt_cases CHUNK (length l)) as [Hle | Hgt].
    + rewrite length_take, Nat.min_l by exact Hle. apply take_drop.
    + rewrite take_ge by lia. rewrite drop_all. apply app_nil_r.
Qed.

Lemma calculate_md5_eq (f : File) :
  calculate_md5 f = (MD5.md5_hex (content f), mkFile (content f) 0).
Proof.
  unfold calculate_md5.
  pose proof (md5_loop_spec (seek0 f) MD5.new) as [H1 H2].
  destruct (md5_loop (seek0 f) MD5.new) as [h f2]. simpl in *.
  subst h. unfold seek0. rewrite H2. unfold MD5.md5_hex. now rewrite drop_0.
Qed.

Lemma length_string_of_list_ascii (l : list ascii) :
  String.length (string_of_list_ascii l) = length l.
Proof. induction l; simpl; congruence. Qed.

Lemma length_concat_hex (l : list byte) :
  length (concat (map MD5.hex_byte l)) = (2 * length l)%nat.
Proof. induction l; simpl in *; lia. Qed.

Lemma hexdigest_length (o : MD5.hasher) : String.length (MD5.hexdigest o) = 32%nat.
Proof.
  unfold MD5.hexdigest, MD5.hex. rewrite length_string_of_list_ascii, length_concat_hex.
  unfold MD5.digest, MD5.digest_bytes, MD5.le_bytes.
  rewrite !length_app, !length_map, !length_seq.
  reflexivity.
Qed.

(** *** The streaming hasher computes the RFC digest *)

Import MD5.

(** Bytes that do not complete the block are kept. *)
Lemma update_fill (l : list byte) :
  forall (h : words) (p : list byte) (n : Z),
    (length p + length l < 64)%nat ->
    update (mkHasher h p n) l = mkHasher h (p ++ l) (n + Z.of_nat (length l)).
Proof.
  induction l as [| b l IH]; intros h p n Hlen.
  - cbn. rewrite app_nil_r, Z.add_0_r. reflexivity.
  - cbn [update fold_left]. unfold feed at 2. cbn [pending chain fed].
    cbn [length] in Hlen.
    replace (length (p ++ [b]) =? 64)%nat with false
      by (symmetry; apply Nat.eqb_neq; rewrite length_app; cbn; lia).
    fold (update (mkHasher h (p ++ [b]) (n + 1)) l).
    rewrite IH by (rewrite length_app; cbn; lia).
    rewrite <- app_assoc. cbn [app length]. f_equal. lia.
Qed.

(** Bytes that complete the block get it compressed. *)
Lemma update_block (l : list byte) :
  forall (h : words) (p : list byte) (n : Z),
    l <> [] -> (length p + length l = 64)%nat ->
    update (mkHasher h p n) l
      = mkHasher (compress h (p ++ l)) [] (n + Z.of_nat (length l)).
Proof.
  induction l as [| b l IH]; intros h p n Hne Hlen; [contradiction |].
  cbn [update fold_left]. unfold feed at 2. cbn [pending chain fed].
  cbn [length] in Hlen.
  destruct l as [| b' l'].
  - replace (length (p ++ [b]) =? 64)%nat with true
      by (symmetry; apply Nat.eqb_eq; rewrite length_app; cbn in *; lia).
    cbn. reflexivity.
  - replace (length (p ++ [b]) =? 64)%nat with false
      by (symmetry; apply Nat.eqb_neq; rewrite length_app; cbn in *; lia).
    fold (update (mkHasher h (p ++ [b]) (n + 1)) (b' :: l')).
    rewrite IH; [| discriminate | rewrite length_app; cbn in *; lia].
    rewrite <- app_assoc. cbn [app]. f_equal. cbn [length]. lia.
Qed.

Lemma update_blocks (k : nat) :
  forall (l : list byte) (h : words) (n : Z),
    length l = (64 * k)%nat ->
    update (mkHasher h [] n) l
      = mkHasher (fold_left compress (blocks k l) h) [] (n + Z.of_nat (length l)).
Proof.
  induction k as [| k IH]; intros l h n Hlen.
  - destruct l; [| discriminate]. cbn. now rewrite Z.add_0_r.
  - rewrite <- (take_drop 64 l) at 1. rewrite <- update_app.
    rewrite (update_block (take 64 l) h [] n).
    + cbn [app]. rewrite IH by (rewrite length_drop; lia).
      cbn [blocks fold_left].
      replace (n + Z.of_nat (length (take 64 l)) + Z.of_nat (length (drop 64 l)))
        with (n + Z.of_nat (length l))
        by (rewrite length_take, length_drop; lia).
      reflexivity.
    + intros E. destruct l; [cbn [length] in Hlen; lia | discriminate].
    + rewrite length_take. cbn [length]. lia.
Qed.

Lemma update_fed (l : list byte) :
  forall o, fed (update o l) = fed o + Z.of_nat (length l).
Proof.
  induction l as [| b l IH]; intros o; [cbn; lia |].
  cbn [update fold_left]. fold (update (feed o b) l). rewrite IH.
  unfold feed. destruct (_ =? _)%nat; cbn [fed length]; lia.
Qed.

Lemma update_pending (l : list byte) :
  forall o, (length (pending o) < 64)%nat ->
    length (pending (update o l)) = ((length (pending o) + length l) mod 64)%nat.
Proof.
  induction l as [| b l IH]; intros o Ho.
  - unfold update. cbn [fold_left length]. rewrite Nat.add_0_r.
    symmetry. now apply Nat.mod_small.
  - cbn [update fold_left]. fold (update (feed o b) l).
    unfold feed. destruct (length (pending o ++ [b]) =? 64)%nat eqn:E.
    + apply Nat.eqb_eq in E. rewrite length_app in E. cbn in E.
      rewrite IH by (cbn; lia). cbn [pending length].
      replace (length (pending o) + S (length l))%nat with (length l + 1 * 64)%nat by lia.
      now rewrite Nat.Div0.mod_add.
    + apply Nat.eqb_neq in E. rewrite length_app in E. cbn in E.
      rewrite IH by (cbn [pending]; rewrite length_app; cbn; lia).
      cbn [pending length]. rewrite length_app. cbn [length]. f_equal. lia.
Qed.

(** The padded message is a whole number of blocks. *)
Lemma padded_length (len : nat) :
  exists k, (len + length (padding len) = 64 * k)%nat.
Proof.
  unfold padding, le_bytes. cbn [length].
  rewrite length_app, length_replicate, length_map, length_seq.
  exists (Z.to_nat (1 - (55 - Z.of_nat len) / 64)).
  pose proof (Z.mod_pos_bound (55 - Z.of_nat len) 64 ltac:(lia)) as Hb.
  pose proof (Z.div_mod (55 - Z.of_nat len) 64 ltac:(lia)) as He.
  lia.
Qed.

(** The zeros [finish] feeds are the zeros of the RFC. *)
Lemma pad_zeros (len : nat) :
  ((64 + 56 - (0 + (len + 1)) mod 64) mod 64)%nat
    = Z.to_nat ((55 - Z.of_nat len) mod 64).
Proof.
  pose proof (Z.mod_pos_bound (55 - Z.of_nat len) 64 ltac:(lia)) as Hb.
  pose proof (Z.div_mod (55 - Z.of_nat len) 64 ltac:(lia)) as He.
  pose proof (Nat.mod_upper_bound (0 + (len + 1)) 64 ltac:(lia)) as Hb1.
  pose proof (Nat.div_mod_eq (0 + (len + 1)) 64) as He1.
  pose proof (Nat.mod_upper_bound (64 + 56 - (0 + (len + 1)) mod 64) 64 ltac:(lia)) as Hb2.
  pose proof (Nat.div_mod_eq (64 + 56 - (0 + (len + 1)) mod 64) 64) as He2.
  lia.
Qed.

Lemma finish_padding (data : list byte) :
  finish (update new data) = chain (update new (data ++ padding (length data))).
Proof.
  unfold finish, padding.
  rewrite update_fed. cbn [new fed]. rewrite Z.add_0_l.
  change (feed (update new data) "128"%byte) with (update (update new data) ["128"%byte]).
  rewrite !update_app.
  rewrite (update_pending (data ++ ["128"%byte]) new) by (cbn; lia).
  cbn [new pending length]. rewrite length_app. cbn [length].
  rewrite pad_zeros. reflexivity.
Qed.

Lemma finish_rfc (data : list byte) : finish (update new data) = rfc_words data.
Proof.
  rewrite finish_padding. unfold rfc_words.
  destruct (padded_length (length data)) as [k Hk].
  assert (Hlen : length (data ++ padding (length data)) = (64 * k)%nat)
    by now rewrite length_app.
  rewrite Hlen. replace (64 * k / 64)%nat with k by (rewrite Nat.mul_comm, Nat.div_mul; lia).
  unfold new. rewrite (update_blocks k) by exact Hlen. reflexivity.
Qed.

(** What [hashlib] returns for a buffer is its RFC 1321 digest. *)
Lemma md5_hex_rfc (data : list byte) : md5_hex data = rfc_md5_hex data.
Proof. unfold md5_hex, hexdigest, digest, rfc_md5_hex. now rewrite finish_rfc. Qed.

(** The test suite of RFC 1321, appendix A.5. *)
Example md5_empty : md5_hex [] = "d41d8cd98f00b204e9800998ecf8427e"%string.
Proof. vm_compute. reflexivity. Qed.

Example md5_a : md5_hex (bytes_of_string "a") = "0cc175b9c0f1b6a831c399e269772661"%string.
Proof. vm_compute. reflexivity. Qed.

Example md5_abc : md5_hex (bytes_of_string "abc") = "900150983cd24fb0d6963f7d28e17f72"%string.
Proof. vm_compute. reflexivity. Qed.

Example md5_message_digest :
  md5_hex (bytes_of_string "message digest") = "f96b697d7cb7938d525a2f31aaf161d0"%string.
Proof. vm_compute. reflexivity. Qed.

Example md5_alphabet :
  rfc_md5_hex (bytes_of_string "abcdefghijklmnopqrstuvwxyz")
    = "c3fcd3d76192e4007dfb496cca67e13b"%string.
Proof. vm_compute. reflexivity. Qed.

Example md5_digits :
  md5_hex (bytes_of_string
    "12345678901234567890123456789012345678901234567890123456789012345678901234567890")
    = "57edf4a22be3c955ac49da2e2107b67a"%string.
Proof. vm_compute. reflexivity. Qed.

End Hashing.

(** C8.  For every byte stream, whatever its read position, the fingerprint
    [calculate_md5] computes by reading 4096-byte chunks is what
    [hashlib.md5] gives for the whole content in one buffer, which is the
    RFC 1321 digest of the content in hexadecimal; it is 32 characters long;
    and it depends on the content only, so two streams with the same bytes
    get the same fingerprint. *)
Theorem C8_chunked_md5_is_md5_of_content :
  forall (data : list byte) (p q : nat),
    fst (calculate_md5 (Stream.mkFile data p)) = MD5.md5_hex data /\
    fst (calculate_md5 (Stream.mkFile data p)) = MD5.rfc_md5_hex data /\
    String.length (fst (calculate_md5 (Stream.mkFile data p))) = 32%nat /\
    fst (calculate_md5 (Stream.mkFile data p)) = fst (calculate_md5 (Stream.mkFile data q)).
Proof.
  intros data p q. rewrite !calculate_md5_eq. cbn [fst Stream.content].
  split; [reflexivity |]. split; [apply md5_hex_rfc |].
  split; [apply hexdigest_length | reflexivity].
Qed.

(** ** The stream position *)

Section StreamPosition.

Import Stream.

Lemma calculate_md5_restores (f : File) :
  snd (calculate_md5 f) = mkFile (content f) 0 /\
  fst (read_all (snd (calculate_md5 f))) = content f.
Proof. rewrite calculate_md5_eq. simpl. now rewrite drop_0. Qed.

Lemma validate_image_valid_restores (env : Env) (f f' : File) :
  App.validate_image env f = (true, f') ->
  f' = mkFile (content f) 0 /\ fst (read_all f') = content f.
Proof.
  unfold App.validate_image. destruct (pil env _); intros H; inversion H; subst.
  simpl. now rewrite drop_0.
Qed.

Lemma validate_image_invalid_position (env : Env) (f : File) (p : nat) :
  pil env (content f) = PilError p ->
  App.validate_image env f = (false, mkFile (content f) p).
Proof. unfold App.validate_image. simpl. now intros ->. Qed.

End StreamPosition.

(** ** Bucket provisioning *)

Section Provisioning.

Fixpoint sleeps (evs : list Event) : list Z :=
  match evs with
  | [] => []
  | EvSleep d :: rest => d :: sleeps rest
  | _ :: rest => sleeps rest
  end.

Lemma sleeps_app (a b : list Event) : sleeps (a ++ b) = sleeps a ++ sleeps b.
Proof.
  induction a as [| ev a IH]; [reflexivity |].
  destruct ev; simpl; rewrite ?IH; reflexivity.
Qed.

(** The head_bucket answer that sends the code on to create_bucket. *)
Definition not_found (r : option Py.exn) : Prop :=
  exists c, r = Some (Py.ClientError (Some c)) /\ Py.int c = Some 404.

(** A create_bucket answer that tells of a bucket made by somebody else. *)
Definition exists_already (r : option Py.exn) : Prop :=
  exists ccode, r = Some (Py.ClientError ccode) /\
                S3.already_exists (default ""%string ccode) = true.

(** A create_bucket answer that is a ClientError of another kind. *)
Definition create_fails (r : option Py.exn) (e : Py.exn) : Prop :=
  exists ccode, r = Some e /\ e = Py.ClientError ccode /\
                S3.already_exists (default ""%string ccode) = false.

Ltac run_io :=
  unfold S3.attempt_body, S3.except_client_error, S3.head_bucket, S3.create_bucket,
         S3.sleep, try_except, bind, ret, raise, act in *.

(** One turn of the loop: one head_bucket, at most one create_bucket; it
    goes on to the next turn only after a sleep of [retry_delay], with the
    delay doubled, and never from the last turn. *)
Lemma attempt_body_spec (env : Env) (attempt : nat) (d : Z) (w : World) :
  let r := fst (S3.attempt_body env attempt d w) in
  let w' := snd (S3.attempt_body env attempt d w) in
  images w' = images w /\ txn w' = txn w /\ in_use w' = in_use w /\ bucket w' = bucket w /\
  head_calls w' = S (head_calls w) /\
  match r with
  | Ret (S3.Continue d') =>
      d' = d * 2 /\ (attempt < S3.max_retries - 1)%nat /\
      create_calls w' = S (create_calls w) /\
      log w' = log w ++ [EvHeadBucket; EvCreateBucket; EvSleep d]
  | _ =>
      (create_calls w' <= S (create_calls w))%nat /\
      exists evs, log w' = log w ++ evs /\ sleeps evs = []
  end.
Proof.
  run_io. simpl.
  destruct (s3_head env (head_calls w)) as [e |]; simpl.
  2: { repeat split; auto. exists [EvHeadBucket]. auto. }
  destruct e as [code | | | | | | | |]; simpl;
    try (repeat split; auto; exists [EvHeadBucket]; auto; fail).
  destruct code as [c |]; simpl.
  2: { repeat split; auto. exists [EvHeadBucket]. auto. }
  destruct (Py.int c) as [z |]; simpl.
  2: { repeat split; auto. exists [EvHeadBucket]. auto. }
  destruct (z =? 404); simpl.
  2: { repeat split; auto. exists [EvHeadBucket]. auto. }
  destruct (s3_create env (create_calls w)) as [ce |]; simpl.
  2: { repeat split; auto. exists [EvHeadBucket; EvCreateBucket].
       rewrite <- app_assoc. auto. }
  destruct ce as [ccode | | | | | | | |]; simpl;
    try (repeat split; auto; exists [EvHeadBucket; EvCreateBucket];
         rewrite <- app_assoc; auto; fail).
  destruct (S3.already_exists (default ""%string ccode)); simpl.
  { repeat split; auto. exists [EvHeadBucket; EvCreateBucket].
    rewrite <- app_assoc. auto. }
  destruct (attempt <? 4)%nat eqn:Hlt; simpl.
  - apply Nat.ltb_lt in Hlt. repeat split; auto.
    rewrite <- !app_assoc. reflexivity.
  - repeat split; auto. exists [EvHeadBucket; EvCreateBucket].
    rewrite <- app_assoc. auto.
Qed.

(** The delays of [n] sleeps in a row, from [d] on. *)
Fixpoint backoff (d : Z) (n : nat) : list Z :=
  match n with
  | O => []
  | S k => d :: backoff (d * 2) k
  end.

Definition may_sleep (range : list nat) : nat :=
  length (List.filter (fun a => (a <? S3.max_retries - 1)%nat) range).

Lemma attempts_cons (env : Env) (attempt : nat) (rest : list nat) (d : Z) (w : World) :
  S3.attempts env (attempt :: rest) d w =
    match S3.attempt_body env attempt d w with
    | (Ret S3.Return, w1) => (Ret tt, w1)
    | (Ret (S3.Continue d'), w1) => S3.attempts env rest d' w1
    | (Raise e, w1) => (Raise e, w1)
    end.
Proof.
  cbn [S3.attempts]. unfold bind.
  destruct (S3.attempt_body env attempt d w) as [[[| d'] | e] w1]; reflexivity.
Qed.

Lemma attempts_spec (env : Env) (range : list nat) :
  forall (d : Z) (w : World),
    let w' := snd (S3.attempts env range d w) in
    images w' = images w /\ txn w' = txn w /\ in_use w' = in_use w /\ bucket w' = bucket w /\
    (head_calls w' <= head_calls w + length range)%nat /\
    (create_calls w' <= create_calls w + length range)%nat /\
    exists evs, log w' = log w ++ evs /\ sleeps evs `prefix_of` backoff d (may_sleep range).
Proof.
  induction range as [| attempt rest IH]; intros d w.
  - simpl. repeat split; auto; try lia. exists []. rewrite app_nil_r. split; auto.
  - rewrite attempts_cons.
    pose proof (attempt_body_spec env attempt d w) as Hb. cbv zeta in Hb.
    destruct (S3.attempt_body env attempt d w) as [r w1]. cbn [fst snd] in Hb.
    destruct Hb as (Hi & Ht & Hu & Hbk & Hh & Hr).
    destruct r as [[| d'] | e].
    + destruct Hr as (Hc & evs & Hl & Hs). cbn [fst snd length].
      repeat split; auto; try lia.
      eexists. split; [exact Hl |]. rewrite Hs. apply prefix_nil.
    + destruct Hr as (-> & Hlt & Hc & Hl).
      specialize (IH (d * 2) w1). cbv zeta in IH.
      destruct IH as (Hi' & Ht' & Hu' & Hbk' & Hh' & Hc' & evs & Hl' & Hs').
      cbn [length]. repeat split; try congruence; try lia.
      exists ([EvHeadBucket; EvCreateBucket; EvSleep d] ++ evs). split.
      * rewrite Hl', Hl. now rewrite <- app_assoc.
      * unfold may_sleep. cbn [List.filter].
        apply Nat.ltb_lt in Hlt. rewrite Hlt. cbn [length backoff sleeps app].
        apply prefix_cons. exact Hs'.
    + destruct Hr as (Hc & evs & Hl & Hs). cbn [fst snd length].
      repeat split; auto; try lia.
      eexists. split; [exact Hl |]. rewrite Hs. apply prefix_nil.
Qed.

(** The world after a turn whose head_bucket and create_bucket both
    answered. *)
Definition after_create (w : World) : World :=
  emit EvCreateBucket (set_create_calls (S (create_calls w))
    (emit EvHeadBucket (set_head_calls (S (head_calls w)) w))).

(** Not found, then a create that tells of an existing bucket: the loop
    ends there, in a normal return. *)
Lemma attempts_race (env : Env) (attempt : nat) (rest : list nat) (d : Z) (w : World) :
  not_found (s3_head env (head_calls w)) ->
  exists_already (s3_create env (create_calls w)) ->
  S3.attempts env (attempt :: rest) d w = (Ret tt, after_create w).
Proof.
  intros (c & Hh & Hc) (ccode & Hcr & Hex).
  cbn [S3.attempts]. run_io. rewrite Hh. cbn. rewrite Hc. cbn.
  rewrite Hcr. cbn. unfold S3.already_exists in Hex. cbn in Hex. rewrite Hex. reflexivity.
Qed.

(** Not found, then a create that goes through. *)
Lemma attempts_created (env : Env) (attempt : nat) (rest : list nat) (d : Z) (w : World) :
  not_found (s3_head env (head_calls w)) ->
  s3_create env (create_calls w) = None ->
  S3.attempts env (attempt :: rest) d w = (Ret tt, after_create w).
Proof.
  intros (c & Hh & Hc) Hcr.
  cbn [S3.attempts]. run_io. rewrite Hh. cbn. rewrite Hc. cbn.
  rewrite Hcr. reflexivity.
Qed.

(** Not found, then a create that fails otherwise: a sleep and the next
    turn, or the error itself from the last turn. *)
Lemma attempt_body_fails (env : Env) (attempt : nat) (d : Z) (w : World) (e : Py.exn) :
  not_found (s3_head env (head_calls w)) ->
  create_fails (s3_create env (create_calls w)) e ->
  S3.attempt_body env attempt d w =
    if (attempt <? S3.max_retries - 1)%nat
    then (Ret (S3.Continue (d * 2)), emit (EvSleep d) (after_create w))
    else (Raise e, after_create w).
Proof.
  intros (c & Hh & Hc) (ccode & Hcr & -> & Hex).
  run_io. rewrite Hh. cbn. rewrite Hc. cbn. rewrite Hcr. cbn.
  unfold S3.already_exists in Hex. cbn in Hex. rewrite Hex.
  match goal with |- context [if ?b then _ else _] => destruct b end; reflexivity.
Qed.

End Provisioning.

(** ** Frame conditions: what a computation leaves alone *)

Class Frame (R : World -> World -> Prop) : Prop := {
  frame_refl : forall w, R w w;
  frame_trans : forall a b c, R a b -> R b c -> R a c
}.

(** [m] takes every world to one related to it by [R], however it ends. *)
Definition preserves (R : World -> World -> Prop) {A} (m : M A) : Prop :=
  forall w, R w (snd (m w)).

Section FrameRules.

Context (R : World -> World -> Prop) `{!Frame R}.

Lemma preserves_ret {A} (a : A) : preserves R (ret a).
Proof. intros w. apply frame_refl. Qed.

Lemma preserves_raise {A} (e : Py.exn) : preserves R (@raise A e).
Proof. intros w. apply frame_refl. Qed.

Lemma preserves_lift {A} (r : Py.exn + A) : preserves R (lift r).
Proof. destruct r; [apply preserves_raise | apply preserves_ret]. Qed.

Lemma preserves_gets {A} (f : World -> A) : preserves R (gets f).
Proof. intros w. apply frame_refl. Qed.

Lemma preserves_act (f : World -> World) :
  (forall w, R w (f w)) -> preserves R (act f).
Proof. intros H w. apply H. Qed.

Lemma preserves_bind {A B} (m : M A) (k : A -> M B) :
  preserves R m -> (forall a, preserves R (k a)) -> preserves R (bind m k).
Proof.
  intros Hm Hk w. unfold bind. specialize (Hm w).
  destruct (m w) as [[a | e] w1]; simpl in *; [| exact Hm].
  eapply frame_trans; [exact Hm | apply Hk].
Qed.

Lemma preserves_try_except {A} (m : M A) (h : Py.exn -> M A) :
  preserves R m -> (forall e, preserves R (h e)) -> preserves R (try_except m h).
Proof.
  intros Hm Hh w. unfold try_except. specialize (Hm w).
  destruct (m w) as [[a | e] w1]; simpl in *; [exact Hm |].
  eapply frame_trans; [exact Hm | apply Hh].
Qed.

Lemma preserves_try_finally {A} (m : M A) (fin : M unit) :
  preserves R m -> preserves R fin -> preserves R (try_finally m fin).
Proof.
  intros Hm Hf w. unfold try_finally. specialize (Hm w).
  destruct (m w) as [r w1]. specialize (Hf w1).
  destruct (fin w1) as [[[] | e] w2]; simpl in *; eapply frame_trans; eauto.
Qed.

Lemma preserves_unit_of_work {A} (acquire : M nat) (body : nat -> M A)
      (handler : option nat -> Py.exn -> M A) (fin : option nat -> M unit) :
  preserves R acquire ->
  (forall c, preserves R (body c)) ->
  (forall o e, preserves R (handler o e)) ->
  (forall o, preserves R (fin o)) ->
  preserves R (DB.unit_of_work acquire body handler fin).
Proof.
  intros Ha Hb Hh Hf w. unfold DB.unit_of_work. specialize (Ha w).
  destruct (acquire w) as [[c | e] w1]; cbn [snd] in Ha.
  - eapply frame_trans; [exact Ha |].
    apply preserves_try_finally; [apply preserves_try_except |]; auto.
  - eapply frame_trans; [exact Ha |]. apply preserves_try_finally; auto.
Qed.

Lemma preserves_faulty (env : Env) (u : UnitOfWork) (op : DbOp) :
  preserves R (DB.faulty env u op).
Proof.
  unfold DB.faulty. destruct (db_fault env u op); [apply preserves_raise | apply preserves_ret].
Qed.

Lemma preserves_fetchone {A} (env : Env) (u : UnitOfWork) (rows : list A) :
  preserves R (DB.fetchone env u rows).
Proof.
  unfold DB.fetchone. apply preserves_bind; [apply preserves_faulty |].
  intros _. apply preserves_ret.
Qed.

End FrameRules.

(** Two conditions at once. *)
Definition both (R1 R2 : World -> World -> Prop) (w w' : World) : Prop :=
  R1 w w' /\ R2 w w'.

#[export] Instance both_frame R1 R2 `{!Frame R1, !Frame R2} : Frame (both R1 R2).
Proof.
  split.
  - intros w. split; apply frame_refl.
  - intros a b c [H1 H2] [H3 H4]. split; eapply frame_trans; eauto.
Qed.

(** The log only grows, and by events that pass the test [q]. *)
Definition quiet (q : Event -> bool) (w w' : World) : Prop :=
  exists evs, log w' = log w ++ evs /\ forallb q evs = true.

#[export] Instance quiet_frame (q : Event -> bool) : Frame (quiet q).
Proof.
  split.
  - intros w. exists []. now rewrite app_nil_r.
  - intros a b c (e1 & H1 & Q1) (e2 & H2 & Q2). exists (e1 ++ e2). split.
    + now rewrite H2, H1, app_assoc.
    + rewrite forallb_app, Q1, Q2. reflexivity.
Qed.

(** The committed rows and the bucket are what they were. *)
Definition same_store (w w' : World) : Prop :=
  images w' = images w /\ bucket w' = bucket w.

#[export] Instance same_store_frame : Frame same_store.
Proof.
  split.
  - intros w. split; reflexivity.
  - intros a b c [H1 H2] [H3 H4]. split; congruence.
Qed.

(** The same connections are checked out. *)
Definition same_pool (w w' : World) : Prop := in_use w' = in_use w.

#[export] Instance same_pool_frame : Frame same_pool.
Proof.
  split.
  - intros w. reflexivity.
  - intros a b c H1 H2. unfold same_pool in *. congruence.
Qed.

Definition is_pool_event (ev : Event) : bool :=
  match ev with
  | EvGetconn _ | EvPutconn _ => true
  | _ => false
  end.

Definition is_write_event (ev : Event) : bool :=
  match ev with
  | EvInsert _ _ | EvCommit _ | EvPutObject _ => true
  | _ => false
  end.

Definition expires_in_3600 (ev : Event) : bool :=
  match ev with
  | EvPresign _ ttl => ttl =? 3600
  | _ => true
  end.

Definition not_pool_event (ev : Event) : bool := negb (is_pool_event ev).

Definition not_write_event (ev : Event) : bool := negb (is_write_event ev).

(** Neither the pool nor the log of its calls is touched. *)
Definition pool_neutral : World -> World -> Prop :=
  both same_pool (quiet not_pool_event).

(** Nothing is written: the rows and the bucket stay, and no INSERT, COMMIT
    or object write is sent. *)
Definition no_write : World -> World -> Prop :=
  both same_store (quiet not_write_event).

#[export] Instance pool_neutral_frame : Frame pool_neutral.
Proof. unfold pool_neutral. apply _. Qed.

#[export] Instance no_write_frame : Frame no_write.
Proof. unfold no_write. apply _. Qed.

Ltac rel_solve :=
  unfold pool_neutral, no_write;
  repeat match goal with
    | |- both _ _ _ _ => split
    | |- same_store _ _ => split; reflexivity
    | |- same_pool _ _ => reflexivity
    | |- quiet _ _ _ =>
        first [ exists []; split; [symmetry; apply app_nil_r | reflexivity]
              | eexists [_]; split; reflexivity ]
    end.

(** A computation written with the combinators preserves what its parts
    preserve; a primitive is opened and checked on each of its branches. *)
Ltac frame :=
  repeat first
    [ apply preserves_ret; solve [apply _]
    | apply preserves_raise; solve [apply _]
    | apply preserves_lift; solve [apply _]
    | apply preserves_gets; solve [apply _]
    | apply preserves_faulty; solve [apply _]
    | apply preserves_fetchone; solve [apply _]
    | apply preserves_bind; [solve [apply _] | | intros ?]
    | apply preserves_try_except; [solve [apply _] | | intros ?]
    | apply preserves_try_finally; [solve [apply _] | | ]
    | apply preserves_act; intros ?; solve [rel_solve]
    | progress case_match; subst ].

Ltac prim :=
  let w := fresh "w" in
  intros w;
  unfold DB.get_connection, DB.put_connection, DB.execute_insert, DB.commit, DB.rollback,
         DB.faulty, bind, act, ret, raise; cbn;
  repeat case_match; cbn; solve [rel_solve].

(** ** The connection pool *)

Section Pool.

Lemma checkout_checkin (c : nat) (X : gset nat) : c ∉ X -> ({[c]} ∪ X) ∖ {[c]} = X.
Proof.
  intros Hc. apply set_eq. intros x.
  rewrite elem_of_difference, elem_of_union, elem_of_singleton. split.
  - intros [[-> | Hx] Hn]; [contradiction | exact Hx].
  - intros Hx. split; [now right | intros ->; contradiction].
Qed.

Definition pool_events (evs : list Event) : list Event := List.filter is_pool_event evs.

Lemma pool_events_app (a b : list Event) :
  pool_events (a ++ b) = pool_events a ++ pool_events b.
Proof. apply List.filter_app. Qed.

Lemma pool_events_quiet (evs : list Event) :
  forallb not_pool_event evs = true -> pool_events evs = [].
Proof.
  induction evs as [| ev evs IH]; [reflexivity |]. simpl.
  unfold not_pool_event at 1. intros H. apply andb_prop in H as [H1 H2].
  destruct (is_pool_event ev); [discriminate | auto].
Qed.

(** Between [w] and [w'] at most one connection was taken, it was not in
    use before, it was given back once, after it was taken, and the pool
    holds again what it held. *)
Definition released_once (w w' : World) : Prop :=
  in_use w' = in_use w /\
  exists evs, log w' = log w ++ evs /\
    (pool_events evs = [] \/
     exists c, (c ∉ in_use w) /\ pool_events evs = [EvGetconn c; EvPutconn c]).

(** The [finally] clause of both units of work. *)
Definition release (conn : option nat) : M unit :=
  match conn with
  | Some c => DB.put_connection c
  | None => ret tt
  end.

Lemma unit_of_work_releases {A} (env : Env) (u : UnitOfWork) (body : nat -> M A)
      (handler : option nat -> Py.exn -> M A) :
  (forall c, preserves pool_neutral (body c)) ->
  (forall o e, preserves pool_neutral (handler o e)) ->
  forall w, released_once w
              (snd (DB.unit_of_work (DB.get_connection env u) body handler release w)).
Proof.
  intros Hbody Hhandler w. unfold DB.unit_of_work, DB.get_connection.
  destruct (db_fault env u OpGetconn) as [e |].
  { (* getconn raised: conn is None *)
    unfold try_finally. pose proof (Hhandler None e w) as [Hp (evs & Hl & Hq)].
    destruct (handler None e w) as [r w1]. cbn in *.
    split; [exact Hp |]. exists evs. split; [exact Hl |].
    left. now apply pool_events_quiet. }
  destruct (DB.MAXCONN <=? size (in_use w))%nat.
  { unfold try_finally. pose proof (Hhandler None Py.PoolError w) as [Hp (evs & Hl & Hq)].
    destruct (handler None Py.PoolError w) as [r w1]. cbn in *.
    split; [exact Hp |]. exists evs. split; [exact Hl |].
    left. now apply pool_events_quiet. }
  set (c := fresh (in_use w)).
  assert (Hc : c ∉ in_use w) by apply is_fresh.
  set (w1 := emit (EvGetconn c) _).
  assert (Hin : preserves pool_neutral (try_except (body c) (handler (Some c)))).
  { apply preserves_try_except; [apply _ | apply Hbody | intros e; apply Hhandler]. }
  unfold try_finally. pose proof (Hin w1) as [Hp (evs & Hl & Hq)].
  destruct (try_except (body c) (handler (Some c)) w1) as [r w2].
  unfold release, DB.put_connection, act. cbn in *.
  unfold same_pool in Hp. split.
  - unfold emit, set_in_use. cbn [in_use]. rewrite Hp. subst w1.
    unfold emit, set_in_use. cbn [in_use]. now apply checkout_checkin.
  - exists ([EvGetconn c] ++ evs ++ [EvPutconn c]). split.
    + unfold emit at 1. cbn [log set_in_use set_txn]. rewrite Hl.
      now rewrite <- !app_assoc.
    + right. exists c. split; [exact Hc |].
      rewrite !pool_events_app, (pool_events_quiet evs Hq). reflexivity.
Qed.

Lemma check_image_exists_releases (env : Env) (md5_hash : string) (w : World) :
  released_once w (snd (DB.check_image_exists env md5_hash w)).
Proof.
  apply unit_of_work_releases.
  - intros c. unfold DB.cursor, DB.cursor_close, DB.execute_select. frame.
  - intros o e. frame.
Qed.

Lemma save_image_metadata_releases (env : Env) (s3_key md5_hash original_filename
    mimetype : string) (filesize : nat) (title description : Py.value)
    (gemini_analysis : option string) (w : World) :
  released_once w
    (snd (DB.save_image_metadata env s3_key md5_hash original_filename mimetype
            filesize title description gemini_analysis w)).
Proof.
  apply unit_of_work_releases.
  - intros c. unfold DB.cursor, DB.cursor_close. frame; prim.
  - intros o e. frame; prim.
Qed.

End Pool.

(** ** The insert *)

(** A row with the same [md5_hash] under a unique constraint: the INSERT is
    refused with a UniqueViolation. *)
Lemma violation_of_duplicate (sch : Schema) (rows : list Row) (r row : Row) :
  md5_hash_unique sch = true ->
  row ∈ rows -> r_md5_hash row = r_md5_hash r ->
  exists constraint, DB.violation sch rows r = Some (Py.UniqueViolation constraint).
Proof.
  intros Hu Hin Hmd5. unfold DB.violation.
  destruct (id_unique sch && existsb (fun x => String.eqb (r_id x) (r_id r)) rows);
    [eexists; reflexivity |].
  rewrite Hu. cbn [andb].
  assert (He : existsb (fun x => String.eqb (r_md5_hash x) (r_md5_hash r)) rows = true).
  { apply existsb_exists. exists row. split.
    - now apply list_elem_of_In.
    - rewrite Hmd5. apply String.eqb_refl. }
  rewrite He. eexists. reflexivity.
Qed.

Section Insert.

Variable env : Env.
Variables s3_key md5_hash original_filename mimetype : string.
Variable filesize : nat.
Variables title description : Py.value.
Variable gemini_analysis : option string.

(** The statement [save_image_metadata] sends. *)
Definition sent_insert : InsertStmt :=
  mkInsert (Some (uuid4 env)) s3_key md5_hash original_filename mimetype filesize
           (Some (utcnow env)) title description gemini_analysis.

(** The row it asks for: identifier and timestamp are the application's. *)
Definition sent_row : Row :=
  mkRow (uuid4 env) s3_key md5_hash original_filename mimetype filesize
        (utcnow env) title description gemini_analysis.

Definition save : M DB.Saved :=
  DB.save_image_metadata env s3_key md5_hash original_filename mimetype filesize
    title description gemini_analysis.

Lemma row_of_sent_insert : DB.row_of (schema env) sent_insert = sent_row.
Proof. reflexivity. Qed.

(** A normal return of [save_image_metadata], spelled out. *)
Lemma save_returns (w w' : World) (saved : DB.Saved) :
  save w = (Ret saved, w') ->
  let c := fresh (in_use w) in
  images w' = images w ++ [sent_row] /\
  bucket w' = bucket w /\
  DB.violation (schema env) (images w) sent_row = None /\
  saved = DB.mkSaved (uuid4 env) s3_key md5_hash original_filename mimetype filesize
                     (DB.Isoformat (utcnow env)) title description gemini_analysis None /\
  log w' = log w ++ [EvGetconn c; EvInsert c sent_insert; EvCommit c; EvPutconn c].
Proof.
  unfold save, DB.save_image_metadata, DB.unit_of_work, DB.get_connection.
  fold sent_insert.
  destruct (db_fault env Save OpGetconn) as [e |] eqn:F1.
  { unfold try_finally, bind, ret, raise. cbn. discriminate. }
  destruct (DB.MAXCONN <=? size (in_use w))%nat.
  { unfold try_finally, bind, ret, raise. cbn. discriminate. }
  unfold try_finally, try_except, DB.cursor, DB.cursor_close, DB.fetchone, DB.commit,
    DB.execute_insert, DB.rollback, DB.put_connection, DB.faulty, bind, ret, raise, act.
  rewrite row_of_sent_insert.
  destruct (db_fault env Save OpCursor); cbn;
    [destruct (db_fault env Save OpRollback); cbn; discriminate |].
  destruct (db_fault env Save OpExecute); cbn;
    [destruct (db_fault env Save OpRollback); cbn; discriminate |].
  rewrite lookup_delete_eq. cbn. rewrite app_nil_r.
  destruct (DB.violation (schema env) (images w) sent_row) eqn:V; cbn;
    [destruct (db_fault env Save OpRollback); cbn; discriminate |].
  destruct (db_fault env Save OpFetchone); cbn;
    [destruct (db_fault env Save OpRollback); cbn; discriminate |].
  destruct (db_fault env Save OpCommit); cbn;
    [destruct (db_fault env Save OpRollback); cbn; discriminate |].
  destruct (db_fault env Save OpCursorClose); cbn;
    [destruct (db_fault env Save OpRollback); cbn; discriminate |].
  intros H. injection H as <- <-. cbn. rewrite lookup_insert_eq. cbn.
  repeat split; auto. now rewrite <- !app_assoc.
Qed.

(** The INSERT refused for a fingerprint that is already there: the
    exception goes up after a rollback, and nothing is left behind. *)
Lemma save_refused (w : World) (row : Row) :
  (forall op, db_fault env Save op = None) ->
  (size (in_use w) < DB.MAXCONN)%nat ->
  md5_hash_unique (schema env) = true ->
  row ∈ images w ->
  r_md5_hash row = md5_hash ->
  let c := fresh (in_use w) in
  exists constraint w',
    save w = (Raise (Py.UniqueViolation constraint), w') /\
    images w' = images w /\ in_use w' = in_use w /\ bucket w' = bucket w /\
    log w' = log w ++ [EvGetconn c; EvInsert c sent_insert; EvRollback c; EvPutconn c].
Proof.
  intros Hok Hroom Huniq Hin Hmd5.
  destruct (violation_of_duplicate (schema env) (images w) sent_row row Huniq Hin Hmd5)
    as [c Hv].
  exists c. eexists.
  unfold save, DB.save_image_metadata, DB.unit_of_work, DB.get_connection.
  fold sent_insert. rewrite Hok. apply Nat.leb_gt in Hroom. rewrite Hroom.
  unfold try_finally, try_except, DB.cursor, DB.cursor_close, DB.fetchone, DB.commit,
    DB.execute_insert, DB.rollback, DB.put_connection, DB.faulty, bind, ret, raise, act.
  rewrite row_of_sent_insert, !Hok. cbn.
  rewrite lookup_delete_eq. cbn. rewrite app_nil_r, Hv. cbn.
  split; [reflexivity |]. split; [reflexivity |].
  split; [apply checkout_checkin, is_fresh |]. split; [reflexivity |].
  cbn. now rewrite <- !app_assoc.
Qed.

End Insert.

(** ** The duplicate check *)

Section Lookup.

Variable env : Env.

Definition existing_of (r : Row) : DB.Existing :=
  DB.mkExisting (r_id r) (r_s3_key r) (r_title r) (r_description r).

(** The rows [SELECT ... WHERE md5_hash = %s] finds, in table order. *)
Definition matching (md5_hash : string) (w : World) : list Row :=
  filter (fun r => r_md5_hash r = md5_hash) (images w).

Lemma matching_head (md5_hash : string) (w : World) (row : Row) :
  row ∈ images w -> r_md5_hash row = md5_hash ->
  exists first, head (matching md5_hash w) = Some first /\
                first ∈ images w /\ r_md5_hash first = md5_hash.
Proof.
  intros Hin Hmd5. unfold matching.
  destruct (filter (λ r : Row, r_md5_hash r = md5_hash) (images w)) as [| first rest] eqn:E.
  - exfalso. eapply (filter_nil_not_elem_of _ _ row E); eauto.
  - exists first. split; [reflexivity |].
    assert (Hf : first ∈ filter (λ r : Row, r_md5_hash r = md5_hash) (images w)).
    { rewrite E. apply list_elem_of_here. }
    apply list_elem_of_filter in Hf as [H1 H2]. auto.
Qed.

(** Whatever the database does, the lookup writes nothing. *)
Lemma check_image_exists_no_write (md5_hash : string) :
  preserves no_write (DB.check_image_exists env md5_hash).
Proof.
  apply preserves_unit_of_work; [apply _ | prim | intros c | intros o e | intros o].
  - unfold DB.cursor, DB.cursor_close, DB.execute_select. frame.
  - frame.
  - frame.
Qed.

(** A lookup that returns, returns the first matching row. *)
Lemma check_image_exists_returns (md5_hash : string) (w w' : World)
      (o : option DB.Existing) :
  DB.check_image_exists env md5_hash w = (Ret o, w') ->
  o = existing_of <$> head (matching md5_hash w).
Proof.
  unfold DB.check_image_exists, DB.unit_of_work, DB.get_connection.
  destruct (db_fault env Check OpGetconn) as [e |].
  { unfold try_finally, bind, ret, raise. cbn. discriminate. }
  destruct (DB.MAXCONN <=? size (in_use w))%nat.
  { unfold try_finally, bind, ret, raise. cbn. discriminate. }
  unfold try_finally, try_except, DB.cursor, DB.cursor_close, DB.fetchone,
    DB.execute_select, DB.put_connection, DB.faulty, bind, ret, raise, act, gets.
  destruct (db_fault env Check OpCursor); cbn; [discriminate |].
  destruct (db_fault env Check OpExecute); cbn; [discriminate |].
  destruct (db_fault env Check OpFetchone); cbn; [discriminate |].
  destruct (db_fault env Check OpCursorClose); cbn; [discriminate |].
  fold (matching md5_hash w).
  destruct (matching md5_hash w) as [| r rest]; cbn; intros H; now inversion H.
Qed.

(** With the database answering and a connection to be had, it returns. *)
Lemma check_image_exists_answers (md5_hash : string) (w : World) :
  (forall op, db_fault env Check op = None) ->
  (size (in_use w) < DB.MAXCONN)%nat ->
  let c := fresh (in_use w) in
  fst (DB.check_image_exists env md5_hash w)
    = Ret (existing_of <$> head (matching md5_hash w)) /\
  log (snd (DB.check_image_exists env md5_hash w))
    = log w ++ [EvGetconn c; EvSelect c md5_hash; EvPutconn c].
Proof.
  intros Hok Hroom.
  unfold DB.check_image_exists, DB.unit_of_work, DB.get_connection.
  rewrite Hok. apply Nat.leb_gt in Hroom. rewrite Hroom.
  unfold try_finally, try_except, DB.cursor, DB.cursor_close, DB.fetchone,
    DB.execute_select, DB.put_connection, DB.faulty, bind, ret, raise, act, gets.
  rewrite !Hok. cbn. fold (matching md5_hash w).
  destruct (matching md5_hash w) as [| r rest]; cbn; rewrite <- !app_assoc; auto.
Qed.

End Lookup.

(** ** The orchestrator *)

Section Orchestrator.

Import App.

Variable env : Env.

(** The request passes the checks that come before the metadata keys are
    looked at: file and metadata are there, the file name is allowed, PIL
    verifies the content, the metadata is JSON. *)
Definition well_formed (req : Request) (file : FileStorage) (metadata : Py.value) : Prop :=
  image_file req = Some file /\
  metadata_field req = Some (Json metadata) /\
  filename file <> ""%string /\
  allowed_file (filename file) = true /\
  exists p, pil env (Stream.content (stream file)) = PilVerified p.

(** It also has both required keys, and so gets its fingerprint taken. *)
Definition passes_validation (req : Request) (file : FileStorage) (metadata : Py.value)
  : Prop :=
  well_formed req file metadata /\
  Py.contains "title" metadata = inr true /\
  Py.contains "description" metadata = inr true.

Definition fingerprint (file : FileStorage) : string :=
  MD5.md5_hex (Stream.content (stream file)).

Definition mimetype_of (file : FileStorage) : string :=
  match content_type file with
  | Some t => if String.eqb t "" then "application/octet-stream"%string else t
  | None => "application/octet-stream"%string
  end.

Definition pending_of (file : FileStorage) (metadata : Py.value) : Pending :=
  mkPending (Stream.mkFile (Stream.content (stream file)) 0) metadata
            (secure_filename env (filename file)) (mimetype_of file)
            (length (Stream.content (stream file))) (fingerprint file).

Definition duplicate (existing : DB.Existing) : Response :=
  mkResponse 409 (Duplicate "Image already exists" existing).

Lemma upload_check_well_formed (req : Request) (file : FileStorage) (metadata : Py.value) :
  well_formed req file metadata ->
  upload_check env req =
    (let! has_title := lift (Py.contains "title" metadata) in
     let! missing :=
       (if negb has_title then ret true
        else let! has_description := lift (Py.contains "description" metadata) in
             ret (negb has_description)) in
     if (missing : bool) then
       ret (inl (mkResponse 400 (Error "Missing required metadata")))
     else
       let! existing_image := DB.check_image_exists env (fingerprint file) in
       match existing_image with
       | Some existing => ret (inl (duplicate existing))
       | None => ret (inr (pending_of file metadata))
       end).
Proof.
  intros (Hf & Hm & Hname & Hext & p & Hpil).
  unfold upload_check. rewrite Hf, Hm.
  apply String.eqb_neq in Hname. rewrite Hname, Hext. cbn [negb].
  unfold validate_image. cbn [Stream.seek0 Stream.content]. rewrite Hpil. cbn [negb].
  unfold Stream.seek_end, Stream.tell. cbn [Stream.seek0 Stream.content Stream.pos].
  rewrite calculate_md5_eq. reflexivity.
Qed.

Lemma upload_check_valid (req : Request) (file : FileStorage) (metadata : Py.value) :
  passes_validation req file metadata ->
  upload_check env req =
    (let! existing_image := DB.check_image_exists env (fingerprint file) in
     match existing_image with
     | Some existing => ret (inl (duplicate existing))
     | None => ret (inr (pending_of file metadata))
     end).
Proof.
  intros (Hwf & Ht & Hd). rewrite (upload_check_well_formed _ _ _ Hwf), Ht, Hd.
  reflexivity.
Qed.

Definition server_error : Response :=
  mkResponse 500 (Error "Internal server error").

(** [upload_image] on a request that passes validation. *)
Lemma upload_image_valid (req : Request) (file : FileStorage) (metadata : Py.value)
      (w : World) :
  passes_validation req file metadata ->
  upload_image env req w =
    match DB.check_image_exists env (fingerprint file) w with
    | (Ret (Some existing), w1) => (duplicate existing, w1)
    | (Ret None, w1) => answer (upload_store env (pending_of file metadata)) w1
    | (Raise _, w1) => (server_error, w1)
    end.
Proof.
  intros Hval. unfold upload_image, answer, upload_body.
  rewrite (upload_check_valid _ _ _ Hval). unfold bind.
  destruct (DB.check_image_exists env (fingerprint file) w) as [[[ex |] | e] w1];
    reflexivity.
Qed.

(** Every expiry asked of the store is 3600 seconds. *)
Lemma upload_body_expiry (req : Request) :
  preserves (quiet expires_in_3600) (upload_body env req).
Proof.
  unfold upload_body, upload_check, upload_store, S3.upload_file, S3.get_file_url,
    DB.check_image_exists, DB.save_image_metadata,
    DB.cursor, DB.cursor_close, DB.execute_select.
  frame;
    try (apply preserves_unit_of_work; [apply _ | prim | intros ? | intros ? ? | intros ?]);
    frame; try prim.
Qed.

End Orchestrator.

(** ** Sample environments and requests *)

Module Sample.

Definition jpeg_soi : list byte := [xff; xd8; xff]%byte.

Fixpoint starts_with (p l : list byte) : bool :=
  match p, l with
  | [], _ => true
  | a :: p', b :: l' => Byte.eqb a b && starts_with p' l'
  | _ :: _, [] => false
  end.

(** A PIL that verifies what starts with the JPEG start-of-image marker
    and, on anything else, gives up after the 16-byte prefix it reads to
    identify the format. *)
Definition sample_pil (data : list byte) : PilOutcome :=
  if starts_with jpeg_soi data then PilVerified (length data)
  else PilError (Nat.min 16 (length data)).

Definition sample_schema : Schema := mkSchema true true "srv-generated-id" 1000.

Definition no_fault (u : UnitOfWork) (op : DbOp) : option Py.exn := None.

Definition presign (key : string) (ttl : Z) : Py.exn + string :=
  inr ("http://minio:9000/images/" ++ key ++ "?X-Amz-Signature=0")%string.

(** Everything up and running, the bucket already there. *)
Definition env : Env :=
  mkEnv sample_pil (fun name => name) "" false (fun _ => None)
        "0b2f7a1c-0000-4000-8000-000000000001" 1700000000
        no_fault sample_schema (fun _ => None) (fun _ => None) None presign.

Definition with_s3 (head create : nat -> option Py.exn) (e : Env) : Env :=
  mkEnv (pil e) (secure_filename e) (gemini_api_key e) (gemini_ready e)
        (gemini_text e) (uuid4 e) (utcnow e) (db_fault e) (schema e)
        head create (s3_put e) (s3_presign e).

Definition with_db_fault (f : UnitOfWork -> DbOp -> option Py.exn) (e : Env) : Env :=
  mkEnv (pil e) (secure_filename e) (gemini_api_key e) (gemini_ready e)
        (gemini_text e) (uuid4 e) (utcnow e) f (schema e)
        (s3_head e) (s3_create e) (s3_put e) (s3_presign e).

Definition with_uuid4 (id : string) (now : Z) (e : Env) : Env :=
  mkEnv (pil e) (secure_filename e) (gemini_api_key e) (gemini_ready e)
        (gemini_text e) id now (db_fault e) (schema e)
        (s3_head e) (s3_create e) (s3_put e) (s3_presign e).

Definition head_404 : option Py.exn := Some (Py.ClientError (Some "404"%string)).

(** No bucket yet, and a peer that creates it between our check and our
    create. *)
Definition env_race : Env :=
  with_s3 (fun _ => head_404)
          (fun _ => Some (Py.ClientError (Some "BucketAlreadyOwnedByYou"%string))) env.

(** No bucket yet, and we are the one to create it. *)
Definition env_first : Env := with_s3 (fun _ => head_404) (fun _ => None) env.

(** No bucket, and a store that refuses every create. *)
Definition env_create_down : Env :=
  with_s3 (fun _ => head_404)
          (fun _ => Some (Py.ClientError (Some "InternalError"%string))) env.

Definition jpeg : list byte := jpeg_soi ++ bytes_of_string "....JFIF.. a 300x200 picture".

Definition not_an_image : list byte := bytes_of_string "plain text, renamed to .jpg".

Definition meta (title description : string) : App.FormField :=
  App.Json (Py.PDict [("title"%string, Py.PStr title);
                      ("description"%string, Py.PStr description)]).

Definition request (name : string) (data : list byte) (field : App.FormField) : App.Request :=
  App.mkRequest (Some (App.mkFileStorage name (Some "image/jpeg"%string)
                                         (Stream.mkFile data 0)))
                (Some field).

Definition file_cat : App.FileStorage :=
  App.mkFileStorage "cat.jpg" (Some "image/jpeg"%string) (Stream.mkFile jpeg 0).

Definition title_and_description (title description : string) : Py.value :=
  Py.PDict [("title"%string, Py.PStr title); ("description"%string, Py.PStr description)].

(** Scenario A: a picture with title T and description D. *)
Definition req_first : App.Request := request "cat.jpg" jpeg (meta "T" "D").

(** The same bytes sent by somebody else, under another name. *)
Definition req_second : App.Request := request "copy.jpg" jpeg (meta "T2" "D2").

Definition env_second : Env :=
  with_uuid4 "0b2f7a1c-0000-4000-8000-000000000002" 1700000005 env.

(** A picture whose title is the empty string. *)
Definition req_empty_title : App.Request := request "cat.jpg" jpeg (meta "" "D").

(** A metadata object without a description. *)
Definition only_title : list (string * Py.value) := [("title"%string, Py.PStr "T")].

Definition req_no_description : App.Request :=
  request "cat.jpg" jpeg (App.Json (Py.PDict only_title)).

Definition row_cat : Row :=
  mkRow "0b2f7a1c-0000-4000-8000-000000000001"
        "images/2e96307f349b7acd1eb25650da567302_cat.jpg"
        "2e96307f349b7acd1eb25650da567302" "cat.jpg" "image/jpeg" 31 1700000000
        (Py.PStr "T") (Py.PStr "D") None.

(** The world once [req_first] has been stored. *)
Definition world1 : World := snd (App.upload_image env req_first world0).

Definition file_copy : App.FileStorage :=
  App.mkFileStorage "copy.jpg" (Some "image/jpeg"%string) (Stream.mkFile jpeg 0).

(** [req_second] once it is past the duplicate check. *)
Definition pending_second : App.Pending :=
  pending_of env_second file_copy (title_and_description "T2" "D2").

(** Two uploads of the same bytes that overlap: the second runs its
    duplicate check on the empty table ([world_a] is the world after it),
    then the first runs from start to end ([world_b]), then the second
    goes on from where it was. *)
Definition world_a : World := snd (App.upload_check env_second req_second world0).

Definition world_b : World := snd (App.upload_image env req_first world_a).

(** A database that loses the connection while it executes a statement. *)
Definition execute_fails (u : UnitOfWork) (op : DbOp) : option Py.exn :=
  match op with
  | OpExecute => Some (Py.DatabaseError "server closed the connection unexpectedly")
  | _ => None
  end.

Definition env_db_down : Env := with_db_fault execute_fails env.

End Sample.

(** C5.  At any turn of the provisioning loop, a head_bucket that answers
    not found (code 404) followed by a create_bucket that fails with
    BucketAlreadyExists or BucketAlreadyOwnedByYou ends provisioning in a
    normal return: nothing is raised, the two requests are the only ones
    made, there is no sleep and no further turn.  In particular this holds
    for [_ensure_bucket_exists] from its first turn. *)
Theorem C5_create_race_ends_ready :
  forall (env : Env) (w : World),
    not_found (s3_head env (head_calls w)) ->
    exists_already (s3_create env (create_calls w)) ->
    S3._ensure_bucket_exists env w = (Ret tt, after_create w) /\
    log (after_create w) = log w ++ [EvHeadBucket; EvCreateBucket] /\
    forall (attempt : nat) (rest : list nat) (retry_delay : Z),
      S3.attempts env (attempt :: rest) retry_delay w = (Ret tt, after_create w).
Proof.
  intros env w Hh Hc. split; [| split].
  - unfold S3._ensure_bucket_exists. cbn [seq S3.max_retries]. now apply attempts_race.
  - unfold after_create. cbn. now rewrite <- app_assoc.
  - intros attempt rest d. now apply attempts_race.
Qed.

Lemma C5_witness :
  S3._ensure_bucket_exists Sample.env_race world0 = (Ret tt, after_create world0).
Proof.
  apply (C5_create_race_ends_ready Sample.env_race world0).
  - exists "404"%string. split; reflexivity.
  - exists (Some "BucketAlreadyOwnedByYou"%string). split; reflexivity.
Defined.

(** Scenario E: of two processes that both found no bucket, the one whose
    create goes through and the one whose create is told that the bucket
    exists both return normally. *)
Example scenario_E_both_ready :
  fst (S3._ensure_bucket_exists Sample.env_first world0) = Ret tt /\
  fst (S3._ensure_bucket_exists Sample.env_race world0) = Ret tt.
Proof. split; reflexivity. Qed.

(** Every turn of a store that answers not found and then refuses the
    create with the errors [errs 0 .. errs 4]. *)
Definition always_failing (env : Env) (w : World) (errs : nat -> Py.exn) : Prop :=
  forall k, (k < S3.max_retries)%nat ->
    not_found (s3_head env (head_calls w + k)) /\
    create_fails (s3_create env (create_calls w + k)) (errs k).

(** C6.  [_ensure_bucket_exists] is a total function of the store's
    answers: it makes at most 5 head_bucket and at most 5 create_bucket
    requests, and the sleeps it takes are, in order, an initial part of
    1, 2, 4, 8.  When every create fails with an error other than
    already-exists, it makes exactly 5 attempts, sleeps 1, 2, 4 and 8 between
    them, and then raises the error of the fifth create instead of going
    on. *)
Theorem C6_provisioning_bounded_backoff :
  forall (env : Env) (w : World),
    let r := fst (S3._ensure_bucket_exists env w) in
    let w' := snd (S3._ensure_bucket_exists env w) in
    (head_calls w' <= head_calls w + 5)%nat /\
    (create_calls w' <= create_calls w + 5)%nat /\
    (exists evs, log w' = log w ++ evs /\ sleeps evs `prefix_of` [1; 2; 4; 8]) /\
    (forall errs, always_failing env w errs ->
       r = Raise (errs 4%nat) /\
       head_calls w' = (head_calls w + 5)%nat /\
       create_calls w' = (create_calls w + 5)%nat /\
       exists evs, log w' = log w ++ evs /\ sleeps evs = [1; 2; 4; 8]).
Proof.
  intros env w r w'.
  pose proof (attempts_spec env (seq 0 S3.max_retries) 1 w) as Hs. cbv zeta in Hs.
  destruct Hs as (_ & _ & _ & _ & Hh & Hc & evs & Hl & Hp).
  split; [exact Hh | split; [exact Hc | split; [exists evs; split; [exact Hl | exact Hp] |]]].
  intros errs Hall. subst r w'. unfold S3._ensure_bucket_exists.
  cbn [seq S3.max_retries].
  assert (Hstep : forall k d w0,
             (k < 5)%nat -> head_calls w0 = (head_calls w + k)%nat ->
             create_calls w0 = (create_calls w + k)%nat ->
             S3.attempt_body env k d w0 =
               if (k <? S3.max_retries - 1)%nat
               then (Ret (S3.Continue (d * 2)), emit (EvSleep d) (after_create w0))
               else (Raise (errs k), after_create w0)).
  { intros k d w0 Hk H1 H2. destruct (Hall k Hk) as [Hnf Hcf].
    apply attempt_body_fails; [now rewrite H1 | now rewrite H2]. }
  rewrite attempts_cons, Hstep by (cbn; lia). cbn [Nat.ltb Nat.leb S3.max_retries Nat.sub].
  rewrite attempts_cons, Hstep by (cbn; lia). cbn [Nat.ltb Nat.leb S3.max_retries Nat.sub].
  rewrite attempts_cons, Hstep by (cbn; lia). cbn [Nat.ltb Nat.leb S3.max_retries Nat.sub].
  rewrite attempts_cons, Hstep by (cbn; lia). cbn [Nat.ltb Nat.leb S3.max_retries Nat.sub].
  rewrite attempts_cons, Hstep by (cbn; lia). cbn [Nat.ltb Nat.leb S3.max_retries Nat.sub].
  cbn. repeat split; try lia.
  eexists. split; [rewrite <- !app_assoc; reflexivity | reflexivity].
Qed.

Lemma C6_witness :
  fst (S3._ensure_bucket_exists Sample.env_create_down world0)
    = Raise (Py.ClientError (Some "InternalError"%string)) /\
  create_calls (snd (S3._ensure_bucket_exists Sample.env_create_down world0)) = 5%nat.
Proof.
  pose proof (C6_provisioning_bounded_backoff Sample.env_create_down world0) as H.
  cbv zeta in H. destruct H as (_ & _ & _ & H).
  destruct (H (fun _ => Py.ClientError (Some "InternalError"%string))) as (Hr & _ & Hc & _).
  - intros k Hk. split.
    + exists "404"%string. split; reflexivity.
    + exists (Some "InternalError"%string). repeat split; reflexivity.
  - split; [exact Hr | exact Hc].
Defined.

(** ** Claims about the orchestrator and the repository *)

(** C1.  Take an upload that passes validation and whose fingerprint is the
    [md5_hash] of a row of the table.  Whatever the database does, the
    request ends as a duplicate (409) or as a server error (500, when the
    lookup itself raised); the committed rows and the bucket are unchanged,
    no INSERT, COMMIT or object write is sent, and the connection of the
    lookup is back in the pool.  When the lookup's database calls do not
    fail and the pool has a connection to give, the answer is the 409 with
    [id], [s3_key], [title] and [description] of a stored row with that
    fingerprint, and the only calls made are getconn, the SELECT and
    putconn. *)
Theorem C1_duplicate_conflicts_without_writing :
  forall (env : Env) (req : App.Request) (file : App.FileStorage) (metadata : Py.value)
         (w : World) (row : Row),
    passes_validation env req file metadata ->
    row ∈ images w ->
    r_md5_hash row = fingerprint file ->
    let response := fst (App.upload_image env req w) in
    let w' := snd (App.upload_image env req w) in
    (App.status response = 409%nat \/ App.status response = 500%nat) /\
    images w' = images w /\ bucket w' = bucket w /\ in_use w' = in_use w /\
    (exists evs, log w' = log w ++ evs /\ forallb not_write_event evs = true) /\
    ((forall op, db_fault env Check op = None) ->
     (size (in_use w) < DB.MAXCONN)%nat ->
     (exists first, first ∈ images w /\ r_md5_hash first = fingerprint file /\
                    response = duplicate (existing_of first)) /\
     exists c, log w' = log w ++ [EvGetconn c; EvSelect c (fingerprint file); EvPutconn c]).
Proof.
  intros env req file metadata w row Hval Hin Hmd5 response w'.
  subst response w'. rewrite (upload_image_valid env _ _ _ w Hval).
  destruct (matching_head (fingerprint file) w row Hin Hmd5) as (first & Hhead & Hfin & Hfmd5).
  pose proof (check_image_exists_no_write env (fingerprint file) w) as [[Hi Hb] Hq].
  pose proof (check_image_exists_releases env (fingerprint file) w) as [Hu _].
  pose proof (check_image_exists_answers env (fingerprint file) w) as Hans.
  pose proof (check_image_exists_returns env (fingerprint file) w) as Hret.
  destruct (DB.check_image_exists env (fingerprint file) w) as [[o | e] w1].
  - specialize (Hret w1 o eq_refl). rewrite Hhead in Hret. cbn in Hret. subst o.
    cbn [fst snd] in *. cbn [fst snd App.status duplicate].
    split; [now left |]. split; [exact Hi |]. split; [exact Hb |].
    split; [exact Hu |]. split; [exact Hq |].
    intros Hok Hroom. destruct (Hans Hok Hroom) as [_ Hlog]. split.
    + exists first. auto.
    + eexists. exact Hlog.
  - cbn [fst snd] in *. cbn [fst snd App.status].
    split; [now right |]. split; [exact Hi |]. split; [exact Hb |].
    split; [exact Hu |]. split; [exact Hq |].
    intros Hok Hroom. destruct (Hans Hok Hroom) as [Hr _]. discriminate.
Qed.

Lemma C1_witness :
  exists first,
    first ∈ images Sample.world1 /\
    fst (App.upload_image Sample.env Sample.req_first Sample.world1)
      = duplicate (existing_of first).
Proof.
  destruct (C1_duplicate_conflicts_without_writing
              Sample.env Sample.req_first Sample.file_cat
              (Sample.title_and_description "T" "D") Sample.world1 Sample.row_cat)
    as (_ & _ & _ & _ & _ & H).
  - split; [| split; reflexivity].
    split; [reflexivity |]. split; [reflexivity |]. split; [discriminate |].
    split; [reflexivity |]. eexists. reflexivity.
  - replace (images Sample.world1) with [Sample.row_cat] by (vm_compute; reflexivity).
    apply list_elem_of_here.
  - vm_compute. reflexivity.
  - destruct H as [(first & Hin & _ & Hresp) _].
    + intros op. reflexivity.
    + vm_compute. lia.
    + exists first. split; assumption.
Defined.

Lemma dict_get_None (key : string) (items : list (string * Py.value)) :
  Py.dict_get key items = None ->
  existsb (fun kv => String.eqb (fst kv) key) items = false.
Proof.
  induction items as [| [k v] rest IH]; [reflexivity |]. cbn.
  destruct (Py.dict_get key rest); [discriminate |].
  destruct (String.eqb k key); [discriminate | auto].
Qed.

Lemma dict_get_Some (key : string) (items : list (string * Py.value)) (v : Py.value) :
  Py.dict_get key items = Some v ->
  existsb (fun kv => String.eqb (fst kv) key) items = true.
Proof.
  revert v. induction items as [| [k v0] rest IH]; intros v; [discriminate |]. cbn.
  destruct (Py.dict_get key rest) eqn:E.
  - intros _. rewrite (IH _ eq_refl). apply orb_true_r.
  - destruct (String.eqb k key); [reflexivity | discriminate].
Qed.

(** C2, as the code has it.  Take a request that passes the checks before
    the metadata keys (file and metadata present, allowed extension, content
    verified by PIL) and whose metadata is a JSON object.  If the object
    lacks the key [title] or the key [description], [upload_image] answers
    400 "Missing required metadata" and the world is exactly what it was:
    no fingerprint lookup, no object, no row.  If both keys are there,
    whatever their values, the empty string included, the request passes
    this check and goes on to the fingerprint and the duplicate check. *)
Theorem C2_missing_key_rejected :
  forall (env : Env) (req : App.Request) (file : App.FileStorage)
         (items : list (string * Py.value)) (w : World),
    well_formed env req file (Py.PDict items) ->
    (Py.dict_get "title" items = None \/ Py.dict_get "description" items = None ->
     App.upload_image env req w
       = (App.mkResponse 400 (App.Error "Missing required metadata"), w)) /\
    (is_Some (Py.dict_get "title" items) /\ is_Some (Py.dict_get "description" items) ->
     passes_validation env req file (Py.PDict items)).
Proof.
  intros env req file items w Hwf. split.
  - intros Hmiss. unfold App.upload_image, App.answer, App.upload_body.
    rewrite (upload_check_well_formed env _ _ _ Hwf). cbn [Py.contains lift].
    destruct (existsb (fun kv => String.eqb (fst kv) "title") items) eqn:Ht;
      [| reflexivity].
    destruct Hmiss as [Hm | Hm].
    + apply dict_get_None in Hm. congruence.
    + apply dict_get_None in Hm. unfold bind, ret. cbn. rewrite Hm. reflexivity.
  - intros [[t Ht] [d Hd]]. split; [exact Hwf |]. cbn [Py.contains].
    rewrite (dict_get_Some _ _ _ Ht), (dict_get_Some _ _ _ Hd). auto.
Qed.

Lemma C2_witness :
  App.upload_image Sample.env Sample.req_no_description world0
    = (App.mkResponse 400 (App.Error "Missing required metadata"), world0).
Proof.
  apply (C2_missing_key_rejected Sample.env Sample.req_no_description Sample.file_cat
           Sample.only_title world0).
  - split; [reflexivity |]. split; [reflexivity |]. split; [discriminate |].
    split; [reflexivity |]. eexists. reflexivity.
  - right. reflexivity.
Defined.

(** C2 as the spec words it fails: a title that is the empty string is not
    rejected.  The request is stored (201), with its object and its row. *)
Lemma C2_counterexample :
  Py.getitem (Sample.title_and_description "" "D") "title" = inr (Py.PStr "") /\
  App.status (fst (App.upload_image Sample.env Sample.req_empty_title world0)) = 201%nat /\
  length (images (snd (App.upload_image Sample.env Sample.req_empty_title world0))) = 1%nat /\
  is_Some (bucket (snd (App.upload_image Sample.env Sample.req_empty_title world0))
             !! "images/2e96307f349b7acd1eb25650da567302_cat.jpg"%string).
Proof.
  split; [reflexivity |]. split; [vm_compute; reflexivity |].
  split; [vm_compute; reflexivity |]. vm_compute. eexists. reflexivity.
Qed.

(** C3, as the code has it.  Whatever exception the part of
    [upload_image] that follows the duplicate check raises, a
    UniqueViolation included, the caller gets 500 "Internal server error".
    In particular: a request is past the duplicate check and, before it
    inserts, a row with its fingerprint is in the table (a peer that sent
    the same bytes got there first).  With a unique constraint on
    [md5_hash], a store that takes the object, and a database that fails
    nowhere else, the INSERT raises a UniqueViolation;
    [save_image_metadata] rolls back and gives the connection back, and
    [upload_image] answers 500, not 409.  The table is unchanged and the
    object just written stays in the bucket.  The calls made are, in this
    order, the object write, getconn, the INSERT with the fingerprint, the
    rollback and putconn, on one connection that was not in use; there is
    no commit. *)
Theorem C3_unique_violation_is_server_error :
  forall (env : Env) (p : App.Pending) (w : World),
    (forall e, fst (App.upload_store env p w) = Raise e ->
               fst (App.answer (App.upload_store env p) w) = server_error) /\
    forall (title description : Py.value) (row : Row),
      s3_put env = None ->
      Py.getitem (App.p_metadata p) "title" = inr title ->
      Py.getitem (App.p_metadata p) "description" = inr description ->
      (forall op, db_fault env Save op = None) ->
      (size (in_use w) < DB.MAXCONN)%nat ->
      md5_hash_unique (schema env) = true ->
      row ∈ images w ->
      r_md5_hash row = App.p_md5_hash p ->
      let key :=
        ("images/" ++ App.p_md5_hash p ++ "_" ++ App.p_original_filename p)%string in
      let w' := snd (App.upload_store env p w) in
      (exists constraint,
          fst (App.upload_store env p w) = Raise (Py.UniqueViolation constraint)) /\
      fst (App.answer (App.upload_store env p) w) = server_error /\
      images w' = images w /\
      in_use w' = in_use w /\
      (exists blob, bucket w' = <[key := blob]> (bucket w)) /\
      exists c stmt,
        (c ∉ in_use w) /\
        i_s3_key stmt = key /\ i_md5_hash stmt = App.p_md5_hash p /\
        log w' = log w ++ [EvPutObject key; EvGetconn c; EvInsert c stmt;
                           EvRollback c; EvPutconn c].
Proof.
  intros env p w. split.
  { intros e. unfold App.answer.
    destruct (App.upload_store env p w) as [[r | e'] w1]; [discriminate | reflexivity]. }
  intros title description row Hput Ht Hd Hok Hroom Huniq Hin Hmd5 key w'.
  subst w'. unfold App.answer, App.upload_store.
  destruct (App.analyze_image_with_gemini env (App.p_file p)) as [g f5].
  fold key. unfold S3.upload_file. rewrite Hput, Ht, Hd. cbn [lift].
  unfold try_except, act, ret, bind. cbv beta iota.
  set (w1 := emit (EvPutObject key) _).
  destruct (save_refused env key (App.p_md5_hash p) (App.p_original_filename p)
              (App.p_mimetype p) (App.p_filesize p) title description g w1 row)
    as (c & w2 & Hsave & Hi & Hu & Hb & Hl); auto.
  unfold save in Hsave. rewrite Hsave. cbn [fst snd].
  split; [exists c; reflexivity |]. split; [reflexivity |].
  split; [exact Hi |]. split; [exact Hu |]. split; [eexists; exact Hb |].
  eexists _, _. split; [apply (is_fresh (in_use w)) |].
  split; [| split; [| rewrite Hl; subst w1; cbn [emit log in_use set_bucket];
                      rewrite <- app_assoc; reflexivity]]; reflexivity.
Qed.

Lemma C3_witness :
  fst (App.answer (App.upload_store Sample.env_second Sample.pending_second) Sample.world1)
    = server_error /\
  exists c stmt,
    log (snd (App.upload_store Sample.env_second Sample.pending_second Sample.world1))
      = log Sample.world1
        ++ [EvPutObject ("images/" ++ App.p_md5_hash Sample.pending_second ++ "_"
                           ++ App.p_original_filename Sample.pending_second);
            EvGetconn c; EvInsert c stmt; EvRollback c; EvPutconn c].
Proof.
  destruct (proj2 (C3_unique_violation_is_server_error Sample.env_second
                     Sample.pending_second Sample.world1)
              (Py.PStr "T2") (Py.PStr "D2") Sample.row_cat)
    as (_ & Hresp & _ & _ & _ & c & stmt & _ & _ & _ & Hlog).
  - reflexivity.
  - reflexivity.
  - reflexivity.
  - intros op. reflexivity.
  - vm_compute. lia.
  - reflexivity.
  - replace (images Sample.world1) with [Sample.row_cat] by (vm_compute; reflexivity).
    apply list_elem_of_here.
  - vm_compute. reflexivity.
  - split; [exact Hresp | exists c, stmt; exact Hlog].
Defined.

(** C3 as the spec words it fails.  The second of two overlapping uploads
    of the same bytes passes the duplicate check, the first is stored (201),
    the INSERT of the second is refused by the unique constraint on
    [md5_hash], and the second is answered 500, not 409. *)
Lemma C3_counterexample :
  fst (App.upload_check Sample.env_second Sample.req_second world0)
    = Ret (inr Sample.pending_second) /\
  App.status (fst (App.upload_image Sample.env Sample.req_first Sample.world_a)) = 201%nat /\
  fst (App.upload_store Sample.env_second Sample.pending_second Sample.world_b)
    = Raise (Py.UniqueViolation "images_md5_hash_key") /\
  fst (App.answer (App.upload_store Sample.env_second Sample.pending_second) Sample.world_b)
    = App.mkResponse 500 (App.Error "Internal server error") /\
  App.status
    (fst (App.answer (App.upload_store Sample.env_second Sample.pending_second)
            Sample.world_b)) <> 409%nat.
Proof.
  split; [vm_compute; reflexivity |]. split; [vm_compute; reflexivity |].
  split; [vm_compute; reflexivity |]. split; [vm_compute; reflexivity |].
  vm_compute. discriminate.
Qed.

(** C4 as the spec words it: the row a successful insert adds has the
    identifier and the timestamp the relational store generates, and the
    statement that asks for it carries neither. *)
Definition server_assigns_id_and_timestamp : Prop :=
  forall (env : Env) (s3_key md5_hash original_filename mimetype : string)
         (filesize : nat) (title description : Py.value) (gemini_analysis : option string)
         (w w' : World) (saved : DB.Saved),
    DB.save_image_metadata env s3_key md5_hash original_filename mimetype filesize
      title description gemini_analysis w = (Ret saved, w') ->
    (exists row, images w' = images w ++ [row] /\
                 r_id row = default_id (schema env) /\
                 r_uploaded_at row = default_now (schema env)) /\
    forall conn stmt, EvInsert conn stmt ∈ log w' -> EvInsert conn stmt ∉ log w ->
                      i_id stmt = None /\ i_uploaded_at stmt = None.

(** C4 fails on the code: the stored identifier is the application's
    uuid4, not what the store would have generated. *)
Lemma C4_counterexample : ~ server_assigns_id_and_timestamp.
Proof.
  intros H.
  destruct (H Sample.env "images/k" "d41d8cd98f00b204e9800998ecf8427e" "a.jpg" "image/jpeg"
              0%nat (Py.PStr "T") (Py.PStr "D") None world0
              (snd (DB.save_image_metadata Sample.env "images/k"
                      "d41d8cd98f00b204e9800998ecf8427e" "a.jpg" "image/jpeg" 0%nat
                      (Py.PStr "T") (Py.PStr "D") None world0))
              (DB.mkSaved "0b2f7a1c-0000-4000-8000-000000000001" "images/k"
                          "d41d8cd98f00b204e9800998ecf8427e" "a.jpg" "image/jpeg" 0%nat
                          (DB.Isoformat 1700000000) (Py.PStr "T") (Py.PStr "D") None None))
    as [(row & Hrows & Hid & _) _].
  - vm_compute. reflexivity.
  - vm_compute in Hrows. injection Hrows as <-. vm_compute in Hid. discriminate.
Qed.

(** C4, as the code has it.  For every insert that [save_image_metadata]
    completes, the identifier and the creation timestamp are generated by
    the application ([uuid.uuid4()] and [datetime.utcnow()]) and sent as
    parameters of the INSERT: the row added to the table carries exactly
    these two values, whatever the store would have generated, and the
    record returned carries the same identifier and the ISO rendering of the
    same instant. *)
Theorem C4_id_and_timestamp_from_application :
  forall (env : Env) (s3_key md5_hash original_filename mimetype : string)
         (filesize : nat) (title description : Py.value) (gemini_analysis : option string)
         (w w' : World) (saved : DB.Saved),
    DB.save_image_metadata env s3_key md5_hash original_filename mimetype filesize
      title description gemini_analysis w = (Ret saved, w') ->
    exists row conn stmt,
      images w' = images w ++ [row] /\
      r_id row = uuid4 env /\ r_uploaded_at row = utcnow env /\
      DB.s_id saved = uuid4 env /\ DB.s_uploaded_at saved = DB.Isoformat (utcnow env) /\
      log w' = log w ++ [EvGetconn conn; EvInsert conn stmt; EvCommit conn; EvPutconn conn] /\
      i_id stmt = Some (uuid4 env) /\ i_uploaded_at stmt = Some (utcnow env).
Proof.
  intros env s3_key md5_hash original_filename mimetype filesize title description
         gemini_analysis w w' saved H.
  apply save_returns in H. cbv zeta in H. destruct H as (Hi & _ & _ & -> & Hl).
  eexists. eexists. eexists. split; [exact Hi |].
  split; [reflexivity |]. split; [reflexivity |]. split; [reflexivity |].
  split; [reflexivity |]. split; [exact Hl |]. split; reflexivity.
Qed.

Lemma C4_witness :
  exists row,
    images (snd (DB.save_image_metadata Sample.env "images/k"
                   "d41d8cd98f00b204e9800998ecf8427e" "a.jpg" "image/jpeg" 0%nat
                   (Py.PStr "T") (Py.PStr "D") None world0)) = [row] /\
    r_id row = "0b2f7a1c-0000-4000-8000-000000000001"%string /\
    r_uploaded_at row = 1700000000.
Proof.
  destruct (C4_id_and_timestamp_from_application
              Sample.env "images/k" "d41d8cd98f00b204e9800998ecf8427e" "a.jpg" "image/jpeg"
              0%nat (Py.PStr "T") (Py.PStr "D") None world0
              (snd (DB.save_image_metadata Sample.env "images/k"
                      "d41d8cd98f00b204e9800998ecf8427e" "a.jpg" "image/jpeg" 0%nat
                      (Py.PStr "T") (Py.PStr "D") None world0))
              (DB.mkSaved "0b2f7a1c-0000-4000-8000-000000000001" "images/k"
                          "d41d8cd98f00b204e9800998ecf8427e" "a.jpg" "image/jpeg" 0%nat
                          (DB.Isoformat 1700000000) (Py.PStr "T") (Py.PStr "D") None None))
    as (row & conn & stmt & Hi & Hid & Hat & _).
  - vm_compute. reflexivity.
  - exists row. split; [exact Hi |]. split; [exact Hid | exact Hat].
Defined.

(** C7, where it fails.  [validate_image] on bytes that PIL does not
    identify returns False and leaves the stream where PIL stopped reading
    (here after the 16-byte prefix): the [except] branch has no [seek(0)].
    A full read from there yields the tail of the content, not the
    content. *)
Theorem C7_invalid_image_leaves_position :
  App.validate_image Sample.env (Stream.mkFile Sample.not_an_image 0)
    = (false, Stream.mkFile Sample.not_an_image 16) /\
  Stream.pos (snd (App.validate_image Sample.env (Stream.mkFile Sample.not_an_image 0)))
    <> 0%nat /\
  fst (Stream.read_all
         (snd (App.validate_image Sample.env (Stream.mkFile Sample.not_an_image 0))))
    = bytes_of_string "med to .jpg" /\
  fst (Stream.read_all
         (snd (App.validate_image Sample.env (Stream.mkFile Sample.not_an_image 0))))
    <> Sample.not_an_image.
Proof.
  split; [reflexivity |]. split; [vm_compute; discriminate |].
  split; [reflexivity |]. vm_compute. discriminate.
Qed.

(** C9.  Every run of [check_image_exists] and of [save_image_metadata],
    whatever fails in it and wherever, takes at most one connection from the
    pool; a connection taken was not in use before, is given back by exactly
    one putconn, after the getconn, and the set of connections in use ends
    as it began.  A run in which getconn itself raised has no pool event at
    all. *)
Theorem C9_connection_released_exactly_once :
  forall (env : Env) (w : World) (lookup : string)
         (s3_key md5_hash original_filename mimetype : string) (filesize : nat)
         (title description : Py.value) (gemini_analysis : option string),
    released_once w (snd (DB.check_image_exists env lookup w)) /\
    released_once w
      (snd (DB.save_image_metadata env s3_key md5_hash original_filename mimetype
              filesize title description gemini_analysis w)).
Proof.
  intros. split.
  - apply check_image_exists_releases.
  - apply save_image_metadata_releases.
Qed.

(** A statement that fails: the INSERT raises, the handler rolls back, the
    [finally] gives the connection back, once. *)
Example insert_fails_connection_released :
  fst (DB.save_image_metadata Sample.env_db_down "images/k" "d41d8cd9" "a.jpg"
         "image/jpeg" 0%nat (Py.PStr "T") (Py.PStr "D") None world0)
    = Raise (Py.DatabaseError "server closed the connection unexpectedly") /\
  log (snd (DB.save_image_metadata Sample.env_db_down "images/k" "d41d8cd9" "a.jpg"
              "image/jpeg" 0%nat (Py.PStr "T") (Py.PStr "D") None world0))
    = [EvGetconn 0; EvRollback 0; EvPutconn 0] /\
  in_use (snd (DB.save_image_metadata Sample.env_db_down "images/k" "d41d8cd9" "a.jpg"
                 "image/jpeg" 0%nat (Py.PStr "T") (Py.PStr "D") None world0)) = ∅.
Proof. split; [| split]; vm_compute; reflexivity. Qed.

(** The lookup of a duplicate that fails: 500, and still nothing written. *)
Example lookup_fails_no_write :
  fst (App.upload_image Sample.env_db_down Sample.req_first Sample.world1) = server_error /\
  images (snd (App.upload_image Sample.env_db_down Sample.req_first Sample.world1))
    = images Sample.world1 /\
  drop (length (log Sample.world1))
       (log (snd (App.upload_image Sample.env_db_down Sample.req_first Sample.world1)))
    = [EvGetconn 0; EvPutconn 0].
Proof. split; [| split]; vm_compute; reflexivity. Qed.

(** ** The retrieval URL *)

Section Url.

Import App.

Variable env : Env.

Lemma get_file_url_default (key : string) (w : World) :
  S3.get_file_url env key None w =
    (match s3_presign env key 3600 with
     | inr url => Ret url
     | inl e => Raise e
     end, emit (EvPresign key 3600) w).
Proof.
  unfold S3.get_file_url, try_except, bind, act, lift, ret, raise. cbn.
  destruct (s3_presign env key 3600); reflexivity.
Qed.

(** The duplicate check never answers with an upload. *)
Lemma upload_check_not_uploaded (req : Request) (w w' : World) (r : Response) :
  upload_check env req w = (Ret (inl r), w') ->
  forall message data, body r <> Uploaded message data.
Proof.
  unfold upload_check, bind, ret, lift, raise.
  repeat (case_match; subst; try discriminate);
    let Heq := fresh "Heq" in
    intros Heq; inversion Heq; subst; cbn; discriminate.
Qed.

(** An upload that is answered carries the URL signed for 3600 seconds,
    or none. *)
Lemma upload_store_url (p : Pending) (w w' : World) (r : Response) :
  upload_store env p w = (Ret r, w') ->
  exists message data,
    r = mkResponse 201 (Uploaded message data) /\
    forall url, DB.s_download_url data = Some url ->
                s3_presign env (DB.s_s3_key data) 3600 = inr url.
Proof.
  unfold upload_store.
  destruct (analyze_image_with_gemini env (p_file p)) as [g f5].
  set (key := ("images/" ++ p_md5_hash p ++ "_" ++ p_original_filename p)%string).
  unfold bind at 1.
  destruct (S3.upload_file env f5 key (p_mimetype p) w) as [[b | e] w1]; [| discriminate].
  destruct (Py.getitem (p_metadata p) "title") as [e | title]; [discriminate |].
  destruct (Py.getitem (p_metadata p) "description") as [e | description];
    [discriminate |].
  cbn [lift]. unfold bind at 1. unfold ret at 1. unfold bind at 1. unfold ret at 1.
  unfold bind at 1.
  destruct (DB.save_image_metadata env key (p_md5_hash p) (p_original_filename p)
              (p_mimetype p) (p_filesize p) title description g w1)
    as [[saved | e] w2] eqn:Hsave; [| discriminate].
  apply save_returns in Hsave. cbv zeta in Hsave.
  destruct Hsave as (_ & _ & _ & -> & _).
  unfold bind, try_except, ret. rewrite get_file_url_default.
  destruct (s3_presign env key 3600) as [e | url'] eqn:Hp;
    intros H; inversion H; subst; eexists; eexists; (split; [reflexivity |]);
    cbn; intros url Hu; [discriminate | congruence].
Qed.

End Url.

(** C10.  [get_file_url] called without an expiration asks the store for a
    URL that expires in 3600 seconds, and that is how [upload_image] calls
    it: every presign request an upload makes, whatever else happens in it,
    has [ExpiresIn] 3600, and the [download_url] of a 201 answer, when there
    is one, is the URL the store signed for 3600 seconds for the key of the
    record. *)
Theorem C10_download_url_expires_in_3600 :
  forall (env : Env) (req : App.Request) (w : World),
    (forall key w0,
        S3.get_file_url env key None w0 =
          (match s3_presign env key 3600 with
           | inr url => Ret url
           | inl e => Raise e
           end, emit (EvPresign key 3600) w0)) /\
    (exists evs, log (snd (App.upload_image env req w)) = log w ++ evs /\
                 forall key ttl, EvPresign key ttl ∈ evs -> ttl = 3600) /\
    (forall message data url,
        fst (App.upload_image env req w) = App.mkResponse 201 (App.Uploaded message data) ->
        DB.s_download_url data = Some url ->
        s3_presign env (DB.s_s3_key data) 3600 = inr url).
Proof.
  intros env req w. split; [| split].
  - intros key w0. apply get_file_url_default.
  - pose proof (upload_body_expiry env req w) as (evs & Hl & Hq).
    exists evs. split.
    + unfold App.upload_image, App.answer.
      destruct (App.upload_body env req w) as [[r | e] w1]; exact Hl.
    + intros key ttl Hin. apply list_elem_of_In in Hin.
      rewrite forallb_forall in Hq. specialize (Hq _ Hin). cbn in Hq.
      now apply Z.eqb_eq in Hq.
  - intros message data url. unfold App.upload_image, App.answer, App.upload_body, bind.
    destruct (App.upload_check env req w) as [[[r | p] | e] w1] eqn:Hc; cbn.
    + intros ->. exfalso.
      eapply (upload_check_not_uploaded env req w w1 _ Hc). reflexivity.
    + destruct (App.upload_store env p w1) as [[r | e] w2] eqn:Hs; cbn; [| discriminate].
      intros ->. destruct (upload_store_url env p w1 w2 _ Hs) as (m & d & Heq & Hurl).
      inversion Heq; subst. apply Hurl.
    + discriminate.
Qed.

Lemma C10_witness :
  s3_presign Sample.env "images/2e96307f349b7acd1eb25650da567302_cat.jpg" 3600
    = inr "http://minio:9000/images/images/2e96307f349b7acd1eb25650da567302_cat.jpg?X-Amz-Signature=0"%string.
Proof.
  destruct (C10_download_url_expires_in_3600 Sample.env Sample.req_first world0)
    as (_ & _ & H).
  eapply (H _ (DB.mkSaved _ "images/2e96307f349b7acd1eb25650da567302_cat.jpg" _ _ _ _ _ _ _ _ _)).
  - vm_compute. reflexivity.
  - reflexivity.
Defined.

(** * Further properties *)

(** ** More sample environments and requests *)

Module Cases.

Definition with_s3_put (put : option Py.exn) (e : Env) : Env :=
  mkEnv (pil e) (secure_filename e) (gemini_api_key e) (gemini_ready e)
        (gemini_text e) (uuid4 e) (utcnow e) (db_fault e) (schema e)
        (s3_head e) (s3_create e) put (s3_presign e).

(** A store that refuses every object. *)
Definition env_store_down : Env := with_s3_put (Some Py.NoCredentialsError) Sample.env.

(** A bucket we may not look at. *)
Definition env_head_forbidden : Env :=
  Sample.with_s3 (fun _ => Some (Py.ClientError (Some "403"%string))) (fun _ => None)
                 Sample.env.

(** No bucket, and the connection drops while we create it. *)
Definition connection_lost : Py.exn := Py.OtherError "EndpointConnectionError".

Definition env_create_crash : Env :=
  Sample.with_s3 (fun _ => Sample.head_404) (fun _ => Some connection_lost) Sample.env.

(** No bucket, and a store that refuses the first two creates. *)
Definition env_create_flaky : Env :=
  Sample.with_s3 (fun _ => Sample.head_404)
                 (fun n => if (n <? 2)%nat
                           then Some (Py.ClientError (Some "ServiceUnavailable"%string))
                           else None)
                 Sample.env.

(** Metadata that is JSON but no object: [null], and an array of words. *)
Definition req_null : App.Request :=
  Sample.request "cat.jpg" Sample.jpeg (App.Json Py.PNone).

Definition words : Py.value := Py.PList [Py.PStr "title"; Py.PStr "description"].

Definition req_words : App.Request :=
  Sample.request "cat.jpg" Sample.jpeg (App.Json words).

(** Text sent under the name of a picture. *)
Definition req_text : App.Request :=
  Sample.request "notes.jpg" Sample.not_an_image (Sample.meta "T" "D").

(** All twenty connections of the pool checked out by other requests. *)
Definition world_busy : World := set_in_use (list_to_set (seq 0 DB.MAXCONN)) world0.

(** A database whose [cursor.close()] fails in [save_image_metadata]. *)
Definition close_fails (u : UnitOfWork) (op : DbOp) : option Py.exn :=
  match u, op with
  | Save, OpCursorClose => Some (Py.DatabaseError "connection already closed")
  | _, _ => None
  end.

Definition env_close_fails : Env := Sample.with_db_fault close_fails Sample.env.


End Cases.

(** ** File names *)

Section FileNames.

Import Py.

Lemma list_ascii_app (a b : string) :
  list_ascii_of_string (a ++ b) = list_ascii_of_string a ++ list_ascii_of_string b.
Proof.
  induction a as [| c a IH]; [reflexivity |].
  change (String c a +:+ b) with (String c (a +:+ b)).
  cbn [list_ascii_of_string app]. now f_equal.
Qed.

Definition no_dot (l : list ascii) : Prop := existsb (Ascii.eqb ".") l = false.

Lemma after_last_dot_None (l : list ascii) :
  after_last_dot l = None <-> no_dot l.
Proof.
  unfold no_dot. induction l as [| c l IH]; cbn [after_last_dot existsb]; [tauto |].
  destruct (after_last_dot l) as [t |].
  - split; [discriminate |]. intros H. apply orb_false_elim in H as [_ H].
    apply IH in H. discriminate.
  - rewrite (Ascii.eqb_sym "." c).
    destruct (Ascii.eqb c "."); cbn [orb]; [split; discriminate |].
    split; intros _; [now apply IH | reflexivity].
Qed.

(** The text after the last dot: what is cut has a dot before it and none
    in it. *)
Lemma after_last_dot_Some (l e : list ascii) :
  after_last_dot l = Some e <-> exists s, l = s ++ "."%char :: e /\ no_dot e.
Proof.
  revert e. induction l as [| c l IH]; intros e; cbn [after_last_dot].
  - split; [discriminate |]. intros (s & H & _). destruct s; discriminate.
  - destruct (after_last_dot l) as [t |] eqn:E.
    + split.
      * intros H. injection H as <-. destruct (proj1 (IH t) eq_refl) as (s & -> & Hn).
        exists (c :: s). auto.
      * intros (s & H & Hn). destruct s as [| c' s]; cbn in H; injection H as -> ->.
        -- apply after_last_dot_None in Hn. congruence.
        -- apply IH. eauto.
    + apply after_last_dot_None in E. split.
      * destruct (Ascii.eqb c ".") eqn:Hc; [| discriminate].
        intros H. injection H as <-. apply Ascii.eqb_eq in Hc as ->.
        exists []. auto.
      * intros (s & H & Hn). destruct s as [| c' s]; cbn in H; injection H as -> ->.
        -- reflexivity.
        -- exfalso. unfold no_dot in E. rewrite existsb_app in E. cbn in E.
           rewrite orb_true_r in E. discriminate.
Qed.

Lemma has_dot_after_last_dot (name : string) :
  has_dot name = true <-> is_Some (rsplit_dot_1 name).
Proof.
  unfold has_dot, rsplit_dot_1.
  destruct (after_last_dot (list_ascii_of_string name)) as [t |] eqn:E; cbn.
  - split; [eauto |]. intros _. apply after_last_dot_Some in E as (s & -> & _).
    rewrite existsb_app. cbn. apply orb_true_r.
  - apply after_last_dot_None in E. unfold no_dot in E. rewrite E.
    split; [discriminate | intros [? ?]; discriminate].
Qed.

Definition allowed_extension (ext : string) : bool :=
  existsb (String.eqb (lower ext)) App.ALLOWED_EXTENSIONS.

(** X1.  [allowed_file] accepts exactly the names of the form stem.ext whose
    [ext] has no dot and is, once lowered, one of png, jpg, jpeg, gif, bmp,
    webp: only what follows the last dot counts, and the stem may be
    anything, the empty string and names with more dots included. *)
Theorem allowed_file_iff (name : string) :
  App.allowed_file name = true <->
  exists stem ext, name = (stem ++ "." ++ ext)%string /\
                   has_dot ext = false /\ allowed_extension ext = true.
Proof.
  unfold App.allowed_file, rsplit_dot_1. split.
  - intros H. apply andb_prop in H as [_ H].
    destruct (after_last_dot (list_ascii_of_string name)) as [t |] eqn:E; [| discriminate].
    apply after_last_dot_Some in E as (s & Hl & Hn). cbn in H.
    exists (string_of_list_ascii s), (string_of_list_ascii t). split; [| split].
    + rewrite <- (string_of_list_ascii_of_string name), Hl.
      rewrite <- (list_ascii_of_string_of_list_ascii s) at 1.
      rewrite <- (list_ascii_of_string_of_list_ascii t) at 1.
      change ("."%char :: list_ascii_of_string (string_of_list_ascii t))
        with (list_ascii_of_string ("." ++ string_of_list_ascii t)).
      rewrite <- list_ascii_app. apply string_of_list_ascii_of_string.
    + unfold has_dot. now rewrite list_ascii_of_string_of_list_ascii.
    + exact H.
  - intros (stem & ext & -> & Hn & Ha).
    assert (E : after_last_dot (list_ascii_of_string (stem ++ "." ++ ext))
                = Some (list_ascii_of_string ext)).
    { apply after_last_dot_Some. exists (list_ascii_of_string stem).
      rewrite list_ascii_app. split; [reflexivity | exact Hn]. }
    rewrite E. cbn [fmap option_fmap option_map].
    rewrite string_of_list_ascii_of_string. fold (allowed_extension ext). rewrite Ha.
    rewrite andb_true_r. apply has_dot_after_last_dot.
    unfold rsplit_dot_1. rewrite E. eauto.
Qed.

Lemma allowed_file_iff_witness : App.allowed_file "holiday.tar.JPG" = true.
Proof.
  apply (proj2 (allowed_file_iff "holiday.tar.JPG")).
  exists "holiday.tar"%string, "JPG"%string. repeat split; reflexivity.
Defined.

Lemma lower_char_dot (c : ascii) : Ascii.eqb (lower_char c) "." = Ascii.eqb c ".".
Proof. destruct c as [[] [] [] [] [] [] [] []]; reflexivity. Qed.

Lemma lower_char_idem (c : ascii) : lower_char (lower_char c) = lower_char c.
Proof. destruct c as [[] [] [] [] [] [] [] []]; reflexivity. Qed.

Lemma after_last_dot_lower (l : list ascii) :
  after_last_dot (map lower_char l) = map lower_char <$> after_last_dot l.
Proof.
  induction l as [| c l IH]; [reflexivity |].
  cbn [map after_last_dot]. rewrite IH, lower_char_dot.
  destruct (after_last_dot l); [reflexivity |].
  destruct (Ascii.eqb c "."); reflexivity.
Qed.

Lemma has_dot_lower (name : string) : has_dot (lower name) = has_dot name.
Proof.
  unfold has_dot, lower. rewrite list_ascii_of_string_of_list_ascii.
  induction (list_ascii_of_string name) as [| c l IH]; [reflexivity |].
  cbn [map existsb]. rewrite IH, (Ascii.eqb_sym "." (lower_char c)), lower_char_dot.
  now rewrite (Ascii.eqb_sym c ".").
Qed.

Lemma allowed_file_lower (name : string) :
  App.allowed_file (lower name) = App.allowed_file name.
Proof.
  unfold App.allowed_file. rewrite has_dot_lower. f_equal.
  unfold rsplit_dot_1, lower at 1. rewrite list_ascii_of_string_of_list_ascii.
  rewrite after_last_dot_lower.
  destruct (after_last_dot (list_ascii_of_string name)) as [t |]; [| reflexivity].
  cbn [fmap option_fmap option_map]. unfold lower.
  rewrite !list_ascii_of_string_of_list_ascii, map_map.
  erewrite map_ext; [reflexivity |]. intros c. apply lower_char_idem.
Qed.

(** X2.  [allowed_file] does not look at the case of letters: two names
    that are equal once lowered are both allowed or both refused. *)
Theorem allowed_file_ignores_case (name1 name2 : string) :
  lower name1 = lower name2 -> App.allowed_file name1 = App.allowed_file name2.
Proof.
  intros H. rewrite <- (allowed_file_lower name1), <- (allowed_file_lower name2).
  now rewrite H.
Qed.

Lemma allowed_file_ignores_case_witness :
  App.allowed_file "Photo.JpEg" = App.allowed_file "photo.jpeg".
Proof. apply (allowed_file_ignores_case "Photo.JpEg" "photo.jpeg"). reflexivity. Defined.

End FileNames.

(** ** auth.py *)

Module Auth.

(** [request.headers.get('X-API-Key')] and the rest of the request. *)
Record HttpRequest : Type := mkHttpRequest {
  x_api_key : option string;
  payload : App.Request
}.

Definition unauthorized (error : string) : App.Response :=
  App.mkResponse 401 (App.Error error).

(** [require_api_key(f)]: [api_key] is [Config.API_KEY], [f] the view it
    decorates. *)
Definition require_api_key (api_key : string) (f : App.Request -> World -> App.Response * World)
           (request : HttpRequest) : World -> App.Response * World :=
  match x_api_key request with
  | None => fun w => (unauthorized "API key is required", w)
  | Some key =>
      if String.eqb key "" then fun w => (unauthorized "API key is required", w)
      else if negb (String.eqb key api_key) then
             fun w => (unauthorized "Invalid API key", w)
      else f (payload request)
  end.

(** [POST /api/upload] *)
Definition upload_endpoint (api_key : string) (env : Env) :
    HttpRequest -> World -> App.Response * World :=
  require_api_key api_key (App.upload_image env).

(** The header is there, is not empty and is the configured key. *)
Definition authenticated (api_key : string) (request : HttpRequest) : bool :=
  match x_api_key request with
  | Some key => negb (String.eqb key "") && String.eqb key api_key
  | None => false
  end.

End Auth.

Section Authentication.

Import Auth.

Lemma require_api_key_cases (api_key : string)
      (f : App.Request -> World -> App.Response * World) (request : HttpRequest) (w : World) :
  require_api_key api_key f request w =
    if authenticated api_key request then f (payload request) w
    else (unauthorized (match x_api_key request with
                        | Some (String _ _) => "Invalid API key"
                        | _ => "API key is required"
                        end), w).
Proof.
  unfold require_api_key, authenticated.
  destruct (x_api_key request) as [[| c key] |]; [reflexivity | | reflexivity].
  destruct (String.eqb (String c key) api_key); reflexivity.
Qed.

(** X3.  [require_api_key] runs the view it decorates exactly for requests
    whose X-API-Key header is there, is not empty and equals the configured
    key, and then it is the view: same answer, same effects.  Every other
    request is answered 401 and the world is what it was.  With an empty
    configured key no request gets through. *)
Theorem require_api_key_gate :
  forall (api_key : string) (f : App.Request -> World -> App.Response * World)
         (request : HttpRequest) (w : World),
    (authenticated api_key request = true ->
     require_api_key api_key f request w = f (payload request) w) /\
    (authenticated api_key request = false ->
     App.status (fst (require_api_key api_key f request w)) = 401%nat /\
     snd (require_api_key api_key f request w) = w) /\
    (api_key = ""%string ->
     App.status (fst (require_api_key api_key f request w)) = 401%nat /\
     snd (require_api_key api_key f request w) = w).
Proof.
  intros api_key f request w. rewrite require_api_key_cases.
  split; [intros ->; reflexivity |]. split.
  - intros ->. split; reflexivity.
  - intros ->. assert (H : authenticated "" request = false).
    { unfold authenticated. destruct (x_api_key request) as [[| c key] |]; reflexivity. }
    rewrite H. split; reflexivity.
Qed.

End Authentication.

Lemma require_api_key_gate_witness :
  Auth.upload_endpoint "s3cret" Sample.env
      (Auth.mkHttpRequest (Some "s3cret"%string) Sample.req_first) world0
    = App.upload_image Sample.env Sample.req_first world0 /\
  snd (Auth.upload_endpoint "s3cret" Sample.env
         (Auth.mkHttpRequest (Some "guess"%string) Sample.req_first) world0) = world0.
Proof.
  split.
  - apply (proj1 (require_api_key_gate "s3cret" (App.upload_image Sample.env)
                    (Auth.mkHttpRequest (Some "s3cret"%string) Sample.req_first) world0)).
    reflexivity.
  - apply (proj1 (proj2 (require_api_key_gate "s3cret" (App.upload_image Sample.env)
                    (Auth.mkHttpRequest (Some "guess"%string) Sample.req_first) world0))).
    reflexivity.
Defined.

(** ** More of bucket provisioning *)

Section ProvisioningPaths.

Variable env : Env.

(** The world after a turn that stopped at its head_bucket. *)
Definition after_head (w : World) : World :=
  emit EvHeadBucket (set_head_calls (S (head_calls w)) w).

(** What a failed head_bucket makes the function raise. *)
Definition head_failure (e : Py.exn) : Py.exn :=
  match e with
  | Py.ClientError None => Py.KeyError
  | Py.ClientError (Some c) =>
      match Py.int c with
      | Some _ => e
      | None => Py.ValueError
      end
  | _ => e
  end.

Lemma attempts_head_ok (attempt : nat) (rest : list nat) (d : Z) (w : World) :
  s3_head env (head_calls w) = None ->
  S3.attempts env (attempt :: rest) d w = (Ret tt, after_head w).
Proof.
  intros Hh. rewrite attempts_cons.
  unfold S3.attempt_body, S3.except_client_error, S3.head_bucket, try_except, bind, ret.
  rewrite Hh. reflexivity.
Qed.

Lemma attempts_head_fails (attempt : nat) (rest : list nat) (d : Z) (w : World) (e : Py.exn) :
  s3_head env (head_calls w) = Some e ->
  ~ not_found (Some e) ->
  S3.attempts env (attempt :: rest) d w = (Raise (head_failure e), after_head w).
Proof.
  intros Hh Hnf. rewrite attempts_cons.
  unfold S3.attempt_body, S3.except_client_error, S3.head_bucket, try_except, bind, ret,
    raise.
  rewrite Hh. destruct e as [[c |] | | | | | | | |]; try reflexivity.
  cbn [head_failure]. destruct (Py.int c) as [z |] eqn:Hz; [| reflexivity].
  destruct (z =? 404) eqn:Hz4; [| reflexivity].
  exfalso. apply Hnf. exists c. apply Z.eqb_eq in Hz4. subst z. auto.
Qed.

Definition is_client_error (e : Py.exn) : bool :=
  match e with Py.ClientError _ => true | _ => false end.

Lemma attempts_create_crashes (attempt : nat) (rest : list nat) (d : Z) (w : World)
      (e : Py.exn) :
  not_found (s3_head env (head_calls w)) ->
  s3_create env (create_calls w) = Some e ->
  is_client_error e = false ->
  S3.attempts env (attempt :: rest) d w = (Raise e, after_create w).
Proof.
  intros (c & Hh & Hc) Hcr He. rewrite attempts_cons.
  unfold S3.attempt_body, S3.except_client_error, S3.head_bucket, S3.create_bucket,
    try_except, bind, ret, raise.
  rewrite Hh. cbn. rewrite Hc. cbn. rewrite Hcr.
  destruct e; try discriminate; reflexivity.
Qed.

(** X4.  When the first head_bucket answers, [_ensure_bucket_exists]
    returns after that one request: no create_bucket, no sleep. *)
Theorem ensure_bucket_exists_present (w : World) :
  s3_head env (head_calls w) = None ->
  S3._ensure_bucket_exists env w = (Ret tt, after_head w) /\
  create_calls (after_head w) = create_calls w /\
  log (after_head w) = log w ++ [EvHeadBucket].
Proof.
  intros Hh. split; [| split; reflexivity].
  unfold S3._ensure_bucket_exists. cbn [seq S3.max_retries]. now apply attempts_head_ok.
Qed.

(** X5.  Failures [_ensure_bucket_exists] does not retry.  A head_bucket
    that fails with anything but a 404 ends it after that one request: the
    error goes up as it is, or as the KeyError or ValueError of reading its
    code when the ClientError has no code or one that is no number.  A
    create_bucket that fails with something that is no ClientError ends it
    after head and create, with that exception and without a sleep. *)
Theorem ensure_bucket_exists_not_retried (w : World) (e : Py.exn) :
  (s3_head env (head_calls w) = Some e -> ~ not_found (Some e) ->
   S3._ensure_bucket_exists env w = (Raise (head_failure e), after_head w)) /\
  (not_found (s3_head env (head_calls w)) ->
   s3_create env (create_calls w) = Some e -> is_client_error e = false ->
   S3._ensure_bucket_exists env w = (Raise e, after_create w)).
Proof.
  split.
  - intros Hh Hnf. unfold S3._ensure_bucket_exists. cbn [seq S3.max_retries].
    now apply attempts_head_fails.
  - intros Hh Hc He. unfold S3._ensure_bucket_exists. cbn [seq S3.max_retries].
    now apply attempts_create_crashes.
Qed.

End ProvisioningPaths.

Lemma ensure_bucket_exists_present_witness :
  S3._ensure_bucket_exists Sample.env world0 = (Ret tt, after_head world0).
Proof.
  apply (ensure_bucket_exists_present Sample.env world0). reflexivity.
Defined.

Lemma ensure_bucket_exists_not_retried_witness :
  S3._ensure_bucket_exists Cases.env_head_forbidden world0
    = (Raise (Py.ClientError (Some "403"%string)), after_head world0) /\
  S3._ensure_bucket_exists Cases.env_create_crash world0
    = (Raise Cases.connection_lost, after_create world0).
Proof.
  split.
  - apply (proj1 (ensure_bucket_exists_not_retried Cases.env_head_forbidden world0
                    (Py.ClientError (Some "403"%string)))).
    + reflexivity.
    + intros (c & Hc & H404). injection Hc as <-. vm_compute in H404. discriminate.
  - apply (proj2 (ensure_bucket_exists_not_retried Cases.env_create_crash world0
                    Cases.connection_lost)).
    + exists "404"%string. split; reflexivity.
    + reflexivity.
    + reflexivity.
Defined.

Section ProvisioningRetries.

Variable env : Env.

(** The world after [k] turns in a row that each found no bucket, failed to
    create it and slept, the first sleep being [d]. *)
Fixpoint failed_turns (k : nat) (d : Z) (w : World) : World :=
  match k with
  | O => w
  | S k' => failed_turns k' (d * 2) (emit (EvSleep d) (after_create w))
  end.

Lemma failed_turns_calls (k : nat) :
  forall d w,
    head_calls (failed_turns k d w) = (head_calls w + k)%nat /\
    create_calls (failed_turns k d w) = (create_calls w + k)%nat /\
    images (failed_turns k d w) = images w /\
    bucket (failed_turns k d w) = bucket w.
Proof.
  induction k as [| k IH]; intros d w; cbn [failed_turns].
  - repeat split; lia.
  - destruct (IH (d * 2) (emit (EvSleep d) (after_create w))) as (H1 & H2 & H3 & H4).
    rewrite H1, H2, H3, H4. cbn. repeat split; lia.
Qed.

Lemma failed_turns_log (k : nat) :
  forall d w, exists evs,
    log (failed_turns k d w) = log w ++ evs /\ sleeps evs = backoff d k.
Proof.
  induction k as [| k IH]; intros d w; cbn [failed_turns].
  - exists []. now rewrite app_nil_r.
  - destruct (IH (d * 2) (emit (EvSleep d) (after_create w))) as (evs & Hl & Hs).
    exists ([EvHeadBucket; EvCreateBucket; EvSleep d] ++ evs). split.
    + rewrite Hl. cbn. now rewrite <- !app_assoc.
    + rewrite sleeps_app, Hs. reflexivity.
Qed.

(** Every turn from [w] on, for [k] turns, finds no bucket and fails to
    create it with a ClientError other than already-exists. *)
Definition fails_for (k : nat) (w : World) : Prop :=
  forall j, (j < k)%nat ->
    not_found (s3_head env (head_calls w + j)) /\
    exists e, create_fails (s3_create env (create_calls w + j)) e.

(** [k] failing turns, none of them the last of the loop, are gone through
    with the delay doubled each time. *)
Lemma attempts_retry (k : nat) :
  forall (a : nat) (d : Z) (w : World) (rest : list nat),
    (a + k <= S3.max_retries - 1)%nat ->
    fails_for k w ->
    S3.attempts env (seq a k ++ rest) d w
      = S3.attempts env rest (d * 2 ^ Z.of_nat k) (failed_turns k d w).
Proof.
  induction k as [| k IH]; intros a d w rest Hle Hf.
  - cbn [seq app failed_turns]. now rewrite Z.mul_1_r.
  - cbn [seq app failed_turns]. rewrite attempts_cons.
    destruct (Hf 0%nat ltac:(lia)) as [Hnf [e Hcf]]. rewrite !Nat.add_0_r in *.
    rewrite (attempt_body_fails env a d w e Hnf Hcf).
    replace (a <? S3.max_retries - 1)%nat with true by (symmetry; apply Nat.ltb_lt; lia).
    rewrite (IH (S a) (d * 2) _ rest) by
      (try lia; intros j Hj; destruct (Hf (S j) ltac:(lia)) as [H1 H2];
       cbn; rewrite <- !Nat.add_succ_comm in *; rewrite ?Nat.add_succ_l in *; auto).
    f_equal. rewrite Nat2Z.inj_succ, Z.pow_succ_r by lia. lia.
Qed.

(** How the turn that follows ends well: the bucket is there by now, or it
    is created, or the create tells that it exists. *)
Definition ends_ready (w : World) : Prop :=
  s3_head env (head_calls w) = None \/
  (not_found (s3_head env (head_calls w)) /\
   (s3_create env (create_calls w) = None \/
    exists_already (s3_create env (create_calls w)))).

(** X6.  Creates that fail for a while are ridden out.  If the first [k]
    turns, [k] at most 4, find no bucket and fail to create it with a
    ClientError other than already-exists, and the turn after them finds the
    bucket, creates it or is told that it exists, then
    [_ensure_bucket_exists] returns normally after [k + 1] head_bucket
    requests, having slept 1, 2, ..., 2^(k-1) seconds in between. *)
Theorem ensure_bucket_exists_recovers (k : nat) (w : World) :
  (k <= S3.max_retries - 1)%nat ->
  fails_for k w ->
  ends_ready (failed_turns k 1 w) ->
  let w' := snd (S3._ensure_bucket_exists env w) in
  fst (S3._ensure_bucket_exists env w) = Ret tt /\
  head_calls w' = (head_calls w + k + 1)%nat /\
  exists evs, log w' = log w ++ evs /\ sleeps evs = backoff 1 k.
Proof.
  intros Hk Hf Hend. cbv zeta. unfold S3._ensure_bucket_exists.
  replace (seq 0 S3.max_retries) with (seq 0 k ++ k :: seq (S k) (S3.max_retries - 1 - k)).
  2: { change (k :: seq (S k) (S3.max_retries - 1 - k))
         with (seq k (S (S3.max_retries - 1 - k))).
       rewrite <- seq_app. f_equal. unfold S3.max_retries in *. lia. }
  rewrite (attempts_retry k 0 1 w) by (auto; lia).
  destruct (failed_turns_calls k 1 w) as (Hh & Hc & _ & _).
  destruct (failed_turns_log k 1 w) as (evs & Hl & Hs).
  destruct Hend as [Hok | [Hnf [Hok | Hex]]].
  - rewrite attempts_head_ok by exact Hok. cbn [fst snd]. split; [reflexivity |].
    split; [cbn; lia |]. exists (evs ++ [EvHeadBucket]). split.
    + cbn. rewrite Hl. now rewrite <- app_assoc.
    + rewrite sleeps_app, Hs. cbn. apply app_nil_r.
  - rewrite attempts_created by assumption. cbn [fst snd]. split; [reflexivity |].
    split; [cbn; lia |]. exists (evs ++ [EvHeadBucket; EvCreateBucket]). split.
    + cbn. rewrite Hl. now rewrite <- !app_assoc.
    + rewrite sleeps_app, Hs. cbn. apply app_nil_r.
  - rewrite attempts_race by assumption. cbn [fst snd]. split; [reflexivity |].
    split; [cbn; lia |]. exists (evs ++ [EvHeadBucket; EvCreateBucket]). split.
    + cbn. rewrite Hl. now rewrite <- !app_assoc.
    + rewrite sleeps_app, Hs. cbn. apply app_nil_r.
Qed.

End ProvisioningRetries.

Lemma ensure_bucket_exists_recovers_witness :
  fst (S3._ensure_bucket_exists Cases.env_create_flaky world0) = Ret tt /\
  head_calls (snd (S3._ensure_bucket_exists Cases.env_create_flaky world0)) = 3%nat /\
  exists evs,
    log (snd (S3._ensure_bucket_exists Cases.env_create_flaky world0)) = log world0 ++ evs /\
    sleeps evs = [1; 2].
Proof.
  apply (ensure_bucket_exists_recovers Cases.env_create_flaky 2 world0).
  - unfold S3.max_retries. lia.
  - intros j Hj. split.
    + exists "404"%string. split; reflexivity.
    + exists (Py.ClientError (Some "ServiceUnavailable"%string)),
             (Some "ServiceUnavailable"%string).
      destruct j as [| [| j]]; [| | lia]; repeat split; reflexivity.
  - right. split.
    + exists "404"%string. split; reflexivity.
    + left. reflexivity.
Defined.

(** ** More of the repository *)

Section Repository.

Variable env : Env.

(** The psycopg2 calls of a unit of work do not fail. *)
Definition db_healthy (u : UnitOfWork) : Prop := forall op, db_fault env u op = None.

(** The pool has a connection to give. *)
Definition pool_has_room (w : World) : Prop := (size (in_use w) < DB.MAXCONN)%nat.

Definition fresh_md5 (md5_hash : string) (w : World) : Prop :=
  forall row, row ∈ images w -> r_md5_hash row <> md5_hash.

Lemma matching_fresh (md5_hash : string) (w : World) :
  fresh_md5 md5_hash w <-> matching md5_hash w = [].
Proof.
  unfold matching, fresh_md5. split.
  - intros H. destruct (filter _ (images w)) as [| r l] eqn:E; [reflexivity |].
    assert (Hr : r ∈ filter (λ r : Row, r_md5_hash r = md5_hash) (images w))
      by (rewrite E; apply list_elem_of_here).
    apply list_elem_of_filter in Hr as [H1 H2]. destruct (H r H2 H1).
  - intros E row Hin Hmd5. eapply (filter_nil_not_elem_of _ _ row E); eauto.
Qed.

Section Save.

Variables s3_key md5_hash original_filename mimetype : string.
Variable filesize : nat.
Variables title description : Py.value.
Variable gemini_analysis : option string.

Let the_save : M DB.Saved :=
  save env s3_key md5_hash original_filename mimetype filesize title description
       gemini_analysis.

Let the_row : Row :=
  sent_row env s3_key md5_hash original_filename mimetype filesize title description
           gemini_analysis.


(** Whatever fails, [save_image_metadata] leaves the bucket and the pool
    alone and the table as it was or longer by the one row; a run that
    raises has added the row only if the failure came after the commit. *)
Lemma save_outcome (w : World) :
  let w' := snd (the_save w) in
  bucket w' = bucket w /\
  in_use w' = in_use w /\
  (images w' = images w \/
   (images w' = images w ++ [the_row] /\
    DB.violation (schema env) (images w) the_row = None)) /\
  (forall e, fst (the_save w) = Raise e ->
             db_fault env Save OpCursorClose = None -> images w' = images w).
Proof.
  cbv zeta. split; [| split].
  2: { pose proof (save_image_metadata_releases env s3_key md5_hash original_filename
         mimetype filesize title description gemini_analysis w) as [H _]. exact H. }
  all: unfold the_save, save, DB.save_image_metadata, DB.unit_of_work, DB.get_connection;
    fold (sent_insert env s3_key md5_hash original_filename mimetype filesize title
         description gemini_analysis);
    destruct (db_fault env Save OpGetconn) as [e0 |];
      [unfold try_finally, bind, ret, raise; cbn; auto; split; auto |];
    destruct (DB.MAXCONN <=? size (in_use w))%nat;
      [unfold try_finally, bind, ret, raise; cbn; auto; split; auto |];
    unfold try_finally, try_except, DB.cursor, DB.cursor_close, DB.fetchone, DB.commit,
      DB.execute_insert, DB.rollback, DB.put_connection, DB.faulty, bind, ret, raise, act;
    rewrite row_of_sent_insert; fold the_row;
    destruct (db_fault env Save OpCursor); cbn;
      [destruct (db_fault env Save OpRollback); cbn; auto; split; auto |];
    destruct (db_fault env Save OpExecute); cbn;
      [destruct (db_fault env Save OpRollback); cbn; auto; split; auto |];
    rewrite lookup_delete_eq; cbn; rewrite app_nil_r;
    destruct (DB.violation (schema env) (images w) the_row) eqn:V; cbn;
      [destruct (db_fault env Save OpRollback); cbn; auto; split; auto |];
    destruct (db_fault env Save OpFetchone); cbn;
      [destruct (db_fault env Save OpRollback); cbn; auto; split; auto |];
    destruct (db_fault env Save OpCommit); cbn;
      [destruct (db_fault env Save OpRollback); cbn; auto; split; auto |];
    rewrite lookup_insert_eq; cbn;
    destruct (db_fault env Save OpCursorClose); cbn;
      [destruct (db_fault env Save OpRollback); cbn; auto; split; auto;
       intros; discriminate |];
    auto; split; auto; intros; discriminate.
Qed.


End Save.

(** A lookup in a working database: nothing found when no row has the
    fingerprint, otherwise the oldest row that has it. *)
Lemma check_image_exists_healthy (md5_hash : string) (w : World) :
  db_healthy Check -> pool_has_room w ->
  exists w',
    DB.check_image_exists env md5_hash w
      = (Ret (existing_of <$> head (matching md5_hash w)), w') /\
    images w' = images w /\ bucket w' = bucket w /\ in_use w' = in_use w /\
    log w' = log w ++ [EvGetconn (fresh (in_use w)); EvSelect (fresh (in_use w)) md5_hash;
                       EvPutconn (fresh (in_use w))].
Proof.
  intros Hok Hroom.
  destruct (check_image_exists_answers env md5_hash w Hok Hroom) as [Hr Hl].
  pose proof (check_image_exists_no_write env md5_hash w) as [[Hi Hb] _].
  pose proof (check_image_exists_releases env md5_hash w) as [Hu _].
  destruct (DB.check_image_exists env md5_hash w) as [r w'].
  cbn [fst snd] in *. subst r. eauto 10.
Qed.

(** With the pool empty, both units of work raise PoolError and do nothing
    else. *)
Lemma pool_exhausted (u : UnitOfWork) (w : World) :
  db_fault env u OpGetconn = None ->
  (DB.MAXCONN <= size (in_use w))%nat ->
  DB.get_connection env u w = (Raise Py.PoolError, w).
Proof.
  intros Hok Hfull. unfold DB.get_connection. rewrite Hok.
  apply Nat.leb_le in Hfull. now rewrite Hfull.
Qed.

End Repository.
Section RepositoryResults.

Variable env : Env.

(** No two rows of the table have the same fingerprint. *)
Definition one_row_per_fingerprint (w : World) : Prop :=
  NoDup (map r_md5_hash (images w)).



Section SaveResults.

Variables s3_key md5_hash original_filename mimetype : string.
Variable filesize : nat.
Variables title description : Py.value.
Variable gemini_analysis : option string.

Let the_save : M DB.Saved :=
  save env s3_key md5_hash original_filename mimetype filesize title description
       gemini_analysis.

Let the_row : Row :=
  sent_row env s3_key md5_hash original_filename mimetype filesize title description
           gemini_analysis.

(** No connection is left with rows that are neither committed nor rolled
    back. *)
Lemma save_closes_transaction (w : World) :
  txn (snd (the_save w)) = txn w \/
  txn (snd (the_save w)) = delete (fresh (in_use w)) (txn w).
Proof.
  unfold the_save, save, DB.save_image_metadata, DB.unit_of_work, DB.get_connection.
  destruct (db_fault env Save OpGetconn) as [e0 |];
    [unfold try_finally, bind, ret, raise; cbn; auto |].
  destruct (DB.MAXCONN <=? size (in_use w))%nat;
    [unfold try_finally, bind, ret, raise; cbn; auto |].
  right.
  unfold try_finally, try_except, DB.cursor, DB.cursor_close, DB.fetchone, DB.commit,
    DB.execute_insert, DB.rollback, DB.put_connection, DB.faulty, bind, ret, raise, act.
  destruct (db_fault env Save OpCursor); cbn;
    [destruct (db_fault env Save OpRollback); cbn; now rewrite ?delete_delete_eq |].
  destruct (db_fault env Save OpExecute); cbn;
    [destruct (db_fault env Save OpRollback); cbn; now rewrite ?delete_delete_eq |].
  rewrite lookup_delete_eq; cbn.
  destruct (DB.violation _ _ _); cbn;
    [destruct (db_fault env Save OpRollback); cbn; now rewrite ?delete_delete_eq |].
  destruct (db_fault env Save OpFetchone); cbn;
    [destruct (db_fault env Save OpRollback); cbn;
     now rewrite ?delete_delete_eq, ?delete_insert_eq, ?delete_delete_eq |].
  destruct (db_fault env Save OpCommit); cbn;
    [destruct (db_fault env Save OpRollback); cbn;
     now rewrite ?delete_delete_eq, ?delete_insert_eq, ?delete_delete_eq |].
  destruct (db_fault env Save OpCursorClose); cbn;
    [destruct (db_fault env Save OpRollback); cbn;
     now rewrite ?delete_delete_eq, ?delete_insert_eq, ?delete_delete_eq |].
  now rewrite ?delete_delete_eq, ?delete_insert_eq, ?delete_delete_eq.
Qed.

(** X8.  [save_image_metadata] is all or nothing on the table, whatever
    fails and wherever: the table is left as it was or longer by the one row
    the call asked for, with the bucket and the pool untouched and no
    transaction left open.  A normal return means the row is there.  An
    exception means it is not, unless the exception came from the one call
    made after the commit, [cursor.close()]. *)
Theorem save_image_metadata_all_or_nothing (w : World) :
  let r := fst (the_save w) in
  let w' := snd (the_save w) in
  bucket w' = bucket w /\ in_use w' = in_use w /\
  (txn w = ∅ -> txn w' = ∅) /\
  (images w' = images w \/ images w' = images w ++ [the_row]) /\
  (forall saved, r = Ret saved -> images w' = images w ++ [the_row]) /\
  (forall e, r = Raise e -> db_fault env Save OpCursorClose = None ->
             images w' = images w).
Proof.
  cbv zeta.
  pose proof (save_outcome env s3_key md5_hash original_filename mimetype filesize title
                description gemini_analysis w) as H. cbv zeta in H.
  destruct H as (Hb & Hu & Hi & Hr). fold the_save the_row in Hb, Hu, Hi, Hr.
  split; [exact Hb |]. split; [exact Hu |]. split; [| split; [| split]].
  - intros He. destruct (save_closes_transaction w) as [-> | ->]; [exact He |].
    rewrite He. apply delete_empty.
  - destruct Hi as [Hi | [Hi _]]; auto.
  - intros saved Hs. destruct (the_save w) as [o w1] eqn:E. cbn [fst snd] in *. subst o.
    now destruct (save_returns env _ _ _ _ _ _ _ _ w w1 saved E) as (H1 & _).
  - exact Hr.
Qed.

(** X9.  The one case where the row stays though [save_image_metadata]
    raises: everything works up to the commit and [cursor.close()] then
    fails.  The rollback of the handler comes after the commit, the
    exception goes up, and the table has the row. *)
Theorem save_image_metadata_close_failure (w : World) (e : Py.exn) :
  (forall op, op <> OpCursorClose -> db_fault env Save op = None) ->
  db_fault env Save OpCursorClose = Some e ->
  pool_has_room w ->
  DB.violation (schema env) (images w) the_row = None ->
  fst (the_save w) = Raise e /\
  images (snd (the_save w)) = images w ++ [the_row] /\
  exists c stmt,
    log (snd (the_save w)) = log w ++ [EvGetconn c; EvInsert c stmt; EvCommit c;
                                       EvRollback c; EvPutconn c].
Proof.
  intros Hok Hclose Hroom Hv.
  unfold the_save, save, DB.save_image_metadata, DB.unit_of_work, DB.get_connection.
  fold (sent_insert env s3_key md5_hash original_filename mimetype filesize title
         description gemini_analysis).
  rewrite (Hok OpGetconn) by discriminate. apply Nat.leb_gt in Hroom. rewrite Hroom.
  unfold try_finally, try_except, DB.cursor, DB.cursor_close, DB.fetchone, DB.commit,
    DB.execute_insert, DB.rollback, DB.put_connection, DB.faulty, bind, ret, raise, act.
  rewrite (Hok OpCursor), (Hok OpExecute), (Hok OpFetchone), (Hok OpCommit),
    (Hok OpRollback), Hclose by discriminate.
  rewrite row_of_sent_insert. fold the_row. cbn.
  rewrite lookup_delete_eq. cbn. rewrite app_nil_r, Hv. cbn.
  rewrite lookup_insert_eq. cbn.
  split; [reflexivity |]. split; [reflexivity |].
  eexists _, _. rewrite <- !app_assoc. reflexivity.
Qed.

End SaveResults.


End RepositoryResults.


Lemma save_image_metadata_close_failure_witness :
  fst (save Cases.env_close_fails "images/k" "h" "cat.jpg" "image/jpeg" 31 (Py.PStr "T")
            (Py.PStr "D") None world0)
    = Raise (Py.DatabaseError "connection already closed") /\
  length (images (snd (save Cases.env_close_fails "images/k" "h" "cat.jpg" "image/jpeg" 31
                            (Py.PStr "T") (Py.PStr "D") None world0))) = 1%nat.
Proof.
  destruct (save_image_metadata_close_failure Cases.env_close_fails "images/k" "h"
              "cat.jpg" "image/jpeg" 31 (Py.PStr "T") (Py.PStr "D") None world0
              (Py.DatabaseError "connection already closed")) as (Hr & Hi & _).
  - intros op Hop. destruct op; try reflexivity. destruct Hop. reflexivity.
  - reflexivity.
  - unfold pool_has_room. vm_compute. lia.
  - reflexivity.
  - split; [exact Hr | rewrite Hi; reflexivity].
Defined.


(** ** More of the orchestrator *)

Section Pipeline.

Import App.

Variable env : Env.

(** The annotation never changes the content and leaves a stream that was
    at its start at its start. *)
Lemma analyze_image_with_gemini_stream (f : Stream.File) :
  Stream.content (snd (analyze_image_with_gemini env f)) = Stream.content f /\
  (Stream.pos f = 0%nat -> Stream.pos (snd (analyze_image_with_gemini env f)) = 0%nat).
Proof.
  unfold analyze_image_with_gemini.
  destruct (String.eqb (gemini_api_key env) ""); [auto |].
  destruct (negb (gemini_ready env)); [auto |]. cbn.
  destruct (gemini_text env _); cbn; auto.
Qed.

(** How the checks of [upload_image] end: a 400 that touches nothing, a
    TypeError on metadata that is not a container, or a request that goes
    on to the fingerprint. *)
Lemma upload_check_cases (req : Request) (w : World) :
  (exists error, upload_check env req w = (Ret (inl (mkResponse 400 (Error error))), w)) \/
  upload_check env req w = (Raise Py.TypeError, w) \/
  exists file metadata, passes_validation env req file metadata.
Proof.
  unfold upload_check.
  destruct (image_file req) as [file |] eqn:Hf; [| left; eauto].
  destruct (metadata_field req) as [field |] eqn:Hm; [| left; eauto].
  destruct (String.eqb (filename file) "") eqn:Hn; [left; eauto |].
  destruct (allowed_file (filename file)) eqn:Ha; [| left; eauto]. cbn [negb].
  unfold validate_image. cbn [Stream.seek0 Stream.content].
  destruct (pil env (Stream.content (stream file))) as [p | p] eqn:Hp; [| left; eauto].
  cbn [negb]. destruct field as [| metadata]; [left; eauto |].
  assert (Hwf : well_formed env req file metadata).
  { split; [exact Hf |]. split; [exact Hm |]. split; [now apply String.eqb_neq |].
    split; [exact Ha |]. eauto. }
  destruct (Py.contains "title" metadata) as [e | [|]] eqn:Ht.
  - right; left. assert (e = Py.TypeError) as ->
      by (destruct metadata; cbn in Ht; congruence).
    reflexivity.
  - destruct (Py.contains "description" metadata) as [e | [|]] eqn:Hd.
    + right; left. assert (e = Py.TypeError) as ->
        by (destruct metadata; cbn in Hd; congruence).
      reflexivity.
    + right; right. exists file, metadata. split; auto.
    + left. unfold bind, lift, ret. cbn. eauto.
  - left. unfold bind, lift, ret. cbn. eauto.
Qed.

(** The object [upload_image] writes for a request past the duplicate
    check, and the world once it is written. *)
Definition object_key (p : Pending) : string :=
  ("images/" ++ p_md5_hash p ++ "_" ++ p_original_filename p)%string.

Definition object_of (p : Pending) : Blob :=
  mkBlob (fst (Stream.read_all (snd (analyze_image_with_gemini env (p_file p)))))
         (p_mimetype p) [("uploaded_by", "image_api")]%string.

Definition stored (p : Pending) (w : World) : World :=
  emit (EvPutObject (object_key p))
       (set_bucket (<[object_key p := object_of p]> (bucket w)) w).

Definition with_url (key : string) (saved : DB.Saved) : DB.Saved :=
  match s3_presign env key 3600 with
  | inr url => set_download_url url saved
  | inl _ => saved
  end.

(** [upload_image] after the duplicate check, step by step. *)
Lemma upload_store_cases (p : Pending) (w : World) :
  upload_store env p w =
    match s3_put env with
    | Some e => (Raise e, w)
    | None =>
        match Py.getitem (p_metadata p) "title" with
        | inl e => (Raise e, stored p w)
        | inr title =>
            match Py.getitem (p_metadata p) "description" with
            | inl e => (Raise e, stored p w)
            | inr description =>
                match save env (object_key p) (p_md5_hash p) (p_original_filename p)
                        (p_mimetype p) (p_filesize p) title description
                        (fst (analyze_image_with_gemini env (p_file p))) (stored p w) with
                | (Raise e, w2) => (Raise e, w2)
                | (Ret saved, w2) =>
                    (Ret (mkResponse 201 (Uploaded "Image uploaded successfully"
                                            (with_url (object_key p) saved))),
                     emit (EvPresign (object_key p) 3600) w2)
                end
            end
        end
    end.
Proof.
  unfold upload_store, stored, object_of, object_key, with_url, save.
  destruct (analyze_image_with_gemini env (p_file p)) as [g f5]. cbn [fst snd].
  unfold S3.upload_file. destruct (s3_put env) as [e |]; [reflexivity |].
  unfold try_except at 1. unfold act, ret, bind at 1 2. cbv beta iota.
  destruct (Py.getitem (p_metadata p) "title") as [e | title]; [reflexivity |].
  cbn [lift]. unfold bind at 1. unfold ret at 1. cbv beta iota.
  destruct (Py.getitem (p_metadata p) "description") as [e | description]; [reflexivity |].
  cbn [lift]. unfold bind at 1. unfold ret at 1. cbv beta iota. unfold bind at 1.
  destruct (DB.save_image_metadata _ _ _ _ _ _ _ _ _ _) as [[saved | e] w2]; [| reflexivity].
  unfold bind, try_except, ret. rewrite get_file_url_default.
  destruct (s3_presign env _ 3600); reflexivity.
Qed.

End Pipeline.

Section PipelineEffects.

Import App.

Variable env : Env.

Lemma answer_store_status (p : Pending) (w : World) :
  status (fst (answer (upload_store env p) w)) = 201%nat \/
  status (fst (answer (upload_store env p) w)) = 500%nat.
Proof.
  unfold answer. rewrite upload_store_cases.
  destruct (s3_put env); [now right |].
  destruct (Py.getitem _ "title"); [now right |].
  destruct (Py.getitem _ "description"); [now right |].
  destruct (save _ _ _ _ _ _ _ _ _ _) as [[saved | e] w2]; [now left | now right].
Qed.

(** The request behind a [Pending]: fingerprint and size are those of the
    bytes the object will hold. *)
Lemma pending_object (file : FileStorage) (metadata : Py.value) :
  let p := pending_of env file metadata in
  b_data (object_of env p) = Stream.content (stream file) /\
  MD5.md5_hex (b_data (object_of env p)) = p_md5_hash p /\
  length (b_data (object_of env p)) = p_filesize p.
Proof.
  cbv zeta. unfold object_of, pending_of, fingerprint. cbn [p_file p_md5_hash p_filesize b_data].
  destruct (analyze_image_with_gemini_stream env
              (Stream.mkFile (Stream.content (stream file)) 0)) as [Hc Hp].
  specialize (Hp eq_refl).
  destruct (snd (analyze_image_with_gemini env _)) as [c q]. cbn in *. subst.
  rewrite drop_0. auto.
Qed.

(** What a request that passed validation can do to the table and the
    bucket, whatever fails: nothing, or the object alone, or the object and
    then the row that points to it. *)
Lemma upload_image_valid_effects (req : Request) (file : FileStorage) (metadata : Py.value)
      (w : World) :
  passes_validation env req file metadata ->
  let p := pending_of env file metadata in
  let w' := snd (upload_image env req w) in
  in_use w' = in_use w /\
  ((images w' = images w /\ bucket w' = bucket w) \/
   (fresh_md5 (fingerprint file) w /\
    bucket w' = <[object_key p := object_of env p]> (bucket w) /\
    (images w' = images w \/
     exists row, images w' = images w ++ [row] /\
                 r_md5_hash row = fingerprint file /\ r_s3_key row = object_key p /\
                 r_filesize row = length (Stream.content (stream file))))).
Proof.
  intros Hval p w'. subst w'. rewrite (upload_image_valid env _ _ _ w Hval).
  pose proof (check_image_exists_no_write env (fingerprint file) w) as [[Hi Hb] _].
  pose proof (check_image_exists_releases env (fingerprint file) w) as [Hu _].
  pose proof (check_image_exists_returns env (fingerprint file) w) as Hret.
  destruct (DB.check_image_exists env (fingerprint file) w) as [[[ex |] | e] w1];
    cbn [fst snd] in *; try (split; [exact Hu | left; split; assumption]).
  specialize (Hret w1 None eq_refl).
  assert (Hfresh : fresh_md5 (fingerprint file) w).
  { apply matching_fresh. destruct (matching (fingerprint file) w); [reflexivity |].
    discriminate. }
  fold p. unfold answer. rewrite upload_store_cases.
  destruct (s3_put env); [split; [exact Hu | left; split; assumption] |].
  assert (Hst : bucket (stored env p w1) = <[object_key p := object_of env p]> (bucket w))
    by (cbn; now rewrite Hb).
  destruct (Py.getitem _ "title") as [e | title];
    [split; [exact Hu | right; split; [exact Hfresh | split; [exact Hst | now left]]] |].
  destruct (Py.getitem _ "description") as [e | description];
    [split; [exact Hu | right; split; [exact Hfresh | split; [exact Hst | now left]]] |].
  pose proof (save_outcome env (object_key p) (p_md5_hash p) (p_original_filename p)
                (p_mimetype p) (p_filesize p) title description
                (fst (analyze_image_with_gemini env (p_file p))) (stored env p w1))
    as Hs. cbv zeta in Hs. destruct Hs as (Hsb & Hsu & Hsi & _).
  destruct (save _ _ _ _ _ _ _ _ _ _) as [[saved | e] w2]; cbn [fst snd] in *.
  all: unfold stored in Hsb, Hsu, Hsi;
    cbn [emit set_bucket images bucket in_use] in Hsb, Hsu, Hsi, Hst.
  all: split; [cbn [emit in_use]; congruence |].
  all: right; split; [exact Hfresh |]; split; [cbn [emit bucket]; congruence |].
  all: destruct Hsi as [Hsi | [Hsi _]]; [left; cbn [emit images]; congruence |].
  all: right; eexists; split; [cbn [emit images]; rewrite Hsi, Hi; reflexivity |].
  all: cbn; auto.
Qed.

(** The same for any request: what does not pass validation changes
    nothing at all. *)
Lemma upload_image_invalid (req : Request) (w : World) :
  (forall file metadata, ~ passes_validation env req file metadata) ->
  snd (upload_image env req w) = w /\
  (status (fst (upload_image env req w)) = 400%nat \/
   fst (upload_image env req w) = server_error).
Proof.
  intros Hno. unfold upload_image, answer, upload_body, bind.
  destruct (upload_check_cases env req w) as [[error H] | [H | (file & metadata & H)]].
  - rewrite H. cbn. auto.
  - rewrite H. cbn. auto.
  - destruct (Hno _ _ H).
Qed.

End PipelineEffects.

Section PipelineTheorems.

Import App.

Variable env : Env.



End PipelineTheorems.

Section PipelineResults.

Import App.

Variable env : Env.

(** X11.  A client error leaves no trace: whenever [upload_image] answers
    400, the world (table, bucket, pool, log of calls) is exactly what it
    was. *)
Theorem client_error_touches_nothing (req : Request) (w : World) :
  status (fst (upload_image env req w)) = 400%nat ->
  snd (upload_image env req w) = w.
Proof.
  destruct (upload_check_cases env req w) as [[error H] | [H | (file & metadata & Hval)]].
  - unfold upload_image, answer, upload_body, bind. rewrite H. reflexivity.
  - unfold upload_image, answer, upload_body, bind. rewrite H. discriminate.
  - rewrite (upload_image_valid env _ _ _ w Hval).
    destruct (DB.check_image_exists env (fingerprint file) w) as [[[ex |] | e] w1];
      cbn [fst snd]; try discriminate.
    destruct (answer_store_status env (pending_of env file metadata) w1) as [H | H];
      rewrite H; discriminate.
Qed.

(** X12.  Whatever the request and whatever fails, [upload_image] adds at
    most one row, and a row it adds points to an object that is in the
    bucket and whose bytes have the row's fingerprint and size. *)
Theorem rows_point_to_their_object (req : Request) (w : World) :
  let w' := snd (upload_image env req w) in
  images w' = images w \/
  exists row blob,
    images w' = images w ++ [row] /\
    bucket w' !! r_s3_key row = Some blob /\
    MD5.md5_hex (b_data blob) = r_md5_hash row /\
    length (b_data blob) = r_filesize row.
Proof.
  cbv zeta.
  destruct (upload_check_cases env req w) as [[error H] | [H | (file & metadata & Hval)]].
  - left. unfold upload_image, answer, upload_body, bind. now rewrite H.
  - left. unfold upload_image, answer, upload_body, bind. now rewrite H.
  - destruct (upload_image_valid_effects env req file metadata w Hval)
      as (_ & [[Hi _] | (_ & Hb & [Hi | (row & Hi & Hmd5 & Hkey & Hsize)])]);
      [now left | now left |].
    right. exists row, (object_of env (pending_of env file metadata)).
    destruct (pending_object env file metadata) as (Hd & Hm & Hl). cbv zeta in *.
    split; [exact Hi |]. split; [rewrite Hb, Hkey; apply lookup_insert_eq |].
    split; [now rewrite Hm, Hmd5 | now rewrite Hd, Hsize].
Qed.

(** X13.  When the store refuses the object, nothing is written anywhere
    and the answer is never a 201. *)
Theorem storage_failure_writes_nothing (req : Request) (w : World) (e : Py.exn) :
  s3_put env = Some e ->
  let w' := snd (upload_image env req w) in
  images w' = images w /\ bucket w' = bucket w /\ in_use w' = in_use w /\
  status (fst (upload_image env req w)) <> 201%nat.
Proof.
  intros Hput. cbv zeta.
  destruct (upload_check_cases env req w) as [[error H] | [H | (file & metadata & Hval)]].
  - unfold upload_image, answer, upload_body, bind. rewrite H. cbn. auto.
  - unfold upload_image, answer, upload_body, bind. rewrite H. cbn. auto.
  - rewrite (upload_image_valid env _ _ _ w Hval).
    pose proof (check_image_exists_no_write env (fingerprint file) w) as [[Hi Hb] _].
    pose proof (check_image_exists_releases env (fingerprint file) w) as [Hu _].
    destruct (DB.check_image_exists env (fingerprint file) w) as [[[ex |] | e'] w1];
      cbn [fst snd] in *; try (repeat split; auto; discriminate).
    unfold answer. rewrite upload_store_cases, Hput. cbn. auto.
Qed.

(** X14.  Metadata that is JSON but no container (null, a boolean, a
    number) is not answered as a client error: the membership test raises
    and the answer is 500, with nothing touched. *)
Theorem scalar_metadata_is_server_error (req : Request) (file : FileStorage)
        (metadata : Py.value) (w : World) :
  well_formed env req file metadata ->
  (forall items, metadata <> Py.PDict items) ->
  (forall items, metadata <> Py.PList items) ->
  (forall s, metadata <> Py.PStr s) ->
  upload_image env req w = (server_error, w).
Proof.
  intros Hwf Hd Hl Hs. unfold upload_image, answer, upload_body.
  rewrite (upload_check_well_formed env _ _ _ Hwf).
  destruct metadata; try reflexivity.
  - destruct (Hs s eq_refl).
  - destruct (Hl items eq_refl).
  - destruct (Hd items eq_refl).
Qed.

End PipelineResults.

Lemma client_error_touches_nothing_witness :
  snd (App.upload_image Sample.env Cases.req_text Sample.world1) = Sample.world1.
Proof.
  apply (client_error_touches_nothing Sample.env Cases.req_text Sample.world1).
  vm_compute. reflexivity.
Defined.

Lemma storage_failure_writes_nothing_witness :
  images (snd (App.upload_image Cases.env_store_down Sample.req_first world0)) = [] /\
  App.status (fst (App.upload_image Cases.env_store_down Sample.req_first world0))
    <> 201%nat.
Proof.
  destruct (storage_failure_writes_nothing Cases.env_store_down Sample.req_first world0
              Py.NoCredentialsError) as (Hi & _ & _ & Hs).
  - reflexivity.
  - split; [exact Hi | exact Hs].
Defined.

Lemma scalar_metadata_is_server_error_witness :
  App.upload_image Sample.env Cases.req_null world0 = (server_error, world0).
Proof.
  apply (scalar_metadata_is_server_error Sample.env Cases.req_null Sample.file_cat
           Py.PNone world0).
  - split; [reflexivity |]. split; [reflexivity |]. split; [discriminate |].
    split; [reflexivity |]. eexists. reflexivity.
  - intros items. discriminate.
  - intros items. discriminate.
  - intros s. discriminate.
Defined.

Section PipelineSuccess.

Import App.

Variable env : Env.


(** X16.  Metadata that is a JSON array or string holding the words
    passes the key check, since [in] is then a membership or substring
    test; the object is written, and only then does [metadata['title']]
    raise.  The answer is 500, the object stays in the bucket and no row is
    added. *)
Theorem container_metadata_orphans_object (req : Request) (file : FileStorage)
        (metadata : Py.value) (w : World) :
  passes_validation env req file metadata ->
  (forall items, metadata <> Py.PDict items) ->
  db_healthy env Check -> pool_has_room w ->
  s3_put env = None ->
  fresh_md5 (fingerprint file) w ->
  let p := pending_of env file metadata in
  let w' := snd (upload_image env req w) in
  fst (upload_image env req w) = server_error /\
  images w' = images w /\
  bucket w' = <[object_key p := object_of env p]> (bucket w).
Proof.
  intros Hval Hnd Hcheck Hroom Hput Hfresh p w'. subst w'.
  rewrite (upload_image_valid env _ _ _ w Hval).
  destruct (check_image_exists_healthy env (fingerprint file) w Hcheck Hroom)
    as (w1 & Hc & Hi1 & Hb1 & Hu1 & Hl1).
  rewrite Hc. apply matching_fresh in Hfresh. rewrite Hfresh.
  cbn [head fmap option_fmap option_map].
  fold p. unfold answer. rewrite upload_store_cases, Hput.
  change (p_metadata p) with metadata.
  assert (Hg : Py.getitem metadata "title" = inl Py.TypeError).
  { destruct metadata; try reflexivity. destruct (Hnd items eq_refl). }
  rewrite Hg. unfold stored. cbn [fst snd emit set_bucket images bucket].
  rewrite Hi1, Hb1. auto.
Qed.

End PipelineSuccess.


Lemma container_metadata_orphans_object_witness :
  fst (App.upload_image Sample.env Cases.req_words world0) = server_error /\
  images (snd (App.upload_image Sample.env Cases.req_words world0)) = [].
Proof.
  destruct (container_metadata_orphans_object Sample.env Cases.req_words Sample.file_cat
              Cases.words world0) as (Hr & Hi & _).
  - split; [| split; reflexivity].
    split; [reflexivity |]. split; [reflexivity |]. split; [discriminate |].
    split; [reflexivity |]. eexists. reflexivity.
  - intros items. discriminate.
  - intros op. reflexivity.
  - unfold pool_has_room. vm_compute. lia.
  - reflexivity.
  - intros row Hin. inversion Hin.
  - split; [exact Hr | exact Hi].
Defined.

Section Idempotence.

Import App.


(** Requests served one after the other, each in its own environment. *)
Definition serve (calls : list (Env * Request)) (w : World) : World :=
  fold_left (fun w call => snd (upload_image (fst call) (snd call) w)) calls w.

Lemma upload_image_keeps_fingerprints_apart (env : Env) (req : Request) (w : World) :
  one_row_per_fingerprint w ->
  one_row_per_fingerprint (snd (upload_image env req w)).
Proof.
  unfold one_row_per_fingerprint. intros Hnd.
  destruct (upload_check_cases env req w) as [[error H] | [H | (file & metadata & Hval)]].
  - unfold upload_image, answer, upload_body, bind. now rewrite H.
  - unfold upload_image, answer, upload_body, bind. now rewrite H.
  - destruct (upload_image_valid_effects env req file metadata w Hval)
      as (_ & [[Hi _] | (Hfresh & _ & [Hi | (row & Hi & Hmd5 & _)])]);
      rewrite Hi; try exact Hnd.
    rewrite map_app. cbn [map]. apply NoDup_app. split; [exact Hnd |].
    split; [| apply NoDup_singleton].
    intros x Hx Hx'. apply list_elem_of_singleton in Hx'. subst x.
    apply list_elem_of_fmap in Hx as (r & Hr & Hin).
    apply (Hfresh r Hin). congruence.
Qed.

(** X18.  Served one after the other, uploads never leave two rows with
    the same fingerprint, with no help from a constraint of the table and
    whatever fails on the way. *)
Theorem serve_keeps_fingerprints_apart (calls : list (Env * Request)) (w : World) :
  one_row_per_fingerprint w -> one_row_per_fingerprint (serve calls w).
Proof.
  revert w. induction calls as [| [env req] calls IH]; intros w Hw; [exact Hw |].
  cbn [serve fold_left]. apply IH. now apply upload_image_keeps_fingerprints_apart.
Qed.

End Idempotence.


Lemma serve_keeps_fingerprints_apart_witness :
  one_row_per_fingerprint
    (serve [(Sample.env, Sample.req_first); (Sample.env_second, Sample.req_second)]
           world0).
Proof.
  apply (serve_keeps_fingerprints_apart
           [(Sample.env, Sample.req_first); (Sample.env_second, Sample.req_second)] world0).
  apply NoDup_nil_2.
Defined.
Section PipelineFailures.

Import App.

Variable env : Env.

(** X19.  With every connection of the pool checked out, a valid upload is
    answered 500 before anything is looked up or written: the world is
    what it was, log of calls included. *)
Theorem pool_exhausted_is_server_error (req : Request) (file : FileStorage)
        (metadata : Py.value) (w : World) :
  passes_validation env req file metadata ->
  db_fault env Check OpGetconn = None ->
  (DB.MAXCONN <= size (in_use w))%nat ->
  upload_image env req w = (server_error, w).
Proof.
  intros Hval Hok Hfull. rewrite (upload_image_valid env _ _ _ w Hval).
  unfold DB.check_image_exists, DB.unit_of_work.
  rewrite (pool_exhausted env Check w Hok Hfull). reflexivity.
Qed.

(** X20.  The annotation is optional in every way the code can fail: a
    text comes back only when a key is configured, the client could be set
    up, the call returned and its text is not empty.  What is sent is the
    whole content, wherever the stream stood; the content is never changed,
    and without a key the stream is not touched at all. *)
Theorem analyze_image_with_gemini_optional (f : Stream.File) :
  let r := analyze_image_with_gemini env f in
  Stream.content (snd r) = Stream.content f /\
  (forall text, fst r = Some text <->
     gemini_api_key env <> ""%string /\ gemini_ready env = true /\
     gemini_text env (Stream.content f) = Some text /\ text <> ""%string) /\
  (gemini_api_key env = ""%string -> r = (None, f)) /\
  (gemini_api_key env <> ""%string -> gemini_ready env = true ->
   Stream.pos (snd r) = 0%nat).
Proof.
  cbv zeta. unfold analyze_image_with_gemini.
  destruct (String.eqb_spec (gemini_api_key env) "") as [Hk | Hk].
  { cbn [fst snd]. split; [reflexivity |]. split; [| split; [reflexivity | tauto]].
    intros text. split; [discriminate | tauto]. }
  destruct (gemini_ready env) eqn:Hr; cbn [negb].
  2: { cbn [fst snd]. split; [reflexivity |]. split; [| split; [tauto | discriminate]].
       intros text. split; [discriminate | intros (_ & H & _); discriminate]. }
  unfold Stream.read_all, Stream.seek0. cbn [Stream.content Stream.pos]. rewrite drop_0.
  destruct (gemini_text env (Stream.content f)) as [t |] eqn:Ht.
  - cbn [fst snd Stream.content Stream.pos].
    split; [reflexivity |]. split; [| split; [tauto | reflexivity]].
    intros text. destruct (String.eqb_spec t "") as [He | He].
    + split; [discriminate |]. intros (_ & _ & H & Hn). congruence.
    + split.
      * intros H. injection H as <-. auto.
      * intros (_ & _ & H & _). congruence.
  - cbn [fst snd Stream.content Stream.pos].
    split; [reflexivity |]. split; [| split; [tauto | reflexivity]].
    intros text. split; [discriminate | intros (_ & _ & H & _); discriminate].
Qed.

End PipelineFailures.

Lemma pool_exhausted_is_server_error_witness :
  App.upload_image Sample.env Sample.req_first Cases.world_busy
    = (server_error, Cases.world_busy).
Proof.
  apply (pool_exhausted_is_server_error Sample.env Sample.req_first Sample.file_cat
           (Sample.title_and_description "T" "D") Cases.world_busy).
  - split; [| split; reflexivity].
    split; [reflexivity |]. split; [reflexivity |]. split; [discriminate |].
    split; [reflexivity |]. eexists. reflexivity.
  - reflexivity.
  - vm_compute. lia.
Defined.

(** ** simple_app.py: the variant that keeps its records in memory *)

From stdpp Require Import pretty.

Module Simple.

(** A value of [image_storage] (its [storage_type] is always ['memory']). *)
Record Stored : Type := mkStored {
  id : string;
  md5_hash : string;
  original_filename : string;
  mimetype : string;
  filesize : nat;
  title : Py.value;
  description : Py.value
}.

(** [image_storage]: a dict from fingerprints to records, with its items
    in the order the keys were first set. *)
Definition Storage : Type := list (string * Stored).

(** [key in d] *)
Definition contains (key : string) (d : Storage) : bool :=
  existsb (fun kv => String.eqb (fst kv) key) d.

(** [d[key]]; [None] is KeyError. *)
Fixpoint getitem (key : string) (d : Storage) : option Stored :=
  match d with
  | [] => None
  | (k, v) :: rest => if String.eqb k key then Some v else getitem key rest
  end.

(** [d[key] = v]: a key that is there keeps its place and gets the value,
    a new key goes to the end. *)
Fixpoint setitem (key : string) (v : Stored) (d : Storage) : Storage :=
  match d with
  | [] => [(key, v)]
  | (k, x) :: rest =>
      if String.eqb k key then (k, v) :: rest else (k, x) :: setitem key v rest
  end.

Inductive Body : Type :=
| Error (error : string)
| Duplicate (error : string) (existing_id : string) (existing_title : Py.value)
            (existing_description : Py.value)
| Uploaded (message : string) (data : Stored)
| Listing (message : string) (count : nat) (data : list Stored).

Record Response : Type := mkResponse { status : nat; body : Body }.

Definition bad_request (error : string) : Response := mkResponse 400 (Error error).

(** A value, or the exception raised instead of it. *)
Definition and_then {A B} (r : Py.exn + A) (k : A -> Py.exn + B) : Py.exn + B :=
  match r with
  | inl e => inl e
  | inr a => k a
  end.

#[local] Notation "'let?' x := r 'in' k" := (and_then r (fun x => k))
  (at level 10, x name, r at level 100, k at level 200).

(** The body of the [try] of [upload_image].  The one statement that
    changes [image_storage] is the last that can raise, so a run that
    raises leaves the storage as it was. *)
Definition upload_body (env : Env) (req : App.Request) (image_storage : Storage)
  : Py.exn + Response * Storage :=
  match App.image_file req with
  | None => inr (bad_request "No image file provided", image_storage)
  | Some file =>
  match App.metadata_field req with
  | None => inr (bad_request "No metadata provided", image_storage)
  | Some field =>
      if String.eqb (App.filename file) "" then
        inr (bad_request "No file selected", image_storage)
      else if negb (App.allowed_file (App.filename file)) then
        inr (bad_request "Invalid file type", image_storage)
      else
        let '(valid, f1) := App.validate_image env (App.stream file) in
        if negb valid then inr (bad_request "Invalid image file", image_storage)
        else
          match field with
          | App.NotJson => inr (bad_request "Invalid metadata format", image_storage)
          | App.Json metadata =>
              let? has_title := Py.contains "title" metadata in
              let? missing :=
                (if negb has_title then inr true
                 else let? has_description := Py.contains "description" metadata in
                      inr (negb has_description)) in
              if (missing : bool) then
                inr (bad_request "Missing required metadata", image_storage)
              else
                let original_filename := secure_filename env (App.filename file) in
                let mimetype :=
                  match App.content_type file with
                  | Some t => if String.eqb t "" then "application/octet-stream"%string else t
                  | None => "application/octet-stream"%string
                  end in
                let f2 := Stream.seek_end f1 in
                let filesize := Stream.tell f2 in
                let f3 := Stream.seek0 f2 in
                let '(md5_hash, f4) := calculate_md5 f3 in
                if contains md5_hash image_storage then
                  match getitem md5_hash image_storage with
                  | Some existing_image =>
                      inr (mkResponse 409
                             (Duplicate "Image already exists" (id existing_image)
                                        (title existing_image)
                                        (description existing_image)),
                           image_storage)
                  | None => inl Py.KeyError
                  end
                else
                  let image_id := ("img_" ++ pretty (length image_storage + 1))%string in
                  let? title := Py.getitem metadata "title" in
                  let? description := Py.getitem metadata "description" in
                  let saved_metadata :=
                    mkStored image_id md5_hash original_filename mimetype filesize
                             title description in
                  inr (mkResponse 201 (Uploaded "Image uploaded successfully"
                                                saved_metadata),
                       setitem md5_hash saved_metadata image_storage)
          end
  end
  end.

(** [POST /api/upload], behind the key check. *)
Definition upload_image (env : Env) (req : App.Request) (image_storage : Storage)
  : Response * Storage :=
  match upload_body env req image_storage with
  | inr answer => answer
  | inl _ => (mkResponse 500 (Error "Internal server error"), image_storage)
  end.

(** [GET /api/images], behind the key check. *)
Definition list_images (image_storage : Storage) : Response :=
  mkResponse 200 (Listing "Images retrieved successfully" (length image_storage)
                          (map snd image_storage)).

End Simple.

Section SimpleStore.

Import Simple.

Lemma setitem_absent (key : string) (v : Stored) (d : Storage) :
  contains key d = false -> setitem key v d = d ++ [(key, v)].
Proof.
  unfold contains. induction d as [| [k x] d IH]; [reflexivity |].
  cbn [existsb fst setitem app]. intros H. apply orb_false_elim in H as [Hk Hd].
  rewrite Hk. f_equal. auto.
Qed.

Lemma getitem_last (key : string) (v : Stored) (d : Storage) :
  contains key d = false -> getitem key (d ++ [(key, v)]) = Some v.
Proof.
  unfold contains. induction d as [| [k x] d IH]; cbn [existsb fst getitem app].
  - now rewrite String.eqb_refl.
  - intros H. apply orb_false_elim in H as [Hk Hd]. rewrite Hk. auto.
Qed.

Lemma contains_last (key : string) (v : Stored) (d : Storage) :
  contains key (d ++ [(key, v)]) = true.
Proof.
  unfold contains. rewrite existsb_app. cbn. rewrite String.eqb_refl.
  apply orb_true_r.
Qed.

Lemma contains_elem_of (key : string) (d : Storage) :
  contains key d = false <-> key ∉ map fst d.
Proof.
  unfold contains. induction d as [| [k x] d IH]; cbn [existsb map fst].
  - split; [intros _ H; inversion H | reflexivity].
  - rewrite not_elem_of_cons, <- IH. destruct (String.eqb_spec k key) as [-> | Hn]; cbn.
    + split; [discriminate | intros [H _]; congruence].
    + split; [intros H; split; [congruence | exact H] | intros [_ H]; exact H].
Qed.

(** [upload_image] on a request that passes validation. *)
Lemma simple_upload_valid (env : Env) (req : App.Request) (file : App.FileStorage)
      (metadata : Py.value) (image_storage : Storage) :
  passes_validation env req file metadata ->
  upload_body env req image_storage =
    if contains (fingerprint file) image_storage then
      match getitem (fingerprint file) image_storage with
      | Some existing_image =>
          inr (mkResponse 409 (Duplicate "Image already exists" (id existing_image)
                                         (title existing_image)
                                         (description existing_image)),
               image_storage)
      | None => inl Py.KeyError
      end
    else
      and_then (Py.getitem metadata "title") (fun title =>
      and_then (Py.getitem metadata "description") (fun description =>
        let saved_metadata :=
          mkStored ("img_" ++ pretty (length image_storage + 1)) (fingerprint file)
                   (secure_filename env (App.filename file)) (mimetype_of file)
                   (length (Stream.content (App.stream file))) title description in
        inr (mkResponse 201 (Uploaded "Image uploaded successfully" saved_metadata),
             setitem (fingerprint file) saved_metadata image_storage))).
Proof.
  intros ((Hf & Hm & Hname & Hext & p & Hpil) & Ht & Hd).
  unfold upload_body. rewrite Hf, Hm.
  apply String.eqb_neq in Hname. rewrite Hname, Hext. cbn [negb].
  unfold App.validate_image. cbn [Stream.seek0 Stream.content]. rewrite Hpil. cbn [negb].
  rewrite Ht. cbn [and_then negb]. rewrite Hd. cbn [and_then negb].
  unfold Stream.seek_end, Stream.tell. cbn [Stream.seek0 Stream.content Stream.pos].
  rewrite calculate_md5_eq. reflexivity.
Qed.

(** One request: the storage stays as it is and the answer is no 201, or
    the answer is a 201 and its record went to the end of the storage,
    under its fingerprint, which was not a key before, and with the next
    identifier. *)
Lemma simple_upload_step (env : Env) (req : App.Request) (image_storage : Storage) :
  (snd (upload_image env req image_storage) = image_storage /\
   forall message data,
     body (fst (upload_image env req image_storage)) <> Uploaded message data) \/
  exists data,
    upload_image env req image_storage
      = (mkResponse 201 (Uploaded "Image uploaded successfully" data),
         image_storage ++ [(md5_hash data, data)]) /\
    contains (md5_hash data) image_storage = false /\
    id data = ("img_" ++ pretty (length image_storage + 1))%string.
Proof.
  unfold upload_image, upload_body.
  destruct (App.image_file req) as [file |]; [| left; split; [reflexivity | discriminate]].
  destruct (App.metadata_field req) as [field |];
    [| left; split; [reflexivity | discriminate]].
  destruct (String.eqb (App.filename file) "");
    [left; split; [reflexivity | discriminate] |].
  destruct (negb (App.allowed_file (App.filename file)));
    [left; split; [reflexivity | discriminate] |].
  destruct (App.validate_image env (App.stream file)) as [valid f1].
  destruct (negb valid); [left; split; [reflexivity | discriminate] |].
  destruct field as [| metadata]; [left; split; [reflexivity | discriminate] |].
  destruct (Py.contains "title" metadata) as [e | has_title]; cbn [and_then];
    [left; split; [reflexivity | discriminate] |].
  destruct (negb has_title); cbn [and_then];
    [left; split; [reflexivity | discriminate] |].
  destruct (Py.contains "description" metadata) as [e | has_description];
    cbn [and_then]; [left; split; [reflexivity | discriminate] |].
  destruct (negb has_description); [left; split; [reflexivity | discriminate] |].
  destruct (calculate_md5 _) as [h f4].
  destruct (contains h image_storage) eqn:Hc.
  { destruct (getitem h image_storage); left; split; try reflexivity; discriminate. }
  destruct (Py.getitem metadata "title") as [e | t]; cbn [and_then];
    [left; split; [reflexivity | discriminate] |].
  destruct (Py.getitem metadata "description") as [e | d]; cbn [and_then];
    [left; split; [reflexivity | discriminate] |].
  right. eexists (mkStored _ h _ _ _ _ _). split; [| split].
  - rewrite (setitem_absent _ _ _ Hc). reflexivity.
  - exact Hc.
  - reflexivity.
Qed.

(** Requests served one after the other, each in its own environment: the
    storage they leave and the answers they get. *)
Fixpoint serve_simple (calls : list (Env * App.Request)) (image_storage : Storage)
  : Storage :=
  match calls with
  | [] => image_storage
  | (env, req) :: rest => serve_simple rest (snd (upload_image env req image_storage))
  end.

Fixpoint answers (calls : list (Env * App.Request)) (image_storage : Storage)
  : list Response :=
  match calls with
  | [] => []
  | (env, req) :: rest =>
      fst (upload_image env req image_storage)
        :: answers rest (snd (upload_image env req image_storage))
  end.

(** The record a 201 hands out. *)
Definition uploaded (r : Response) : option Stored :=
  match body r with
  | Uploaded _ data => Some data
  | _ => None
  end.

(** Every record sits under its own fingerprint and has the identifier of
    its place: [img_1] for the first, [img_2] for the second, and so on. *)
Definition in_order (image_storage : Storage) : Prop :=
  forall i key data,
    image_storage !! i = Some (key, data) ->
    md5_hash data = key /\ id data = ("img_" ++ pretty (i + 1))%string.

Definition well_kept (image_storage : Storage) : Prop :=
  NoDup (map fst image_storage) /\ in_order image_storage.

Lemma upload_image_well_kept (env : Env) (req : App.Request) (image_storage : Storage) :
  well_kept image_storage -> well_kept (snd (upload_image env req image_storage)).
Proof.
  intros [Hnd Hord].
  destruct (simple_upload_step env req image_storage) as [[-> _] | (data & -> & Hc & Hid)];
    [split; assumption |].
  cbn [snd]. split.
  - rewrite map_app. cbn [map fst]. apply NoDup_app. split; [exact Hnd |].
    split; [| apply NoDup_singleton].
    intros x Hx Hx'. apply list_elem_of_singleton in Hx'. subst x.
    now apply contains_elem_of in Hc.
  - intros i key d Hi. apply lookup_app_Some in Hi as [Hi | [Hlen Hi]]; [eauto |].
    apply list_lookup_singleton_Some in Hi as [Hi Heq]. injection Heq as <- <-.
    split; [reflexivity |]. rewrite Hid. do 2 f_equal. lia.
Qed.

Lemma serve_simple_well_kept (calls : list (Env * App.Request)) :
  forall image_storage, well_kept image_storage -> well_kept (serve_simple calls image_storage).
Proof.
  induction calls as [| [env req] calls IH]; intros st Hst; [exact Hst |].
  cbn [serve_simple]. apply IH. now apply upload_image_well_kept.
Qed.

Lemma in_order_ids (image_storage : Storage) :
  in_order image_storage -> NoDup (map (fun kv => id (snd kv)) image_storage).
Proof.
  intros Hord. apply NoDup_alt. intros i j x Hi Hj.
  rewrite list_lookup_fmap in Hi, Hj.
  apply fmap_Some in Hi as ([k1 d1] & E1 & ->).
  apply fmap_Some in Hj as ([k2 d2] & E2 & Hj).
  destruct (Hord _ _ _ E1) as [_ H1]. destruct (Hord _ _ _ E2) as [_ H2].
  cbn [snd] in Hj. rewrite H1, H2 in Hj.
  cbn in Hj. injection Hj as Hj. apply pretty_nat_inj in Hj. lia.
Qed.

(** X21.  Whatever is uploaded to the empty storage of simple_app.py, in
    whatever order and with whatever requests: no fingerprint is stored
    twice, no two records have the same identifier, every record is stored
    under the fingerprint it carries, and the identifiers are [img_1],
    [img_2], ... in the order of storing. *)
Theorem simple_storage_well_kept (calls : list (Env * App.Request)) :
  let image_storage := serve_simple calls [] in
  NoDup (map fst image_storage) /\
  NoDup (map (fun kv => id (snd kv)) image_storage) /\
  forall i key data,
    image_storage !! i = Some (key, data) ->
    md5_hash data = key /\ id data = ("img_" ++ pretty (i + 1))%string.
Proof.
  cbv zeta.
  destruct (serve_simple_well_kept calls []) as [Hnd Hord].
  { split; [apply NoDup_nil_2 | intros i key data Hi; inversion Hi]. }
  split; [exact Hnd |]. split; [now apply in_order_ids | exact Hord].
Qed.

(** X22.  In simple_app.py a second upload of content that was stored is
    answered 409 with the identifier, title and description of the record
    the 201 handed out, and the storage stays as the first upload left
    it. *)
Theorem simple_second_upload_is_duplicate (env1 env2 : Env) (req1 req2 : App.Request)
        (file2 : App.FileStorage) (metadata2 : Py.value) (image_storage : Storage)
        (message : string) (data : Stored) :
  fst (upload_image env1 req1 image_storage) = mkResponse 201 (Uploaded message data) ->
  passes_validation env2 req2 file2 metadata2 ->
  fingerprint file2 = md5_hash data ->
  upload_image env2 req2 (snd (upload_image env1 req1 image_storage))
    = (mkResponse 409 (Duplicate "Image already exists" (id data) (title data)
                                 (description data)),
       snd (upload_image env1 req1 image_storage)).
Proof.
  intros H201 Hval Hfp.
  destruct (simple_upload_step env1 req1 image_storage)
    as [[_ Hno] | (data' & Heq & Hc & _)].
  { rewrite H201 in Hno. destruct (Hno message data eq_refl). }
  rewrite Heq in H201 |- *. cbn [fst snd] in *. injection H201 as _ ->.
  unfold upload_image. rewrite (simple_upload_valid env2 _ _ _ _ Hval), Hfp.
  now rewrite contains_last, (getitem_last _ _ _ Hc).
Qed.

(** X23.  [GET /api/images] after any uploads to the empty storage lists
    exactly the records the 201 answers handed out, in that order, and
    counts them. *)
Theorem list_images_lists_uploads (calls : list (Env * App.Request)) :
  list_images (serve_simple calls [])
    = mkResponse 200 (Listing "Images retrieved successfully"
                              (length (omap uploaded (answers calls [])))
                              (omap uploaded (answers calls []))).
Proof.
  assert (H : forall st, map snd (serve_simple calls st)
                         = map snd st ++ omap uploaded (answers calls st)).
  { induction calls as [| [env req] calls IH]; intros st; cbn [serve_simple answers].
    - cbn. now rewrite app_nil_r.
    - rewrite IH. cbn [omap list_omap].
      destruct (simple_upload_step env req st) as [[Hst Hno] | (data & Heq & _)].
      + rewrite Hst.
        assert (Hu : uploaded (fst (upload_image env req st)) = None).
        { unfold uploaded. destruct (body _) eqn:Hb; try reflexivity.
          destruct (Hno _ _ eq_refl). }
        now rewrite Hu.
      + rewrite Heq. cbn [fst snd uploaded body]. rewrite map_app. cbn [map snd].
        now rewrite <- app_assoc. }
  unfold list_images. rewrite <- (length_map snd), (H []). reflexivity.
Qed.

End SimpleStore.

Lemma simple_second_upload_is_duplicate_witness :
  Simple.status
    (fst (Simple.upload_image Sample.env_second Sample.req_second
            (snd (Simple.upload_image Sample.env Sample.req_first [])))) = 409%nat.
Proof.
  rewrite (simple_second_upload_is_duplicate Sample.env Sample.env_second Sample.req_first
             Sample.req_second Sample.file_copy (Sample.title_and_description "T2" "D2")
             [] "Image uploaded successfully"
             (Simple.mkStored "img_1" "2e96307f349b7acd1eb25650da567302" "cat.jpg"
                              "image/jpeg" 31 (Py.PStr "T") (Py.PStr "D"))).
  - reflexivity.
  - vm_compute. reflexivity.
  - split; [| split; reflexivity].
    split; [reflexivity |]. split; [reflexivity |]. split; [discriminate |].
    split; [reflexivity |]. eexists. reflexivity.
  - vm_compute. reflexivity.
Defined.
